(** * ToDoZen: task store, recurrence engine and notification scheduler

    A shallow embedding of the two task managers of the repository,
    [task.py] (class [ToDoZen], JSON / Mongo storage) and
    [upgraded_task.py] (class [ToDoZenApp], SQLite storage), together with
    the parts of Python's [datetime], [dateutil.relativedelta] and [json]
    that their recurrence and notification code calls. *)

From Stdlib Require Import ZArith Lia List Bool Ascii String.
From stdpp Require Import base option list strings gmap.

Local Open Scope Z_scope.

(** ** Outcomes of Python calls

    A call either returns, raises, or leaves the fragment of Python values
    this development models (floating point numbers, code points above 255).
    The third case is kept apart so that it is never mistaken for a raise. *)

Inductive exn : Type :=
| AttributeError
| TypeError
| ValueError
| IndexError
| OverflowError
| JSONDecodeError.

Inductive outcome (A : Type) : Type :=
| Ok (a : A)
| Raise (e : exn)
| OutOfModel.

Arguments Ok {A} a.
Arguments Raise {A} e.
Arguments OutOfModel {A}.

Definition obind {A B} (m : outcome A) (k : A -> outcome B) : outcome B :=
  match m with
  | Ok a => k a
  | Raise e => Raise e
  | OutOfModel => OutOfModel
  end.

#[global] Instance outcome_ret : MRet outcome := fun A a => Ok a.
#[global] Instance outcome_bind : MBind outcome := fun A B k m => obind m k.

(** ** The proleptic Gregorian calendar of [datetime] *)

Module Calendar.

Definition MAXYEAR : Z := 9999.
Definition MAXORDINAL : Z := 3652059.

Definition is_leap (year : Z) : bool :=
  (year mod 4 =? 0) && (negb (year mod 100 =? 0) || (year mod 400 =? 0)).

Definition DAYS_IN_MONTH (month : Z) : Z :=
  match month with
  | 1 => 31 | 2 => 28 | 3 => 31 | 4 => 30 | 5 => 31 | 6 => 30
  | 7 => 31 | 8 => 31 | 9 => 30 | 10 => 31 | 11 => 30 | 12 => 31
  | _ => -1
  end.

Definition DAYS_BEFORE_MONTH (month : Z) : Z :=
  match month with
  | 1 => 0 | 2 => 31 | 3 => 59 | 4 => 90 | 5 => 120 | 6 => 151
  | 7 => 181 | 8 => 212 | 9 => 243 | 10 => 273 | 11 => 304 | 12 => 334
  | _ => -1
  end.

Definition days_before_year (year : Z) : Z :=
  let y := year - 1 in
  y * 365 + y / 4 - y / 100 + y / 400.

Definition days_in_month (year month : Z) : Z :=
  if (month =? 2) && is_leap year then 29 else DAYS_IN_MONTH month.

Definition days_before_month (year month : Z) : Z :=
  DAYS_BEFORE_MONTH month + (if (2 <? month) && is_leap year then 1 else 0).

Definition ymd2ord (year month day : Z) : Z :=
  days_before_year year + days_before_month year month + day.

Definition DI400Y : Z := 146097.
Definition DI100Y : Z := 36524.
Definition DI4Y : Z := 1461.

(** [_ord2ymd]: ordinal to (year, month, day), 1 being 0001-01-01. *)
Definition ord2ymd (n : Z) : Z * Z * Z :=
  let n := n - 1 in
  let n400 := n / DI400Y in
  let n := n mod DI400Y in
  let year := n400 * 400 + 1 in
  let n100 := n / DI100Y in
  let n := n mod DI100Y in
  let n4 := n / DI4Y in
  let n := n mod DI4Y in
  let n1 := n / 365 in
  let n := n mod 365 in
  let year := year + n100 * 100 + n4 * 4 + n1 in
  if (n1 =? 4) || (n100 =? 4) then (year - 1, 12, 31)
  else
    let leapyear := (n1 =? 3) && (negb (n4 =? 24) || (n100 =? 3)) in
    let month := Z.shiftr (n + 50) 5 in
    let preceding :=
      DAYS_BEFORE_MONTH month + (if (2 <? month) && leapyear then 1 else 0) in
    if n <? preceding then
      let month := month - 1 in
      let preceding :=
        preceding - (DAYS_IN_MONTH month
                     + (if (month =? 2) && leapyear then 1 else 0)) in
      (year, month, n - preceding + 1)
    else (year, month, n - preceding + 1).

(** The month search at the end of [ord2ymd], on its own: month and day
    of the [n]-th day (from 0) of a year. *)
Definition month_day (leapyear : bool) (n : Z) : Z * Z :=
  let month := Z.shiftr (n + 50) 5 in
  let preceding :=
    DAYS_BEFORE_MONTH month + (if (2 <? month) && leapyear then 1 else 0) in
  if n <? preceding then
    let month := month - 1 in
    let preceding :=
      preceding - (DAYS_IN_MONTH month
                   + (if (month =? 2) && leapyear then 1 else 0)) in
    (month, n - preceding + 1)
  else (month, n - preceding + 1).

Definition month_day_ok (leap : bool) (r : Z) : bool :=
  let '(m, d) := month_day leap r in
  (1 <=? m) && (m <=? 12) && (1 <=? d)
  && (d <=? DAYS_IN_MONTH m + (if (m =? 2) && leap then 1 else 0))
  && (DAYS_BEFORE_MONTH m + (if (2 <? m) && leap then 1 else 0) + d =? r + 1).

(** A calendar date as [date(year, month, day)] accepts it. *)
Definition valid_date (y m d : Z) : Prop :=
  1 <= y <= MAXYEAR /\ 1 <= m <= 12 /\ 1 <= d <= days_in_month y m.

Definition valid_dateb (y m d : Z) : bool :=
  (1 <=? y) && (y <=? MAXYEAR) && (1 <=? m) && (m <=? 12)
  && (1 <=? d) && (d <=? days_in_month y m).

End Calendar.

(** ** Decimal text *)

Module Decimal.

Definition is_digit (c : ascii) : bool :=
  let n := N_of_ascii c in ((48 <=? n) && (n <=? 57))%N.

Definition digit_value (c : ascii) : Z := Z.of_N (N_of_ascii c) - 48.

Definition digit_char (d : Z) : ascii := ascii_of_N (Z.to_N (48 + d)).

(** Value of a run of decimal digits, most significant first. *)
Fixpoint digits_value (acc : Z) (cs : list ascii) : Z :=
  match cs with
  | [] => acc
  | c :: cs => digits_value (10 * acc + digit_value c) cs
  end.

Definition all_digits (cs : list ascii) : bool := forallb is_digit cs.

(** A fixed-width numeric field as [int] reads it inside the ISO parsers. *)
Definition field (cs : list ascii) : option Z :=
  if all_digits cs then Some (digits_value 0 cs) else None.

Fixpoint nat_digits (fuel : nat) (n : Z) (acc : list ascii) : list ascii :=
  match fuel with
  | O => acc
  | S fuel =>
      let acc := digit_char (n mod 10) :: acc in
      if n <? 10 then acc else nat_digits fuel (n / 10) acc
  end.

(** [str(n)] for an [int]. *)
Definition str_of_Z (n : Z) : list ascii :=
  let m := Z.abs n in
  let ds := nat_digits (S (Z.to_nat (Z.log2 m))) m [] in
  if n <? 0 then "-"%char :: ds else ds.

(** ["%0<w>d" % n] for [n >= 0]. *)
Definition zero_pad (width : nat) (n : Z) : list ascii :=
  let ds := str_of_Z n in
  List.repeat "0"%char (width - List.length ds) ++ ds.

(** Digit runs as [str] writes them: digits, and so never the letter
    [m]. *)
Definition plain_digits (cs : list ascii) : Prop :=
  Forall (fun c => is_digit c = true /\ Ascii.eqb c "m" = false) cs.

End Decimal.

(** ** Naive [datetime] values, [timedelta] and [relativedelta]

    Only naive values (no [tzinfo]) are modelled: the applications build
    every due time from a calendar date and an hour and minute, and read the
    clock with [datetime.now()]. *)

Module Datetime.
Import Calendar Decimal.

Record datetime : Type := mkdt {
  year : Z; month : Z; day : Z;
  hour : Z; minute : Z; second : Z; microsecond : Z
}.

#[global] Instance datetime_eq_dec : EqDecision datetime.
Proof. solve_decision. Defined.

Definition valid (d : datetime) : Prop :=
  valid_date (year d) (month d) (day d)
  /\ 0 <= hour d < 24 /\ 0 <= minute d < 60 /\ 0 <= second d < 60
  /\ 0 <= microsecond d < 1000000.

Definition validb (d : datetime) : bool :=
  valid_dateb (year d) (month d) (day d)
  && (0 <=? hour d) && (hour d <? 24)
  && (0 <=? minute d) && (minute d <? 60)
  && (0 <=? second d) && (second d <? 60)
  && (0 <=? microsecond d) && (microsecond d <? 1000000).

(** [date] objects are (year, month, day). *)
Definition date : Type := (Z * Z * Z)%type.

Definition date_of (d : datetime) : date := (year d, month d, day d).

Definition toordinal (d : datetime) : Z := ymd2ord (year d) (month d) (day d).
Definition date_toordinal (d : date) : Z :=
  let '(y, m, dd) := d in ymd2ord y m dd.

(** [weekday()]: Monday is 0, Sunday is 6. *)
Definition weekday (d : datetime) : Z := (toordinal d + 6) mod 7.

(** The time of day, as microseconds since midnight. *)
Definition time_of_day (d : datetime) : Z :=
  ((hour d * 3600 + minute d * 60 + second d) * 1000000) + microsecond d.

Definition US_PER_DAY : Z := 86400 * 1000000.

(** A [timedelta] is kept as its total number of microseconds, which
    determines its normalised (days, seconds, microseconds). *)
Definition timedelta : Type := Z.
Definition td_days (n : Z) : timedelta := n * US_PER_DAY.
Definition td_weeks (n : Z) : timedelta := td_days (7 * n).
Definition td_minutes (n : Z) : timedelta := n * 60 * 1000000.

(** Microseconds from the start of day 0 of the calendar; the order of
    naive datetimes is the order of these numbers. *)
Definition to_micro (d : datetime) : Z :=
  toordinal d * US_PER_DAY + time_of_day d.

(** [datetime.__add__]: the sum is renormalised and rebuilt from its
    ordinal; a result outside years 1..9999 raises [OverflowError]. *)
Definition add (d : datetime) (delta : timedelta) : outcome datetime :=
  let total := to_micro d + delta in
  let days := total / US_PER_DAY in
  let rest := total mod US_PER_DAY in
  let secs := rest / 1000000 in
  let us := rest mod 1000000 in
  let h := secs / 3600 in
  let rem := secs mod 3600 in
  if (0 <? days) && (days <=? MAXORDINAL) then
    let '(y, m, dd) := ord2ymd days in
    Ok (mkdt y m dd h (rem / 60) (rem mod 60) us)
  else Raise OverflowError.

(** [date - timedelta(days=n)]. *)
Definition date_sub_days (d : date) (n : Z) : outcome date :=
  let o := date_toordinal d - n in
  if (0 <? o) && (o <=? MAXORDINAL) then Ok (ord2ymd o)
  else Raise OverflowError.

(** Naive datetimes compare as the tuples of their fields. *)
Definition fields (d : datetime) : list Z :=
  [year d; month d; day d; hour d; minute d; second d; microsecond d].

Fixpoint lex_leb (a b : list Z) : bool :=
  match a, b with
  | [], _ => true
  | _ :: _, [] => false
  | x :: a, y :: b => (x <? y) || ((x =? y) && lex_leb a b)
  end.

Definition leb (a b : datetime) : bool := lex_leb (fields a) (fields b).

(** [dt + relativedelta(months=1)] as dateutil computes it: step the
    month, clip the day to the length of the new month, [replace], then add
    the (zero) day and time offsets of the relativedelta. *)
Definition add_one_month (d : datetime) : outcome datetime :=
  let y := year d in
  let m := month d + 1 in
  let '(y, m) := if 12 <? m then (y + 1, m - 12) else (y, m) in
  let dd := Z.min (days_in_month y m) (day d) in
  if (1 <=? y) && (y <=? MAXYEAR) then
    add (mkdt y m dd (hour d) (minute d) (second d) (microsecond d)) 0
  else Raise ValueError.

(** [isoformat()] of a naive datetime. *)
Definition isoformat (d : datetime) : string :=
  string_of_list_ascii
    (zero_pad 4 (year d) ++ "-"%char :: zero_pad 2 (month d)
     ++ "-"%char :: zero_pad 2 (day d)
     ++ "T"%char :: zero_pad 2 (hour d)
     ++ ":"%char :: zero_pad 2 (minute d)
     ++ ":"%char :: zero_pad 2 (second d)
     ++ (if microsecond d =? 0 then []
         else "."%char :: zero_pad 6 (microsecond d))).

Definition is_sep (c : ascii) : bool :=
  (Ascii.eqb c "T" || Ascii.eqb c " ")%char.

(** The time part after the separator: HH, HH:MM, HH:MM:SS, and a
    fraction of three or six digits. *)
Definition parse_time (cs : list ascii) : option (Z * Z * Z * Z) :=
  match cs with
  | [h1; h2] =>
      h ← field [h1; h2]; Some (h, 0, 0, 0)
  | [h1; h2; c1; m1; m2] =>
      h ← field [h1; h2]; m ← field [m1; m2];
      if Ascii.eqb c1 ":" then Some (h, m, 0, 0) else None
  | h1 :: h2 :: c1 :: m1 :: m2 :: c2 :: s1 :: s2 :: frac =>
      h ← field [h1; h2]; m ← field [m1; m2]; s ← field [s1; s2];
      if Ascii.eqb c1 ":" && Ascii.eqb c2 ":" then
        match frac with
        | [] => Some (h, m, s, 0)
        | [dot; f1; f2; f3] =>
            f ← field [f1; f2; f3];
            if Ascii.eqb dot "." then Some (h, m, s, f * 1000) else None
        | [dot; f1; f2; f3; f4; f5; f6] =>
            f ← field [f1; f2; f3; f4; f5; f6];
            if Ascii.eqb dot "." then Some (h, m, s, f) else None
        | _ => None
        end
      else None
  | _ => None
  end.

Definition parse_naive (cs : list ascii) : option datetime :=
  match cs with
  | y1 :: y2 :: y3 :: y4 :: c1 :: m1 :: m2 :: c2 :: d1 :: d2 :: rest =>
      y ← field [y1; y2; y3; y4]; m ← field [m1; m2]; d ← field [d1; d2];
      if Ascii.eqb c1 "-" && Ascii.eqb c2 "-" then
        match rest with
        | [] => Some (mkdt y m d 0 0 0 0)
        | sep :: t =>
            '(h, mi, s, us) ← parse_time t;
            if is_sep sep then Some (mkdt y m d h mi s us) else None
        end
      else None
  | _ => None
  end.

(** [datetime.fromisoformat].  Three answers are told apart: a naive
    value in the shape [isoformat] writes ([Ok]); text every Python version
    rejects, because it is shorter than seven characters or does not start
    with four digits ([Raise ValueError]); and everything else, whose
    reading depends on the Python version or yields an aware value
    ([OutOfModel]). *)
Definition fromisoformat (s : string) : outcome datetime :=
  let cs := list_ascii_of_string s in
  if (List.length cs <? 7)%nat || negb (all_digits (take 4 cs)) then
    Raise ValueError
  else
    match parse_naive cs with
    | Some d => if validb d then Ok d else OutOfModel
    | None => OutOfModel
    end.

End Datetime.

(** ** The [json] module

    JSON values are the Python values [json.loads] builds: [None], [bool],
    [int], [str], [list] and [dict] (an insertion-ordered association list
    with unique keys).  Numbers with a fraction or an exponent, the literals
    [NaN] and [Infinity], and escapes above code point 255 are outside the
    model; the interpreter's recursion limit is not modelled. *)

Module Json.
Import Decimal.

#[warnings="-register-all"]
Inductive json : Type :=
| JNull
| JBool (b : bool)
| JInt (n : Z)
| JStr (s : string)
| JArr (items : list json)
| JObj (members : list (string * json)).

(** [d[k] = v] on an insertion-ordered dict. *)
Fixpoint dict_set (k : string) (v : json) (d : list (string * json))
  : list (string * json) :=
  match d with
  | [] => [(k, v)]
  | (k', v') :: d =>
      if String.eqb k k' then (k, v) :: d else (k', v') :: dict_set k v d
  end.

(** [d.get(k)]. *)
Fixpoint dict_get (k : string) (d : list (string * json)) : option json :=
  match d with
  | [] => None
  | (k', v) :: d => if String.eqb k k' then Some v else dict_get k d
  end.

(** Python truthiness of a JSON value. *)
Definition truthy (v : json) : bool :=
  match v with
  | JNull => false
  | JBool b => b
  | JInt n => negb (n =? 0)
  | JStr s => negb (String.eqb s "")
  | JArr l => match l with [] => false | _ => true end
  | JObj d => match d with [] => false | _ => true end
  end.

(** *** [json.dumps] with the default separators and [ensure_ascii]. *)

Definition dquote : ascii := ascii_of_N 34.

Definition hex_digit (n : N) : ascii :=
  if (n <? 10)%N then ascii_of_N (48 + n) else ascii_of_N (87 + n).

Definition escape_char (c : ascii) : list ascii :=
  let n := N_of_ascii c in
  if Ascii.eqb c dquote then ["\"%char; dquote]
  else if Ascii.eqb c "\" then ["\"; "\"]%char
  else if (n =? 10)%N then ["\"; "n"]%char
  else if (n =? 13)%N then ["\"; "r"]%char
  else if (n =? 9)%N then ["\"; "t"]%char
  else if (n =? 8)%N then ["\"; "b"]%char
  else if (n =? 12)%N then ["\"; "f"]%char
  else if ((32 <=? n) && (n <=? 126))%N then [c]
  else ["\"; "u"; "0"; "0"; hex_digit (n / 16); hex_digit (n mod 16)]%char.

Definition dumps_string (s : string) : list ascii :=
  dquote :: flat_map escape_char (list_ascii_of_string s) ++ [dquote].

Definition comma_space : list ascii := [","; " "]%char.

Fixpoint join (sep : list ascii) (parts : list (list ascii)) : list ascii :=
  match parts with
  | [] => []
  | [p] => p
  | p :: parts => p ++ sep ++ join sep parts
  end.

Fixpoint dumps_chars (v : json) : list ascii :=
  match v with
  | JNull => list_ascii_of_string "null"
  | JBool true => list_ascii_of_string "true"
  | JBool false => list_ascii_of_string "false"
  | JInt n => str_of_Z n
  | JStr s => dumps_string s
  | JArr l => "["%char :: join comma_space (List.map dumps_chars l) ++ ["]"%char]
  | JObj d =>
      "{"%char
      :: join comma_space
           (List.map (fun kv => dumps_string (fst kv) ++ [":"; " "]%char
                                ++ dumps_chars (snd kv)) d)
      ++ ["}"%char]
  end.

Definition dumps (v : json) : string := string_of_list_ascii (dumps_chars v).

(** *** [json.loads] *)

Definition is_ws (c : ascii) : bool :=
  let n := N_of_ascii c in
  ((n =? 32) || (n =? 9) || (n =? 10) || (n =? 13))%N.

Fixpoint skip_ws (cs : list ascii) : list ascii :=
  match cs with
  | c :: cs' => if is_ws c then skip_ws cs' else cs
  | [] => []
  end.

Definition hex_value (c : ascii) : option N :=
  let n := N_of_ascii c in
  if ((48 <=? n) && (n <=? 57))%N then Some (n - 48)%N
  else if ((97 <=? n) && (n <=? 102))%N then Some (n - 87)%N
  else if ((65 <=? n) && (n <=? 70))%N then Some (n - 55)%N
  else None.

(** [py_scanstring] in strict mode, after the opening quote: the decoded
    characters (reversed in [acc]) and the text after the closing quote. *)
Fixpoint scan_string (cs : list ascii) (acc : list ascii)
  : outcome (string * list ascii) :=
  match cs with
  | [] => Raise JSONDecodeError
  | c :: cs =>
      if Ascii.eqb c dquote then Ok (string_of_list_ascii (rev acc), cs)
      else if Ascii.eqb c "\" then
        match cs with
        | [] => Raise JSONDecodeError
        | e :: cs =>
            if Ascii.eqb e dquote then scan_string cs (dquote :: acc)
            else if Ascii.eqb e "\" then scan_string cs ("\"%char :: acc)
            else if Ascii.eqb e "/" then scan_string cs ("/"%char :: acc)
            else if Ascii.eqb e "b" then scan_string cs (ascii_of_N 8 :: acc)
            else if Ascii.eqb e "f" then scan_string cs (ascii_of_N 12 :: acc)
            else if Ascii.eqb e "n" then scan_string cs (ascii_of_N 10 :: acc)
            else if Ascii.eqb e "r" then scan_string cs (ascii_of_N 13 :: acc)
            else if Ascii.eqb e "t" then scan_string cs (ascii_of_N 9 :: acc)
            else if Ascii.eqb e "u" then
              match cs with
              | h1 :: h2 :: h3 :: h4 :: cs =>
                  match hex_value h1, hex_value h2, hex_value h3, hex_value h4 with
                  | Some a, Some b, Some c, Some d =>
                      let n := (((a * 16 + b) * 16 + c) * 16 + d)%N in
                      if (n <? 256)%N then scan_string cs (ascii_of_N n :: acc)
                      else OutOfModel
                  | _, _, _, _ => Raise JSONDecodeError
                  end
              | _ => Raise JSONDecodeError
              end
            else Raise JSONDecodeError
        end
      else if (N_of_ascii c <? 32)%N then Raise JSONDecodeError
      else scan_string cs (c :: acc)
  end.

Fixpoint span_digits (cs : list ascii) : list ascii * list ascii :=
  match cs with
  | c :: cs' =>
      if is_digit c then let '(ds, r) := span_digits cs' in (c :: ds, r)
      else ([], cs)
  | [] => ([], [])
  end.

(** The integer part of [NUMBER_RE]: [0] or a digit run not starting
    with [0]. *)
Definition span_int (cs : list ascii) : option (list ascii * list ascii) :=
  match cs with
  | c :: cs' =>
      if Ascii.eqb c "0" then Some ([c], cs')
      else if is_digit c then Some (span_digits cs)
      else None
  | [] => None
  end.

(** Does a fraction [.d+] or an exponent [[eE][-+]?d+] follow? *)
Definition float_follows (cs : list ascii) : bool :=
  match cs with
  | c :: d :: rest =>
      (Ascii.eqb c "." && is_digit d)
      || ((Ascii.eqb c "e" || Ascii.eqb c "E")
          && (is_digit d
              || ((Ascii.eqb d "+" || Ascii.eqb d "-")
                  && match rest with x :: _ => is_digit x | [] => false end)))
  | _ => false
  end.

Definition scan_number (neg : bool) (cs : list ascii)
  : outcome (json * list ascii) :=
  match span_int cs with
  | None => Raise JSONDecodeError
  | Some (ds, rest) =>
      if float_follows rest then OutOfModel
      else if (4300 <? List.length ds)%nat then OutOfModel
      else
        let n := digits_value 0 ds in
        Ok (JInt (if neg then - n else n), rest)
  end.

Fixpoint strip_prefix (p cs : list ascii) : option (list ascii) :=
  match p, cs with
  | [], _ => Some cs
  | a :: p, c :: cs => if Ascii.eqb a c then strip_prefix p cs else None
  | _ :: _, [] => None
  end.

Definition literal (word : string) (v : json) (cs : list ascii)
  : outcome (json * list ascii) :=
  match strip_prefix (list_ascii_of_string word) cs with
  | Some rest => Ok (v, rest)
  | None => Raise JSONDecodeError
  end.

Definition starts_with (word : string) (cs : list ascii) : bool :=
  match strip_prefix (list_ascii_of_string word) cs with
  | Some _ => true
  | None => false
  end.

(** [scan_once], [JSONArray] and [JSONObject].  [fuel] bounds the number
    of nested calls; a value and its item loop consume a character between
    them, so twice the length of the text is enough. *)
Fixpoint scan_once (fuel : nat) (cs : list ascii)
  : outcome (json * list ascii) :=
  match fuel with
  | O => OutOfModel
  | S fuel =>
      match cs with
      | [] => Raise JSONDecodeError
      | c :: rest =>
          if Ascii.eqb c dquote then
            '(s, rest) ← scan_string rest []; Ok (JStr s, rest)
          else if Ascii.eqb c "{" then
            let rest := skip_ws rest in
            match rest with
            | c' :: rest' =>
                if Ascii.eqb c' "}" then Ok (JObj [], rest')
                else if Ascii.eqb c' dquote then
                  '(d, rest) ← scan_members fuel rest' [];
                  Ok (JObj d, rest)
                else Raise JSONDecodeError
            | [] => Raise JSONDecodeError
            end
          else if Ascii.eqb c "[" then
            let rest := skip_ws rest in
            match rest with
            | c' :: rest' =>
                if Ascii.eqb c' "]" then Ok (JArr [], rest')
                else
                  '(l, rest) ← scan_items fuel rest [];
                  Ok (JArr l, rest)
            | [] => Raise JSONDecodeError
            end
          else if Ascii.eqb c "n" then literal "null" JNull cs
          else if Ascii.eqb c "t" then literal "true" (JBool true) cs
          else if Ascii.eqb c "f" then literal "false" (JBool false) cs
          else if is_digit c then scan_number false cs
          else if Ascii.eqb c "-" then
            match span_int rest with
            | Some _ => scan_number true rest
            | None =>
                if starts_with "Infinity" rest then OutOfModel
                else Raise JSONDecodeError
            end
          else if starts_with "NaN" cs || starts_with "Infinity" cs
          then OutOfModel
          else Raise JSONDecodeError
      end
  end

(** Array items from the first value on; [acc] is reversed. *)
with scan_items (fuel : nat) (cs : list ascii) (acc : list json)
  : outcome (list json * list ascii) :=
  match fuel with
  | O => OutOfModel
  | S fuel =>
      '(v, rest) ← scan_once fuel cs;
      match skip_ws rest with
      | c :: rest =>
          if Ascii.eqb c "]" then Ok (rev (v :: acc), rest)
          else if Ascii.eqb c "," then scan_items fuel (skip_ws rest) (v :: acc)
          else Raise JSONDecodeError
      | [] => Raise JSONDecodeError
      end
  end

(** Object members, positioned after the opening quote of a key. *)
with scan_members (fuel : nat) (cs : list ascii) (acc : list (string * json))
  : outcome (list (string * json) * list ascii) :=
  match fuel with
  | O => OutOfModel
  | S fuel =>
      '(k, rest) ← scan_string cs [];
      match skip_ws rest with
      | c :: rest =>
          if Ascii.eqb c ":" then
            '(v, rest) ← scan_once fuel (skip_ws rest);
            let acc := dict_set k v acc in
            match skip_ws rest with
            | c :: rest =>
                if Ascii.eqb c "}" then Ok (acc, rest)
                else if Ascii.eqb c "," then
                  match skip_ws rest with
                  | q :: rest =>
                      if Ascii.eqb q dquote then scan_members fuel rest acc
                      else Raise JSONDecodeError
                  | [] => Raise JSONDecodeError
                  end
                else Raise JSONDecodeError
            | [] => Raise JSONDecodeError
            end
          else Raise JSONDecodeError
      | [] => Raise JSONDecodeError
      end
  end.

(** [json.loads]: one value between optional whitespace, nothing after. *)
Definition loads (s : string) : outcome json :=
  let cs := list_ascii_of_string s in
  '(v, rest) ← scan_once (S (2 * List.length cs)) (skip_ws cs);
  match skip_ws rest with
  | [] => Ok v
  | _ :: _ => Raise JSONDecodeError
  end.

End Json.

(** ** Text helpers of [str] *)

Module Text.

(** [str.lower] on code points below 256. *)
Definition lower_char (c : ascii) : ascii :=
  let n := N_of_ascii c in
  if ((65 <=? n) && (n <=? 90))%N then ascii_of_N (n + 32)
  else if ((192 <=? n) && (n <=? 222) && negb (n =? 215))%N
  then ascii_of_N (n + 32)
  else c.

Fixpoint lower (s : string) : string :=
  match s with
  | EmptyString => EmptyString
  | String c s => String (lower_char c) (lower s)
  end.

(** [needle in s]. *)
Fixpoint contains (needle s : string) : bool :=
  String.prefix needle s
  || match s with
     | EmptyString => false
     | String _ s' => contains needle s'
     end.

(** [s.replace(c, "")] for a one-character [c]. *)
Fixpoint remove_char (c : ascii) (s : string) : string :=
  match s with
  | EmptyString => EmptyString
  | String a s => if Ascii.eqb a c then remove_char c s
                  else String a (remove_char c s)
  end.

Definition len (s : string) : Z := Z.of_nat (String.length s).

(** [bool(s)] for an optional string: [None] and [""] are falsy. *)
Definition nonempty (s : option string) : bool :=
  match s with
  | Some s => negb (String.eqb s "")
  | None => false
  end.

End Text.

(** ** [upgraded_task.py]: the SQLite store

    The two tables are kept as lists of rows in row order.  The optional
    Mongo mirror of this file only receives copies and is never read back,
    so it is left out of the store's state. *)

Module Storage.
Import Json.

(** A row of [tasks].  [id], [created], [recurrence] and
    [recurrence_extra] are never written as NULL by [add_task]. *)
Record row : Type := mkrow {
  r_id : string;
  r_user : option string;
  r_title : option string;
  r_category : option string;
  r_due : option string;
  r_created : string;
  r_done : Z;
  r_recurrence : string;
  r_recurrence_extra : string;
  r_notified : Z;
  r_xp : Z
}.

(** A row of [users]. *)
Record user_row : Type := mkuser {
  u_username : string;
  u_password_hash : string;
  u_coins : option Z;
  u_streak : option Z;
  u_last_completed : option string
}.

Record storage : Type := mkstorage {
  tasks : list row;
  users : list user_row
}.

(** The task dict handed to [add_task], field by field as [task.get]
    reads it: [None] is an absent key or a [None] value, [t_done] and
    [t_notified] are the truthiness of the value, and
    [t_recurrence_extra] is the Python value under that key ([None] when
    the key is absent): a dict when the form built the task, a [str] when
    the dict was read from a row or from a backup file. *)
Record task : Type := mktask {
  t_id : option string;
  t_user : option string;
  t_title : option string;
  t_category : option string;
  t_due : option string;
  t_created : option string;
  t_done : bool;
  t_recurrence : option string;
  t_recurrence_extra : option json;
  t_notified : bool;
  t_xp : Z
}.

(** [x or default] on an optional string. *)
Definition str_or (x : option string) (default : string) : string :=
  match x with
  | Some s => if String.eqb s "" then default else s
  | None => default
  end.

(** [add_task]: INSERT OR REPLACE.  A row with the same primary key is
    deleted and the new row is appended.  [uuid] and [now] stand for
    [str(uuid4())] and [datetime.utcnow().isoformat()]. *)
Definition row_of_task (uuid now : string) (t : task) : row :=
  {| r_id := str_or (t_id t) uuid;
     r_user := t_user t;
     r_title := t_title t;
     r_category := t_category t;
     r_due := t_due t;
     r_created := str_or (t_created t) now;
     r_done := if t_done t then 1 else 0;
     r_recurrence := str_or (t_recurrence t) "none";
     r_recurrence_extra := dumps (default (JObj []) (t_recurrence_extra t));
     r_notified := if t_notified t then 1 else 0;
     r_xp := t_xp t |}.

Definition insert_or_replace (r : row) (rows : list row) : list row :=
  List.filter (fun r' => negb (String.eqb (r_id r') (r_id r))) rows ++ [r].

Definition add_task (uuid now : string) (t : task) (st : storage) : storage :=
  {| tasks := insert_or_replace (row_of_task uuid now t) (tasks st);
     users := users st |}.

(** The keyword arguments [update_task] is called with. *)
Inductive assignment : Type :=
| SetDone (v : Z)
| SetXp (v : Z)
| SetDue (v : string)
| SetNotified (v : Z).

Definition assign (r : row) (a : assignment) : row :=
  match a with
  | SetDone v =>
      mkrow (r_id r) (r_user r) (r_title r) (r_category r) (r_due r)
        (r_created r) v (r_recurrence r) (r_recurrence_extra r)
        (r_notified r) (r_xp r)
  | SetXp v =>
      mkrow (r_id r) (r_user r) (r_title r) (r_category r) (r_due r)
        (r_created r) (r_done r) (r_recurrence r) (r_recurrence_extra r)
        (r_notified r) v
  | SetDue v =>
      mkrow (r_id r) (r_user r) (r_title r) (r_category r) (Some v)
        (r_created r) (r_done r) (r_recurrence r) (r_recurrence_extra r)
        (r_notified r) (r_xp r)
  | SetNotified v =>
      mkrow (r_id r) (r_user r) (r_title r) (r_category r) (r_due r)
        (r_created r) (r_done r) (r_recurrence r) (r_recurrence_extra r)
        v (r_xp r)
  end.

(** [update_task]: UPDATE tasks SET ... WHERE id=?. *)
Definition update_task (id_ : string) (fields : list assignment)
    (st : storage) : storage :=
  {| tasks := List.map (fun r => if String.eqb (r_id r) id_
                                 then fold_left assign fields r else r)
                       (tasks st);
     users := users st |}.

Definition delete_task (id_ : string) (st : storage) : storage :=
  {| tasks := List.filter (fun r => negb (String.eqb (r_id r) id_)) (tasks st);
     users := users st |}.

(** [get_task]: the row with this id, if any. *)
Definition get_task (id_ : string) (st : storage) : option row :=
  List.find (fun r => String.eqb (r_id r) id_) (tasks st).

(** [list_tasks]: all rows, or those of [user] when it is truthy. *)
Definition list_tasks (user : option string) (st : storage) : list row :=
  if Text.nonempty user then
    List.filter (fun r => match r_user r, user with
                          | Some u, Some u' => String.eqb u u'
                          | _, _ => false
                          end) (tasks st)
  else tasks st.

Definition add_user (username password_hash : string) (st : storage)
  : storage :=
  {| tasks := tasks st;
     users := List.filter (fun u => negb (String.eqb (u_username u) username))
                (users st)
              ++ [mkuser username password_hash (Some 0) (Some 0) None] |}.

Definition get_user (username : string) (st : storage) : option user_row :=
  List.find (fun u => String.eqb (u_username u) username) (users st).

(** [update_user(username, coins=, streak=, last_completed=)]. *)
Definition update_user (username : string) (coins streak : Z)
    (last_completed : string) (st : storage) : storage :=
  {| tasks := tasks st;
     users := List.map (fun u => if String.eqb (u_username u) username
                                 then mkuser (u_username u) (u_password_hash u)
                                        (Some coins) (Some streak)
                                        (Some last_completed)
                                 else u)
                       (users st) |}.

(** The dict [dict(row)] of a row, as a task dict: the TEXT column
    [recurrence_extra] is a [str]. *)
Definition task_of_row (r : row) : task :=
  {| t_id := Some (r_id r);
     t_user := r_user r;
     t_title := r_title r;
     t_category := r_category r;
     t_due := r_due r;
     t_created := Some (r_created r);
     t_done := negb (r_done r =? 0);
     t_recurrence := Some (r_recurrence r);
     t_recurrence_extra := Some (JStr (r_recurrence_extra r));
     t_notified := negb (r_notified r =? 0);
     t_xp := r_xp r |}.

(** [export_json] writes the list of row dicts and [import_json] reads
    the list back and adds each record; the file in between is the list
    of records itself. *)
Definition export_json (st : storage) : list task :=
  List.map task_of_row (list_tasks None st).

(** [fresh k] is the pair of [str(uuid4())] and
    [datetime.utcnow().isoformat()] that the [k]-th call of [add_task]
    would draw. *)
Fixpoint import_from (k : nat) (fresh : nat -> string * string)
    (records : list task) (st : storage) : storage :=
  match records with
  | [] => st
  | t :: records =>
      import_from (S k) fresh records
        (add_task (fst (fresh k)) (snd (fresh k)) t st)
  end.

Definition import_json (fresh : nat -> string * string)
    (records : list task) (st : storage) : storage :=
  import_from 0 fresh records st.

End Storage.

(** ** [upgraded_task.py]: completion, recurrence, snooze and the notifier *)

Module App.
Import Calendar Datetime Json Storage.

(** What a handler reads from outside the store: the local calendar date
    ([date.today()]), the UTC clock ([datetime.utcnow()]) and the next
    [str(uuid4())]. *)
Record env : Type := mkenv {
  today : date;
  utcnow : datetime;
  uuid : string
}.

(** A handler run: how it ended, and the store it left behind.  Every
    store call commits, so a raise keeps the writes made before it. *)
Definition run (A : Type) : Type := (outcome A * storage)%type.

(** [parse_iso]: [fromisoformat] with every exception turned into
    [None]. *)
Definition parse_iso (s : option string) : outcome (option datetime) :=
  match s with
  | None => Ok None
  | Some s =>
      match fromisoformat s with
      | Ok d => Ok (Some d)
      | Raise _ => Ok None
      | OutOfModel => OutOfModel
      end
  end.

(** [award_xp_for_task]. *)
Definition award_xp_for_task (t : row) : outcome Z :=
  let base := 10 in
  let cat := Text.lower (default EmptyString (r_category t)) in
  let base := if Text.contains "work" cat then base + 5 else base in
  let base := if Text.contains "urgent" cat || Text.contains "important" cat
              then base + 10 else base in
  match r_title t with
  | None => Raise TypeError
  | Some title => Ok (base + Z.min 20 (Text.len title / 5))
  end.

(** The three arms of the streak rule in [_toggle_done]. *)
Inductive streak_arm : Type := Incremented | Unchanged | ResetToOne.

Definition streak_branch (last : option datetime) (today : date)
  : outcome streak_arm :=
  match last with
  | None => Ok ResetToOne
  | Some l =>
      yesterday ← date_sub_days today 1;
      if decide (date_of l = yesterday) then Ok Incremented
      else if decide (date_of l = today) then Ok Unchanged
      else Ok ResetToOne
  end.

Definition apply_streak (arm : streak_arm) (streak : Z) : Z :=
  match arm with
  | Incremented => streak + 1
  | Unchanged => streak
  | ResetToOne => 1
  end.

(** [int(s)] of a [str]: a run of ASCII digits is read; the empty
    string is a [ValueError]; other spellings (signs, blanks, underscores,
    or none at all) are not modelled. *)
Definition int_of_str (s : string) : outcome Z :=
  let cs := list_ascii_of_string s in
  match cs with
  | [] => Raise ValueError
  | _ => if Decimal.all_digits cs then Ok (Decimal.digits_value 0 cs)
         else OutOfModel
  end.

(** [int(x)] of a JSON value. *)
Definition py_int (v : json) : outcome Z :=
  match v with
  | JInt n => Ok n
  | JBool b => Ok (if b then 1 else 0)
  | JStr s => int_of_str s
  | JNull | JArr _ | JObj _ => Raise TypeError
  end.

(** [extra.get(key)] on whatever [json.loads] returned: only a dict has
    [get]. *)
Definition extra_get (key : string) (extra : json) : outcome (option json) :=
  match extra with
  | JObj d => Ok (dict_get key d)
  | _ => Raise AttributeError
  end.

Definition opt_truthy (v : option json) : bool :=
  match v with
  | Some v => truthy v
  | None => false
  end.

(** The numbers of a list of ints (a [bool] is an [int]). *)
Fixpoint numbers (l : list json) : option (list Z) :=
  match l with
  | [] => Some []
  | JInt n :: l => ns ← numbers l; Some (n :: ns)
  | JBool b :: l => ns ← numbers l; Some ((if b then 1 else 0) :: ns)
  | _ :: _ => None
  end.

Fixpoint insert_sorted (x : Z) (l : list Z) : list Z :=
  match l with
  | [] => [x]
  | y :: l' => if x <=? y then x :: l else y :: insert_sorted x l'
  end.

(** [sorted(days)] on ints. *)
Definition sorted (l : list Z) : list Z := fold_right insert_sorted [] l.

(** The weekday search: the first sorted entry above [wd], else wrap to
    the first entry; the result is [delta_days]. *)
Definition weekday_delta (wd : Z) (days_sorted : list Z) : outcome Z :=
  match List.find (fun d => wd <? d) days_sorted with
  | Some found => Ok (found - wd)
  | None =>
      match days_sorted with
      | found :: _ => Ok ((7 - wd) + found)
      | [] => Raise IndexError
      end
  end.

(** [task.get("recurrence_extra") or "{}"]. *)
Definition extra_text (text : string) : string :=
  if String.eqb text "" then "{}" else text.

(** The [custom] arm: the next due time, or [None]. *)
Definition custom_next_due (due : datetime) (text : string)
  : outcome (option datetime) :=
  extra ← loads (extra_text text);
  every ← extra_get "every_x_days" extra;
  if opt_truthy every then
    n ← py_int (default JNull every);
    d ← add due (td_days n);
    Ok (Some d)
  else
    wds ← extra_get "weekdays" extra;
    if opt_truthy wds then
      match default JNull wds with
      | JArr l =>
          match numbers l with
          | Some days =>
              delta ← weekday_delta (weekday due) (sorted days);
              d ← add due (td_days delta);
              Ok (Some d)
          | None => Raise TypeError
          end
      | _ => Raise TypeError
      end
    else Ok None.

(** The Recurrence Engine of [_handle_recurrence_after_completion]. *)
Definition next_due (rec : string) (due : datetime) (extra_text : string)
  : outcome (option datetime) :=
  if String.eqb rec "daily" then d ← add due (td_days 1); Ok (Some d)
  else if String.eqb rec "weekly" then d ← add due (td_weeks 1); Ok (Some d)
  else if String.eqb rec "monthly" then d ← add_one_month due; Ok (Some d)
  else if String.eqb rec "custom" then custom_next_due due extra_text
  else Ok None.

(** The dict [new_task] built for the next occurrence: a copy of the row
    dict with a new id, the new due time, and both flags cleared. *)
Definition successor (e : env) (t : row) (nd : datetime) : task :=
  let d := task_of_row t in
  mktask (Some (uuid e)) (t_user d) (t_title d) (t_category d)
    (Some (isoformat nd)) (t_created d) false (t_recurrence d)
    (t_recurrence_extra d) false (t_xp d).

(** [_handle_recurrence_after_completion]. *)
Definition handle_recurrence_after_completion (e : env) (t : row)
    (st : storage) : run unit :=
  match parse_iso (r_due t) with
  | Ok None => (Ok (), st)
  | Ok (Some due) =>
      match next_due (r_recurrence t) due (r_recurrence_extra t) with
      | Ok None => (Ok (), st)
      | Ok (Some nd) =>
          (Ok (), add_task (uuid e) (isoformat (utcnow e)) (successor e t nd) st)
      | Raise x => (Raise x, st)
      | OutOfModel => (OutOfModel, st)
      end
  | Raise x => (Raise x, st)
  | OutOfModel => (OutOfModel, st)
  end.

(** [last]: the parsed [last_completed] of the profile, [None] when the
    column is empty. *)
Definition last_of (user : user_row) : outcome (option datetime) :=
  if Text.nonempty (u_last_completed user)
  then parse_iso (u_last_completed user) else Ok None.

(** [_toggle_done], run as [current_user]. *)
Definition toggle_done (e : env) (current_user : option string)
    (id_ : string) (st : storage) : run unit :=
  match get_task id_ st with
  | None => (Ok (), st)
  | Some t =>
      let new_done := r_done t =? 0 in
      let st := update_task id_ [SetDone (if new_done then 1 else 0)] st in
      if new_done then
        match award_xp_for_task t with
        | Ok xp =>
            let rewarded : run unit :=
              match current_user ≫= (fun u => get_user u st) with
              | Some user =>
                  let new_coins := default 0 (u_coins user) + xp / 5 in
                  let new_streak := default 0 (u_streak user) in
                  match last_of user with
                  | Ok last =>
                      match streak_branch last (today e) with
                      | Ok arm =>
                          let st :=
                            update_user (default EmptyString current_user)
                              new_coins (apply_streak arm new_streak)
                              (isoformat (utcnow e)) st in
                          (Ok (), update_task id_ [SetXp xp] st)
                      | Raise x => (Raise x, st)
                      | OutOfModel => (OutOfModel, st)
                      end
                  | Raise x => (Raise x, st)
                  | OutOfModel => (OutOfModel, st)
                  end
              | None => (Ok (), st)
              end in
            match rewarded with
            | (Ok _, st) =>
                if negb (String.eqb (r_recurrence t) "")
                   && negb (String.eqb (r_recurrence t) "none")
                then handle_recurrence_after_completion e t st
                else (Ok (), st)
            | failed => failed
            end
        | Raise x => (Raise x, st)
        | OutOfModel => (OutOfModel, st)
        end
      else (Ok (), st)
  end.

(** [_snooze_choice]. *)
Definition snooze_choice (id_ : string) (val : string) (st : storage)
  : run unit :=
  if String.eqb val "" || String.eqb val "Snooze" then (Ok (), st)
  else
    match int_of_str (Text.remove_char "m" val) with
    | Ok mins =>
        match get_task id_ st with
        | None => (Ok (), st)
        | Some t =>
            match parse_iso (r_due t) with
            | Ok None => (Ok (), st)
            | Ok (Some due) =>
                match add due (td_minutes mins) with
                | Ok new_due =>
                    (Ok (), update_task id_ [SetDue (isoformat new_due);
                                             SetNotified 0] st)
                | Raise x => (Raise x, st)
                | OutOfModel => (OutOfModel, st)
                end
            | Raise x => (Raise x, st)
            | OutOfModel => (OutOfModel, st)
            end
        end
    | Raise x => (Raise x, st)
    | OutOfModel => (OutOfModel, st)
    end.

(** The labels of the snooze menu: [f"{m}m"] for the minutes in
    [DEFAULT_SNOOZE_OPTIONS]; the due popup offers "10m" and "30m". *)
Definition DEFAULT_SNOOZE_OPTIONS : list Z := [5; 10; 15; 30; 60].

Definition snooze_label (m : Z) : string :=
  string_of_list_ascii (Decimal.str_of_Z m ++ ["m"%char]).

(** *** The notifier *)

(** The window test of the loop body: [now - 1 minute <= due <= now]. *)
Definition in_window (now due : datetime) : outcome bool :=
  window_start ← add now (td_minutes (-1));
  window_end ← add now (td_minutes 0);
  Ok (leb window_start due && leb due window_end).

(** One iteration of the [for] loop on a row of the snapshot: the
    due-event, if one is emitted, and the store afterwards. *)
Definition notify_row (now : datetime) (t : row) (st : storage)
  : outcome (option row * storage) :=
  if negb (r_done t =? 0) then Ok (None, st)
  else if negb (r_notified t =? 0) then Ok (None, st)
  else
    due ← parse_iso (r_due t);
    match due with
    | None => Ok (None, st)
    | Some due =>
        hit ← in_window now due;
        if (hit : bool)
        then Ok (Some t, update_task (r_id t) [SetNotified 1] st)
        else Ok (None, st)
    end.

(** The loop over the snapshot.  A raise ends the pass (the [except] of
    the [while] body); the events and writes made before it stay. *)
Fixpoint notify_rows (now : datetime) (snapshot : list row)
    (events : list row) (st : storage) : outcome unit * (list row * storage) :=
  match snapshot with
  | [] => (Ok (), (events, st))
  | t :: snapshot =>
      match notify_row now t st with
      | Ok (ev, st) =>
          notify_rows now snapshot
            (match ev with Some r => events ++ [r] | None => events end) st
      | Raise x => (Raise x, (events, st))
      | OutOfModel => (OutOfModel, (events, st))
      end
  end.

(** One pass of [_notifier_loop] at local time [now]: the due-events it
    emits, in order, and the store it leaves. *)
Definition notifier_pass (now : datetime) (current_user : option string)
    (st : storage) : outcome unit * (list row * storage) :=
  notify_rows now (list_tasks current_user st) [] st.

(** Successive passes at the given times, nothing else touching the
    store in between. *)
Fixpoint notifier_passes (nows : list datetime)
    (current_user : option string) (st : storage) : list row * storage :=
  match nows with
  | [] => ([], st)
  | now :: nows =>
      let '(_, (events, st)) := notifier_pass now current_user st in
      let '(more, st) := notifier_passes nows current_user st in
      (events ++ more, st)
  end.

End App.

(** ** [task.py]: the earlier application

    Its tasks are dicts kept in the list [self.tasks]; [Storage.save] either
    rewrites the JSON file or pushes the list to the Mongo collection and
    prunes the collection. *)

Module Legacy.
Import Calendar Datetime.

(** A task dict, field by field as [t.get] reads it.  [None] is an
    absent key or a [None] value. *)
Record ltask : Type := mkltask {
  l_id : option string;
  l_task : option string;
  l_category : option string;
  l_due : option string;
  l_done : bool;
  l_created : option string;
  l_recurrence : option string;
  l_notified : bool
}.

#[global] Instance ltask_eq_dec : EqDecision ltask.
Proof. solve_decision. Defined.

(** [parse_iso] of [task.py]: a falsy argument is [None] at once. *)
Definition parse_iso (s : option string) : outcome (option datetime) :=
  if Text.nonempty s then
    match fromisoformat (default EmptyString s) with
    | Ok d => Ok (Some d)
    | Raise _ => Ok None
    | OutOfModel => OutOfModel
    end
  else Ok None.

(** *** [Storage.save] on the Mongo backend *)

(** The filter [{"id": v}] on a document. *)
Definition matches_id (v : option string) (doc : ltask) : bool :=
  bool_decide (l_id doc = v).

(** [replace_one(cond, doc, upsert=True)]: the first match is replaced,
    and the document is inserted when nothing matches. *)
Fixpoint replace_one (v : option string) (doc : ltask)
    (collection : list ltask) : list ltask :=
  match collection with
  | [] => [doc]
  | d :: rest =>
      if matches_id v d then doc :: rest else d :: replace_one v doc rest
  end.

(** The ids a set comprehension [... if x.get("id")] collects. *)
Definition truthy_ids (l : list ltask) : list string :=
  omap (fun t => match l_id t with
                 | Some i => if String.eqb i "" then None else Some i
                 | None => None
                 end) l.

(** [delete_many({"id": {"$in": to_delete}})]. *)
Definition delete_many (to_delete : list string) (collection : list ltask)
  : list ltask :=
  List.filter (fun d => match l_id d with
                        | Some i => negb (bool_decide (i ∈ to_delete))
                        | None => true
                        end) collection.

(** The two halves of the Mongo arm of [save]: the upserts, then the
    pruning of remote ids that are not local. *)
Definition push_all (tasks collection : list ltask) : list ltask :=
  fold_left (fun c t => replace_one (l_id t) t c) tasks collection.

Definition prune (tasks collection : list ltask) : list ltask :=
  let remote_ids := truthy_ids collection in
  let local_ids := truthy_ids tasks in
  let to_delete :=
    List.filter (fun i => negb (bool_decide (i ∈ local_ids))) remote_ids in
  match to_delete with
  | [] => collection
  | _ => delete_many to_delete collection
  end.

(** The backend a [Storage] object settled on at start-up. *)
Inductive backend : Type :=
| Mongo (collection : list ltask)
| JsonFile (contents : list ltask).

(** [Storage.save(tasks)]: the caller's list and the backend after the
    call. *)
Definition save (tasks : list ltask) (b : backend)
  : list ltask * backend :=
  match b with
  | Mongo collection => (tasks, Mongo (prune tasks (push_all tasks collection)))
  | JsonFile _ => (tasks, JsonFile tasks)
  end.

(** Some document of [c] carries the id [i]. *)
Definition has_id (i : string) (c : list ltask) : Prop :=
  exists d, d ∈ c /\ l_id d = Some i.

(** *** Completion and recurrence *)

Definition set_done (t : ltask) (v : bool) : ltask :=
  mkltask (l_id t) (l_task t) (l_category t) (l_due t) v (l_created t)
    (l_recurrence t) (l_notified t).

Definition set_notified (t : ltask) (v : bool) : ltask :=
  mkltask (l_id t) (l_task t) (l_category t) (l_due t) (l_done t)
    (l_created t) (l_recurrence t) v.

Definition recurrence_of (t : ltask) : string :=
  default "none" (l_recurrence t).

(** [_schedule_next_for_recurring]: the task to append, if any. *)
Definition schedule_next_for_recurring (uuid : string) (t : ltask)
  : outcome (option ltask) :=
  let rec := recurrence_of t in
  if String.eqb rec "none" then Ok None
  else
    due ← parse_iso (l_due t);
    match due with
    | None => Ok None
    | Some due =>
        next ← (if String.eqb rec "daily" then
                  d ← add due (td_days 1); Ok (Some d)
                else if String.eqb rec "weekly" then
                  d ← add due (td_weeks 1); Ok (Some d)
                else if String.eqb rec "monthly" then
                  d ← add due (td_days 30); Ok (Some d)
                else Ok None);
        match next with
        | None => Ok None
        | Some next_due =>
            Ok (Some (mkltask (Some uuid) (l_task t) (l_category t)
                        (Some (isoformat next_due)) false (l_created t)
                        (l_recurrence t) false))
        end
    end.

(** [toggle_done]: the first task with this id is flipped; a task that
    becomes done and repeats gets its successor appended to the list; a
    task that becomes not done has [notified] cleared. *)
Fixpoint toggle_in (uuid : string) (task_id : string) (before rest : list ltask)
  : outcome (list ltask) :=
  match rest with
  | [] => Ok before
  | t :: rest =>
      if bool_decide (l_id t = Some task_id) then
        let t := set_done t (negb (l_done t)) in
        if l_done t && negb (String.eqb (recurrence_of t) "none") then
          match schedule_next_for_recurring uuid t with
          | Ok (Some n) => Ok (before ++ t :: rest ++ [n])
          | Ok None => Ok (before ++ t :: rest)
          | Raise x => Raise x
          | OutOfModel => OutOfModel
          end
        else if negb (l_done t) then
          Ok (before ++ set_notified t false :: rest)
        else Ok (before ++ t :: rest)
      else toggle_in uuid task_id (before ++ [t]) rest
  end.

Definition toggle_done (uuid : string) (task_id : string)
    (tasks : list ltask) : outcome (list ltask) :=
  toggle_in uuid task_id [] tasks.

(** *** The notifier *)

Definition NOTIFY_LOOKAHEAD_MIN : Z := 0.

(** [window_start <= due <= window_end]. *)
Definition in_window (now due : datetime) : outcome bool :=
  window_start ← add now (td_minutes (-1));
  window_end ← add now (td_minutes NOTIFY_LOOKAHEAD_MIN);
  Ok (leb window_start due && leb due window_end).

(** The body of the [for] loop on one task dict: whether a due-event is
    emitted, and the dict afterwards.  The inner [try] swallows a raise and
    the loop goes on with the next task. *)
Definition notify_task (now : datetime) (t : ltask) : outcome (bool * ltask) :=
  if l_done t then Ok (false, t)
  else if l_notified t then Ok (false, t)
  else
    match parse_iso (l_due t) with
    | Ok None => Ok (false, t)
    | Ok (Some due) =>
        match in_window now due with
        | Ok true => Ok (true, set_notified t true)
        | Ok false => Ok (false, t)
        | Raise _ => Ok (false, t)
        | OutOfModel => OutOfModel
        end
    | Raise _ => Ok (false, t)
    | OutOfModel => OutOfModel
    end.

(** One pass of [_notifier_loop] over [self.tasks] at local time [now]:
    the tasks a due-event was emitted for, and the list afterwards (the loop
    writes [notified] into the dicts of the list itself). *)
Fixpoint notifier_pass (now : datetime) (tasks : list ltask)
  : outcome (list ltask * list ltask) :=
  match tasks with
  | [] => Ok ([], [])
  | t :: tasks =>
      '(hit, t') ← notify_task now t;
      '(events, tasks') ← notifier_pass now tasks;
      Ok (if (hit : bool) then t :: events else events, t' :: tasks')
  end.

(** Successive passes, nothing else touching the list in between. *)
Fixpoint notifier_passes (nows : list datetime) (tasks : list ltask)
  : outcome (list ltask * list ltask) :=
  match nows with
  | [] => Ok ([], tasks)
  | now :: nows =>
      '(events, tasks) ← notifier_pass now tasks;
      '(more, tasks) ← notifier_passes nows tasks;
      Ok (events ++ more, tasks)
  end.

End Legacy.

(** ** Vocabulary of the statements *)

Module Spec.
Import Calendar Datetime Json Storage.

(** The month after (year, month). *)
Definition next_month (y m : Z) : Z * Z :=
  if m =? 12 then (y + 1, 1) else (y, m + 1).

(** Rows as [add_task] leaves them: the id and the creation time are not
    empty; and stores whose ids are a key. *)
Definition wf_row (r : row) : Prop :=
  r_id r <> EmptyString /\ r_created r <> EmptyString.

Definition wf_store (st : storage) : Prop :=
  NoDup (List.map r_id (tasks st)) /\ Forall wf_row (tasks st).

(** The row an import writes for the exported record of [r]. *)
Definition reimported (r : row) : row :=
  row_of_task EmptyString EmptyString (task_of_row r).

(** Whole days from the date of [l] to [today]. *)
Definition days_since (l : datetime) (today : date) : Z :=
  date_toordinal today - toordinal l.

(** [w] is the smallest entry of [days] strictly above [wd]. *)
Definition smallest_above (wd : Z) (days : list Z) (w : Z) : Prop :=
  w ∈ days /\ wd < w /\ forall w', w' ∈ days -> wd < w' -> w <= w'.

(** [w] is the smallest entry of [days]. *)
Definition smallest (days : list Z) (w : Z) : Prop :=
  w ∈ days /\ forall w', w' ∈ days -> w <= w'.

(** The days to add under the weekday-set rule when [w] is the chosen
    weekday: forward within the week, or wrapped into the next one. *)
Definition weekday_gap (wd w : Z) : Z :=
  if wd <? w then w - wd else (7 - wd) + w.

(** Entries never decrease along the list. *)
Definition ascending (l : list Z) : Prop :=
  forall i j x y, (i <= j)%nat -> l !! i = Some x -> l !! j = Some y -> x <= y.

(** *** The notifier *)

(** The due time of a row is inside the model: a naive time, or surely
    unparsable. *)
Definition row_in_model (r : row) : Prop :=
  App.parse_iso (r_due r) <> OutOfModel.

(** A clock reading from which one minute can be subtracted. *)
Definition clock_ok (now : datetime) : Prop := valid now /\ 1 < toordinal now.

(** The due time [d] is inside the window of the pass at [now]. *)
Definition in_due_window (now d : datetime) : bool :=
  match App.in_window now d with
  | Ok b => b
  | _ => false
  end.

(** The pass at [now] emits a due-event for the row. *)
Definition fires (now : datetime) (r : row) : bool :=
  (r_done r =? 0) && (r_notified r =? 0)
  && match App.parse_iso (r_due r) with
     | Ok (Some d) => in_due_window now d
     | _ => false
     end.

(** How many of the events are for the task [i]. *)
Definition occurrences (i : string) (events : list row) : nat :=
  List.length (List.filter (fun r => String.eqb (r_id r) i) events).

(** A row with [notified] set by the notifier. *)
Definition marked (r : row) : row := assign r (SetNotified 1).

(** The writes of a pass: [notified] is set on the rows that fire. *)
Definition mark_all (now : datetime) (snapshot : list row) (st : storage)
  : storage :=
  fold_left (fun st t => if fires now t
                         then update_task (r_id t) [SetNotified 1] st else st)
            snapshot st.

(** The row a pass leaves in place of [x], given the ids that fired. *)
Definition after_pass (fired : list string) (x : row) : row :=
  if bool_decide (r_id x ∈ fired) then marked x else x.

(** Stores on which the passes are followed: ids are a key and every due
    time is inside the model. *)
Definition steady (st : storage) : Prop :=
  NoDup (List.map r_id (tasks st)) /\ Forall row_in_model (tasks st).







(** The rows whose id is not among [ids]. *)
Definition outside (ids : list string) (rows : list row) : list row :=
  List.filter (fun r => negb (bool_decide (r_id r ∈ ids))) rows.

End Spec.

(** ** Concrete stores and runs *)

Module Scenario.
Import Calendar Datetime Json Storage App.

Definition empty_store : storage := mkstorage [] [].

(** The handler environment on January [d], 2024 at 09:30, with [id] as the
    next uuid. *)
Definition env_at (d : Z) (id : string) : env :=
  mkenv (2024, 1, d) (mkdt 2024 1 d 9 30 0 0) id.

(** The weekday set {Tue(1), Fri(4)} as the task form builds it. *)
Definition tue_fri : json := JObj [("weekdays", JArr [JInt 1; JInt 4])].

(** A task dict that differs from task to task only in id, due time,
    recurrence and [recurrence_extra]. *)
Definition form_task (id due rec : string) (extra : json) : task :=
  mktask (Some id) (Some "ann") (Some "Gym") (Some "Fitness") (Some due)
    (Some "2024-01-01T08:00:00") false (Some rec) (Some extra) false 0.

(** Task T1 of the scenario: due Tuesday 2024-01-02 at 09:00. *)
Definition T1 : task := form_task "T1" "2024-01-02T09:00:00" "custom" tue_fri.

Definition store_of (t : task) : storage :=
  add_task "unused" "unused" t (add_user "ann" "hash" empty_store).

Definition store1 : storage := store_of T1.

(** Completing T1 on its Tuesday, then its successor T2 on the Friday. *)
Definition step1 : run unit := toggle_done (env_at 2 "T2") (Some "ann") "T1" store1.
Definition step2 : run unit :=
  toggle_done (env_at 5 "T3") (Some "ann") "T2" (snd step1).

(** The store after T1 went through a backup: exported, then imported. *)
Definition restored : storage :=
  import_json (fun _ => ("unused", "unused")) (export_json store1) store1.

(** A record whose [recurrence_extra] is a list instead of a dict. *)
Definition listy : task :=
  form_task "M1" "2024-01-02T09:00:00" "custom" (JArr [JInt 1; JInt 4]).

(** A task whose two custom fields were both filled in the form: every
    three days, and the weekdays Monday and Thursday; due on Wednesday
    2024-01-03 at 09:00. *)
Definition both_modes : task :=
  form_task "B1" "2024-01-03T09:00:00" "custom"
    (JObj [("every_x_days", JInt 3); ("weekdays", JArr [JInt 0; JInt 3])]).

(** A row that is done and whose due-event was emitted. *)
Definition fired_and_done : storage :=
  mkstorage
    [mkrow "D1" (Some "ann") (Some "Gym") (Some "Fitness")
       (Some "2024-01-02T09:00:00") "2024-01-01T08:00:00" 1 "none" "{}" 1 10]
    [mkuser "ann" "hash" (Some 2) (Some 1) (Some "2024-01-02T09:05:00")].

(** The same task in [task.py]. *)
Definition legacy_fired_and_done : Legacy.ltask :=
  Legacy.mkltask (Some "D1") (Some "Gym") (Some "Fitness")
    (Some "2024-01-02T09:00:00") true (Some "2024-01-01T08:00:00")
    (Some "none") true.

(** A daily task completed on January 2, which makes its successor S2. *)
Definition S1 : task := form_task "S1" "2024-01-02T09:00:00" "daily" (JObj []).

(** Two one-shot tasks, and a machine three hours ahead of UTC on which
    both are completed shortly after local midnight of January 5: the local
    date is January 5 while the UTC clock still reads January 4. *)
Definition two_tasks : storage :=
  add_task "unused" "unused" (form_task "A2" "2024-01-05T09:00:00" "none" (JObj []))
    (store_of (form_task "A1" "2024-01-05T09:00:00" "none" (JObj []))).

Definition env_ahead_of_utc (minute : Z) : env :=
  mkenv (2024, 1, 5) (mkdt 2024 1 4 22 minute 0 0) "unused".

(** Local tasks A and B, and a mirror that also holds C. *)
Definition doc (id : string) : Legacy.ltask :=
  Legacy.mkltask (Some id) (Some "Gym") (Some "Fitness")
    (Some "2024-01-02T09:00:00") false (Some "2024-01-01T08:00:00")
    (Some "none") false.

Definition local_AB : list Legacy.ltask := [doc "A"; doc "B"].
Definition remote_ABC : list Legacy.ltask := [doc "A"; doc "B"; doc "C"].

End Scenario.

(** ** More of [str]: [strip], [isdigit] and [int] on digit text *)

Module Chars.

(** Whitespace as [str.strip] and [str.isspace] see it, on code points
    below 256. *)
Definition is_space (c : ascii) : bool :=
  let n := N_of_ascii c in
  (((9 <=? n) && (n <=? 13)) || ((28 <=? n) && (n <=? 32))
   || (n =? 133) || (n =? 160))%N.

Fixpoint lstrip (cs : list ascii) : list ascii :=
  match cs with
  | c :: cs' => if is_space c then lstrip cs' else cs
  | [] => []
  end.

(** [s.strip()]. *)
Definition strip (s : string) : string :=
  string_of_list_ascii (rev (lstrip (rev (lstrip (list_ascii_of_string s))))).

(** The characters [str.isdigit] accepts below code point 256: the ASCII
    digits and the superscripts two, three and one. *)
Definition is_unicode_digit (c : ascii) : bool :=
  let n := N_of_ascii c in
  Decimal.is_digit c || ((n =? 178) || (n =? 179) || (n =? 185))%N.

(** [s.isdigit()]. *)
Definition isdigit (s : string) : bool :=
  match list_ascii_of_string s with
  | [] => false
  | cs => forallb is_unicode_digit cs
  end.

(** [int(s)] for a string that [isdigit] accepts: ASCII digits are read,
    a superscript digit is a [ValueError].  Runs longer than the default
    limit of 4300 digits, and strings [isdigit] rejects, are not
    modelled. *)
Definition int_of_digit_text (s : string) : outcome Z :=
  let cs := list_ascii_of_string s in
  if isdigit s then
    if Decimal.all_digits cs then
      if (4300 <? List.length cs)%nat then OutOfModel
      else Ok (Decimal.digits_value 0 cs)
    else Raise ValueError
  else OutOfModel.

(** [int(s)] as the handlers call it on menu texts: [App.int_of_str]
    below the default limit of 4300 digits; longer runs are not
    modelled. *)
Definition int_text (s : string) : outcome Z :=
  if (4300 <? String.length s)%nat then OutOfModel else App.int_of_str s.

End Chars.

(** ** [upgraded_task.py]: the task form and the edit dialog *)

Module Form.
Import Calendar Datetime Json Storage App.

(** [datetime(year, month, day, hour, minute)]: a field out of range is
    a [ValueError]; arguments that do not fit a C [int] raise as well, with
    an exception that depends on the implementation of [datetime], and are
    left outside the model. *)
Definition fits_int (n : Z) : bool := (- 2147483648 <=? n) && (n <=? 2147483647).

Definition make_datetime (d : date) (h m : Z) : outcome datetime :=
  let '(y, mo, dd) := d in
  if forallb fits_int [y; mo; dd; h; m] then
    let dt := mkdt y mo dd h m 0 0 in
    if validb dt then Ok dt else Raise ValueError
  else OutOfModel.

(** The hour and minute of the form: the two menus read with [int], and
    (9, 0) when either reading raises. *)
Definition form_time (hour_var min_var : string) : outcome (Z * Z) :=
  match (h ← Chars.int_text hour_var; m ← Chars.int_text min_var;
         Ok (h, m)) with
  | Ok hm => Ok hm
  | Raise _ => Ok (9, 0)
  | OutOfModel => OutOfModel
  end.

(** The positions of the checked boxes: [[i for i, flag in
    weekdays.items() if flag]] on the dict with keys 0..6 in order. *)
Fixpoint checked_from (i : Z) (flags : list bool) : list Z :=
  match flags with
  | [] => []
  | flag :: flags =>
      if (flag : bool) then i :: checked_from (i + 1) flags
      else checked_from (i + 1) flags
  end.

Definition checked (flags : list bool) : list Z := checked_from 0 flags.

(** The dict [recur_extra] of a custom task.  [days] is the text of the
    days entry and [flags] the states of the seven weekday boxes; both are
    empty when the custom dialog was never opened. *)
Definition custom_extra (days : string) (flags : list bool)
  : outcome (list (string * json)) :=
  every ← (if negb (String.eqb days "") && Chars.isdigit (Chars.strip days)
           then n ← Chars.int_of_digit_text (Chars.strip days);
                Ok (dict_set "every_x_days" (JInt n) [])
           else Ok []);
  Ok (if existsb id flags
      then dict_set "weekdays" (JArr (List.map JInt (checked flags))) every
      else every).

(** What [_add_task_from_ui] reads from the widgets. *)
Record form : Type := mkform {
  entry_title : string;
  category_var : string;
  date_entry : date;
  hour_var : string;
  min_var : string;
  recur_var : string;
  cust_days : string;
  cust_weekdays : list bool
}.

(** The task dict the form builds. *)
Definition form_task (e : env) (current_user : option string)
    (title cat recur : string) (due : datetime)
    (recur_extra : list (string * json)) : task :=
  mktask (Some (uuid e)) current_user (Some title) (Some cat)
    (Some (isoformat due)) (Some (isoformat (utcnow e))) false
    (Some recur) (Some (JObj recur_extra)) false 0.

(** [_add_task_from_ui]. *)
Definition add_task_from_ui (e : env) (current_user : option string)
    (f : form) (st : storage) : run unit :=
  let title := Chars.strip (entry_title f) in
  if String.eqb title "" then (Ok (), st)
  else
    let cat := category_var f in
    match form_time (hour_var f) (min_var f) with
    | Ok (h, m) =>
        match make_datetime (date_entry f) h m with
        | Ok due =>
            let recur := Text.lower (recur_var f) in
            match (if String.eqb recur "custom"
                   then custom_extra (cust_days f) (cust_weekdays f)
                   else Ok []) with
            | Ok recur_extra =>
                (Ok (),
                 add_task (uuid e) (isoformat (utcnow e))
                   (form_task e current_user title cat recur due recur_extra)
                   st)
            | Raise x => (Raise x, st)
            | OutOfModel => (OutOfModel, st)
            end
        | Raise x => (Raise x, st)
        | OutOfModel => (OutOfModel, st)
        end
    | Raise x => (Raise x, st)
    | OutOfModel => (OutOfModel, st)
    end.

(** The hour and minute menus of the edit dialog as it opens on a task
    due at [due]: [f"{due.hour:02d}"] and [f"{(due.minute//5)*5:02d}"]. *)
Definition prefill_hour (due : datetime) : string :=
  string_of_list_ascii (Decimal.zero_pad 2 (hour due)).

Definition prefill_minute (due : datetime) : string :=
  string_of_list_ascii (Decimal.zero_pad 2 ((minute due / 5) * 5)).

(** [save_and_close] of [_open_edit_dialog], given the date of the date
    entry and the texts of the two menus; every exception is swallowed. *)
Definition save_and_close (id_ : string) (d : date) (hv mv : string)
    (st : storage) : outcome storage :=
  match (h ← Chars.int_text hv; m ← Chars.int_text mv;
         make_datetime d h m) with
  | Ok newdt =>
      Ok (update_task id_ [SetDue (isoformat newdt); SetNotified 0] st)
  | Raise _ => Ok st
  | OutOfModel => OutOfModel
  end.

End Form.

(** ** [task.py]: deleting, snoozing and editing *)

Module LegacyOps.
Import Calendar Datetime Legacy.



(** [delete_task]. *)
Definition delete_task (task_id : string) (tasks : list ltask) : list ltask :=
  List.filter (fun t => negb (bool_decide (l_id t = Some task_id))) tasks.




End LegacyOps.

(** ** More vocabulary of the statements *)

Module Props.
Import Storage.

(** Text that cannot continue a JSON number: the end, or a character
    that is no digit, no point and no exponent mark. *)
Definition ends_number (rest : list ascii) : Prop :=
  match rest with
  | [] => True
  | c :: _ => Decimal.is_digit c = false /\ Ascii.eqb c "." = false
              /\ Ascii.eqb c "e" = false /\ Ascii.eqb c "E" = false
  end.

(** Rows before and after the notifier ran: the same row, or the row with
    [notified] set. *)
Definition same_or_marked (r r' : row) : Prop :=
  r' = r \/ r' = assign r (SetNotified 1).

End Props.

(** ** More concrete stores and runs *)

Module Samples.
Import Calendar Datetime Json Storage App.

(** Ann's row for a task due at the text [due]. *)
Definition row_of (id due rec extra : string) : row :=
  mkrow id (Some "ann") (Some "Gym") (Some "Fitness") (Some due)
    "2024-01-01T08:00:00" 0 rec extra 0 0.

Definition daily_row : row := row_of "S1" "2024-01-02T09:00:00" "daily" "{}".
Definition monthly_row : row := row_of "M1" "2024-01-31T09:00:00" "monthly" "{}".

(** Every three days, as the form stores it. *)
Definition interval_row : row :=
  row_of "I1" "2024-01-02T09:00:00" "custom"
    (dumps (JObj [("every_x_days", JInt 3)])).

(** A custom row as a completion or a restore leaves it. *)
Definition requoted_row : row :=
  row_of "Q1" "2024-01-02T09:00:00" "custom"
    (dumps (JStr (dumps Scenario.tue_fri))).

Definition undated_row : row :=
  mkrow "U1" (Some "ann") (Some "Gym") (Some "Fitness") None
    "2024-01-01T08:00:00" 0 "daily" "{}" 0 0.

Definition ann : user_row := mkuser "ann" "hash" (Some 0) (Some 0) None.

Definition one_row (r : row) : storage := mkstorage [r] [ann].

(** The form filled in for a custom task: every three days, Tuesday and
    Friday checked, on 2024-01-02 at 09:30. *)
Definition gym_form : Form.form :=
  Form.mkform "  Gym " "Fitness" (2024, 1, 2) "09" "30" "Custom" "3"
    [false; true; false; false; true; false; false].

(** A daily task of [task.py], and a list with it in the middle. *)
Definition legacy_daily : Legacy.ltask :=
  Legacy.mkltask (Some "D") (Some "Gym") (Some "Fitness")
    (Some "2024-01-02T09:00:00") false (Some "2024-01-01T08:00:00")
    (Some "daily") false.


End Samples.

(** * Facts about the calendar *)

Module CalendarFacts.
Import Calendar.

(** Case analysis on every divisibility test [x mod k =? 0] of the goal. *)
Ltac split_mods :=
  repeat match goal with
         | |- context [?x mod ?k =? 0] =>
             let H := fresh in
             destruct (x mod k =? 0) eqn:H;
             [apply Z.eqb_eq in H | apply Z.eqb_neq in H]
         end.

(** Linear arithmetic with floor division by constants. *)
Ltac div_lia := Z.div_mod_to_equations; lia.

(** One goal for each month [m] of the year. *)
Ltac each_month m :=
  let H := fresh in
  assert (m = 1 \/ m = 2 \/ m = 3 \/ m = 4 \/ m = 5 \/ m = 6 \/ m = 7 \/ m = 8
          \/ m = 9 \/ m = 10 \/ m = 11 \/ m = 12) as H by lia;
  repeat (destruct H as [-> | H]); try subst m.

Lemma dby_decomp a b c e :
  0 <= a -> 0 <= b <= 3 -> 0 <= c <= 24 -> 0 <= e <= 3 ->
  days_before_year (400 * a + 100 * b + 4 * c + e + 1)
  = 146097 * a + 36524 * b + 1461 * c + 365 * e.
Proof.
  intros. unfold days_before_year. cbv zeta.
  replace (400 * a + 100 * b + 4 * c + e + 1 - 1) with (400 * a + 100 * b + 4 * c + e) by lia.
  Z.div_mod_to_equations. lia.
Qed.

Lemma is_leap_decomp a b c e :
  0 <= a -> 0 <= b <= 3 -> 0 <= c <= 24 -> 0 <= e <= 3 ->
  is_leap (400 * a + 100 * b + 4 * c + e + 1)
  = (e =? 3) && (negb (c =? 24) || (b =? 3)).
Proof.
  intros. unfold is_leap.
  destruct (Z.eqb_spec e 3); destruct (Z.eqb_spec c 24);
    destruct (Z.eqb_spec b 3); split_mods; simpl; try reflexivity;
    exfalso; div_lia.
Qed.

Lemma month_day_table :
  forallb (fun r => month_day_ok false (Z.of_nat r)) (seq 0 365)
  && forallb (fun r => month_day_ok true (Z.of_nat r)) (seq 0 366) = true.
Proof. vm_compute. reflexivity. Qed.

Lemma month_day_spec (leap : bool) (r : Z) :
  0 <= r < 365 + (if leap then 1 else 0) -> month_day_ok leap r = true.
Proof.
  intros Hr. pose proof month_day_table as T.
  apply andb_prop in T as [T0 T1].
  rewrite forallb_forall in T0, T1.
  replace r with (Z.of_nat (Z.to_nat r)) by lia.
  destruct leap; [apply T1 | apply T0]; apply in_seq; lia.
Qed.

Lemma ord2ymd_eq n :
  ord2ymd n =
    let n0 := n - 1 in
    let a := n0 / 146097 in let r1 := n0 mod 146097 in
    let b := r1 / 36524 in let r2 := r1 mod 36524 in
    let c := r2 / 1461 in let r3 := r2 mod 1461 in
    let e := r3 / 365 in let r4 := r3 mod 365 in
    let y := a * 400 + 1 + b * 100 + c * 4 + e in
    if (e =? 4) || (b =? 4) then (y - 1, 12, 31)
    else let '(m, d) := month_day ((e =? 3) && (negb (c =? 24) || (b =? 3))) r4 in
         (y, m, d).
Proof.
  unfold ord2ymd, month_day, DI400Y, DI100Y, DI4Y. cbv zeta.
  destruct (_ || _); [reflexivity|].
  destruct (_ <? _); reflexivity.
Qed.

Lemma ord2ymd_spec n :
  1 <= n ->
  let '(y, m, d) := ord2ymd n in
  ymd2ord y m d = n /\ 1 <= y /\ 1 <= m <= 12 /\ 1 <= d <= days_in_month y m
  /\ (n <= MAXORDINAL -> y <= MAXYEAR).
Proof.
  intros Hn. rewrite ord2ymd_eq. cbv zeta.
  set (n0 := n - 1).
  set (a := n0 / 146097). set (r1 := n0 mod 146097).
  set (b := r1 / 36524). set (r2 := r1 mod 36524).
  set (c := r2 / 1461). set (r3 := r2 mod 1461).
  set (e := r3 / 365). set (r4 := r3 mod 365).
  assert (Ha : 0 <= a /\ n0 = 146097 * a + r1 /\ 0 <= r1 < 146097)
    by (subst a r1; Z.div_mod_to_equations; lia).
  assert (Hb : 0 <= b <= 4 /\ r1 = 36524 * b + r2 /\ 0 <= r2 < 36524)
    by (subst b r2; Z.div_mod_to_equations; lia).
  assert (Hc : 0 <= c <= 24 /\ r2 = 1461 * c + r3 /\ 0 <= r3 < 1461)
    by (subst c r3; Z.div_mod_to_equations; lia).
  assert (He : 0 <= e <= 4 /\ r3 = 365 * e + r4 /\ 0 <= r4 < 365)
    by (subst e r4; Z.div_mod_to_equations; lia).
  assert (Hn0 : n0 = n - 1) by reflexivity.
  clearbody a r1 b r2 c r3 e r4 n0.
  destruct ((e =? 4) || (b =? 4)) eqn:Sp.
  - (* the last day of a 4- or 400-year cycle *)
    assert (Hy : (e = 4 /\ b <= 3 /\ r4 = 0) \/ (b = 4 /\ e = 0 /\ c = 0 /\ r4 = 0)) by lia.
    unfold ymd2ord, days_before_month, days_in_month. simpl DAYS_BEFORE_MONTH. simpl DAYS_IN_MONTH.
    simpl (2 <? 12). simpl (12 =? 2). cbv iota beta. simpl andb.
    destruct Hy as [(-> & Hb3 & ->) | (-> & -> & -> & ->)].
    + replace (a * 400 + 1 + b * 100 + c * 4 + 4 - 1) with (400 * a + 100 * b + 4 * c + 3 + 1) by lia.
      rewrite dby_decomp, is_leap_decomp by lia.
      assert (c <> 24 \/ b = 3) as Hl by lia.
      replace ((3 =? 3) && (negb (c =? 24) || (b =? 3))) with true
        by (symmetry; apply andb_true_intro; split; [reflexivity|]; apply orb_true_iff; destruct Hl; [left; apply negb_true_iff; lia | right; lia]).
      unfold MAXORDINAL, MAXYEAR. lia.
    + replace (a * 400 + 1 + 4 * 100 + 0 * 4 + 0 - 1) with (400 * a + 100 * 3 + 4 * 24 + 3 + 1) by lia.
      rewrite dby_decomp, is_leap_decomp by lia. simpl andb. cbv iota.
      unfold MAXORDINAL, MAXYEAR. lia.
  - assert (Hy : e <= 3 /\ b <= 3) by lia.
    set (leap := (e =? 3) && (negb (c =? 24) || (b =? 3))).
    assert (Hr4 : 0 <= r4 < 365 + (if leap then 1 else 0)) by (destruct leap; lia).
    pose proof (month_day_spec leap r4 Hr4) as M.
    unfold month_day_ok in M. destruct (month_day leap r4) as [m d].
    unfold ymd2ord, days_before_month, days_in_month.
    replace (a * 400 + 1 + b * 100 + c * 4 + e) with (400 * a + 100 * b + 4 * c + e + 1) by lia.
    rewrite dby_decomp, is_leap_decomp by lia. fold leap.
    repeat (apply andb_prop in M as [M ?]).
    assert (DAYS_IN_MONTH m + (if (m =? 2) && leap then 1 else 0)
            = (if (m =? 2) && leap then 29 else DAYS_IN_MONTH m)) as <-.
    { destruct (m =? 2) eqn:Em; simpl; [apply Z.eqb_eq in Em; subst m; destruct leap; reflexivity | lia]. }
    unfold MAXORDINAL, MAXYEAR. lia.
Qed.

Lemma dby_succ y :
  days_before_year (y + 1)
  = days_before_year y + 365 + (if is_leap y then 1 else 0).
Proof.
  unfold days_before_year, is_leap. cbv zeta.
  replace (y + 1 - 1) with y by lia.
  split_mods; simpl; div_lia.
Qed.

Lemma dby_mono y y' : y <= y' -> days_before_year y <= days_before_year y'.
Proof.
  intros. unfold days_before_year. cbv zeta. Z.div_mod_to_equations. lia.
Qed.

Lemma yday_bounds y m d :
  1 <= m <= 12 -> 1 <= d <= days_in_month y m ->
  1 <= days_before_month y m + d <= 365 + (if is_leap y then 1 else 0).
Proof.
  intros Hm Hd. unfold days_before_month, days_in_month in *.
  destruct (is_leap y); each_month m; simpl in *; lia.
Qed.

Lemma yday_inj y m d m' d' :
  1 <= m <= 12 -> 1 <= d <= days_in_month y m ->
  1 <= m' <= 12 -> 1 <= d' <= days_in_month y m' ->
  days_before_month y m + d = days_before_month y m' + d' ->
  m = m' /\ d = d'.
Proof.
  intros Hm Hd Hm' Hd'. unfold days_before_month, days_in_month in *.
  destruct (is_leap y); each_month m; each_month m'; simpl in *; lia.
Qed.

Lemma ymd2ord_inj y m d y' m' d' :
  1 <= m <= 12 -> 1 <= d <= days_in_month y m ->
  1 <= m' <= 12 -> 1 <= d' <= days_in_month y' m' ->
  ymd2ord y m d = ymd2ord y' m' d' ->
  y = y' /\ m = m' /\ d = d'.
Proof.
  intros Hm Hd Hm' Hd' E. unfold ymd2ord in E.
  pose proof (yday_bounds y m d Hm Hd) as B.
  pose proof (yday_bounds y' m' d' Hm' Hd') as B'.
  assert (y = y') as <-.
  { destruct (Z.lt_trichotomy y y') as [L | [L | L]]; [|exact L|]; exfalso.
    - pose proof (dby_succ y). pose proof (dby_mono (y + 1) y'). lia.
    - pose proof (dby_succ y'). pose proof (dby_mono (y' + 1) y). lia. }
  split; [reflexivity|]. apply (yday_inj y); try assumption. lia.
Qed.

Lemma ord2ymd_ymd2ord y m d :
  1 <= y -> 1 <= m <= 12 -> 1 <= d <= days_in_month y m ->
  ord2ymd (ymd2ord y m d) = (y, m, d).
Proof.
  intros Hy Hm Hd.
  assert (1 <= ymd2ord y m d) as Ho.
  { unfold ymd2ord. pose proof (yday_bounds y m d Hm Hd).
    pose proof (dby_mono 1 y Hy). change (days_before_year 1) with 0 in *. lia. }
  pose proof (ord2ymd_spec _ Ho) as S.
  destruct (ord2ymd (ymd2ord y m d)) as [[y' m'] d'].
  destruct S as (E & Hy' & Hm' & Hd' & _).
  apply ymd2ord_inj in E; try assumption.
  destruct E as (-> & -> & ->). reflexivity.
Qed.

Lemma days_in_month_range y m : 1 <= m <= 12 -> 28 <= days_in_month y m <= 31.
Proof.
  intros Hm. unfold days_in_month.
  destruct (is_leap y); each_month m; simpl; lia.
Qed.

End CalendarFacts.

(** * Facts about [datetime] arithmetic *)

Module DatetimeFacts.
Import Calendar Datetime CalendarFacts.

Lemma valid_dateb_spec y m d : valid_dateb y m d = true <-> valid_date y m d.
Proof. unfold valid_dateb, valid_date. rewrite !andb_true_iff, !Z.leb_le. tauto. Qed.

Lemma validb_spec d : validb d = true <-> valid d.
Proof.
  unfold validb, valid. rewrite !andb_true_iff, valid_dateb_spec, !Z.leb_le, !Z.ltb_lt.
  tauto.
Qed.

Lemma fromisoformat_valid s d : fromisoformat s = Ok d -> valid d.
Proof.
  unfold fromisoformat. destruct (_ || _); [discriminate|].
  destruct (parse_naive _) as [d'|]; [|discriminate].
  destruct (validb d') eqn:V; [|discriminate].
  intros [= <-]. apply validb_spec, V.
Qed.

Lemma toordinal_pos d : valid d -> 1 <= toordinal d <= MAXORDINAL.
Proof.
  intros ((Hy & Hm & Hd) & _). unfold toordinal, ymd2ord.
  pose proof (yday_bounds _ _ _ Hm Hd).
  pose proof (dby_mono 1 (year d) ltac:(lia)).
  pose proof (dby_mono (year d + 1) 10000 ltac:(unfold MAXYEAR in *; lia)).
  pose proof (dby_succ (year d)).
  change (days_before_year 1) with 0 in *.
  change (days_before_year 10000) with 3652059 in *.
  unfold MAXORDINAL. lia.
Qed.

(** Adding whole days keeps the time of day and moves the ordinal. *)
Lemma add_days d k :
  valid d -> 0 < toordinal d + k <= MAXORDINAL ->
  exists d',
    add d (td_days k) = Ok d' /\ valid d'
    /\ toordinal d' = toordinal d + k
    /\ hour d' = hour d /\ minute d' = minute d /\ second d' = second d
    /\ microsecond d' = microsecond d.
Proof.
  intros V Hk. pose proof V as (_ & Hh & Hmi & Hs & Hus).
  unfold add, to_micro, td_days, time_of_day, US_PER_DAY.
  set (tod := (hour d * 3600 + minute d * 60 + second d) * 1000000 + microsecond d).
  assert (E1 : (toordinal d * (86400 * 1000000) + tod + k * (86400 * 1000000))
               / (86400 * 1000000) = toordinal d + k)
    by (subst tod; Z.div_mod_to_equations; lia).
  assert (E2 : (toordinal d * (86400 * 1000000) + tod + k * (86400 * 1000000))
               mod (86400 * 1000000) = tod)
    by (subst tod; Z.div_mod_to_equations; lia).
  cbv zeta. rewrite E1, E2.
  replace ((0 <? toordinal d + k) && (toordinal d + k <=? MAXORDINAL)) with true
    by (symmetry; apply andb_true_intro; split; [apply Z.ltb_lt | apply Z.leb_le]; lia).
  pose proof (ord2ymd_spec (toordinal d + k) ltac:(lia)) as S.
  destruct (ord2ymd (toordinal d + k)) as [[y m] dd].
  destruct S as (E & Hy & Hm & Hd & Hmax).
  eexists. split; [reflexivity|]. cbn [year month day hour minute second microsecond].
  assert (tod / 1000000 = hour d * 3600 + minute d * 60 + second d) as ->
    by (subst tod; Z.div_mod_to_equations; lia).
  assert (tod mod 1000000 = microsecond d) as ->
    by (subst tod; Z.div_mod_to_equations; lia).
  assert ((hour d * 3600 + minute d * 60 + second d) / 3600 = hour d) as ->
    by (Z.div_mod_to_equations; lia).
  assert ((hour d * 3600 + minute d * 60 + second d) mod 3600
          = minute d * 60 + second d) as -> by (Z.div_mod_to_equations; lia).
  assert ((minute d * 60 + second d) / 60 = minute d) as ->
    by (Z.div_mod_to_equations; lia).
  assert ((minute d * 60 + second d) mod 60 = second d) as ->
    by (Z.div_mod_to_equations; lia).
  unfold valid, valid_date, toordinal.
  cbn [year month day hour minute second microsecond].
  pose proof (Hmax ltac:(lia)). repeat split; try lia; try assumption.
Qed.

Lemma add_zero d : valid d -> add d 0 = Ok d.
Proof.
  intros V. destruct (add_days d 0 V) as (d' & E & V' & Ho & Hh & Hm & Hs & Hu).
  { pose proof (toordinal_pos d V). lia. }
  change (td_days 0) with 0 in E. rewrite E. f_equal.
  destruct V as ((Hy & Hmo & Hd) & _), V' as ((Hy' & Hmo' & Hd') & _).
  unfold toordinal in Ho. rewrite Z.add_0_r in Ho.
  apply ymd2ord_inj in Ho; try assumption.
  destruct d, d'; cbn in *. destruct Ho as (-> & -> & ->). congruence.
Qed.

Lemma weekday_add_days d d' k :
  toordinal d' = toordinal d + k -> weekday d' = (weekday d + k) mod 7.
Proof. unfold weekday. intros ->. Z.div_mod_to_equations. lia. Qed.

End DatetimeFacts.

(** * Facts about decimal text *)

Module DecimalFacts.
Import Decimal.

Lemma digit_char_is_digit d : 0 <= d < 10 -> is_digit (digit_char d) = true.
Proof.
  intros H.
  assert (d = 0 \/ d = 1 \/ d = 2 \/ d = 3 \/ d = 4 \/ d = 5 \/ d = 6 \/ d = 7
          \/ d = 8 \/ d = 9) as Hc by lia.
  repeat (destruct Hc as [-> | Hc]); try subst d; reflexivity.
Qed.

Lemma digit_value_char d : 0 <= d < 10 -> digit_value (digit_char d) = d.
Proof.
  intros H.
  assert (d = 0 \/ d = 1 \/ d = 2 \/ d = 3 \/ d = 4 \/ d = 5 \/ d = 6 \/ d = 7
          \/ d = 8 \/ d = 9) as Hc by lia.
  repeat (destruct Hc as [-> | Hc]); try subst d; reflexivity.
Qed.

Lemma digit_char_not_m d : 0 <= d < 10 -> Ascii.eqb (digit_char d) "m" = false.
Proof.
  intros H.
  assert (d = 0 \/ d = 1 \/ d = 2 \/ d = 3 \/ d = 4 \/ d = 5 \/ d = 6 \/ d = 7
          \/ d = 8 \/ d = 9) as Hc by lia.
  repeat (destruct Hc as [-> | Hc]); try subst d; reflexivity.
Qed.

Lemma digits_value_app cs : forall a cs',
  digits_value a (cs ++ cs') = digits_value (digits_value a cs) cs'.
Proof. induction cs as [|c cs IH]; intros a cs'; [reflexivity|]. cbn. apply IH. Qed.

Lemma nat_digits_spec fuel : forall n acc,
  0 <= n < 10 ^ Z.of_nat fuel -> (1 <= fuel)%nat ->
  exists ds, nat_digits fuel n acc = ds ++ acc /\ ds <> [] /\ plain_digits ds
             /\ forall a, digits_value a ds = a * 10 ^ Z.of_nat (List.length ds) + n.
Proof.
  induction fuel as [|fuel IH]; intros n acc Hn Hf; [lia|].
  cbn [nat_digits]. cbv zeta.
  assert (Hd : 0 <= n mod 10 < 10) by (apply Z.mod_pos_bound; lia).
  destruct (n <? 10) eqn:E.
  - apply Z.ltb_lt in E. exists [digit_char (n mod 10)].
    split; [reflexivity|]. split; [discriminate|]. split.
    + constructor; [|constructor].
      split; [apply digit_char_is_digit | apply digit_char_not_m]; exact Hd.
    + intros a. cbn. rewrite digit_value_char by exact Hd.
      rewrite Z.mod_small by lia. lia.
  - apply Z.ltb_ge in E.
    assert (Hf' : (1 <= fuel)%nat).
    { destruct fuel; [|lia]. change (10 ^ Z.of_nat 1) with 10 in Hn. lia. }
    destruct (IH (n / 10) (digit_char (n mod 10) :: acc)) as (ds & E1 & _ & P & V).
    { rewrite Nat2Z.inj_succ, Z.pow_succ_r in Hn by lia.
      split; [apply Z.div_pos; lia | apply Z.div_lt_upper_bound; lia]. }
    { exact Hf'. }
    exists (ds ++ [digit_char (n mod 10)]).
    rewrite E1, <- app_assoc. split; [reflexivity|].
    split; [destruct ds; discriminate|]. split.
    + apply Forall_app. split; [exact P|]. constructor; [|constructor].
      split; [apply digit_char_is_digit | apply digit_char_not_m]; exact Hd.
    + intros a. rewrite digits_value_app, V. cbn.
      rewrite digit_value_char by exact Hd.
      rewrite length_app. cbn [List.length].
      replace (Z.of_nat (List.length ds + 1)) with (Z.succ (Z.of_nat (List.length ds))) by lia.
      rewrite Z.pow_succ_r by lia.
      pose proof (Z.div_mod n 10 ltac:(lia)). lia.
Qed.

(** [str(n)] of a natural number is a non-empty run of digits that reads
    back as [n]. *)
Lemma str_of_Z_digits n :
  0 <= n ->
  str_of_Z n <> [] /\ plain_digits (str_of_Z n)
  /\ digits_value 0 (str_of_Z n) = n.
Proof.
  intros Hn. unfold str_of_Z. rewrite Z.abs_eq by exact Hn.
  replace (n <? 0) with false by (symmetry; apply Z.ltb_ge; exact Hn).
  destruct (nat_digits_spec (S (Z.to_nat (Z.log2 n))) n []) as (ds & E & N & P & V).
  - split; [exact Hn|].
    rewrite Nat2Z.inj_succ, Z2Nat.id by apply Z.log2_nonneg.
    destruct (Z.eq_dec n 0) as [->|Hz]; [reflexivity|].
    pose proof (Z.log2_spec n ltac:(lia)) as [_ Hl].
    pose proof (Z.log2_nonneg n).
    pose proof (Z.pow_le_mono_l 2 10 (Z.succ (Z.log2 n)) ltac:(lia)). lia.
  - lia.
  - rewrite app_nil_r in E. rewrite E. split; [exact N|]. split; [exact P|].
    rewrite V. lia.
Qed.

End DecimalFacts.

(** * ISO 8601 text *)

Module IsoFacts.
Import Calendar Decimal Datetime CalendarFacts DatetimeFacts DecimalFacts.

(** The digits [nat_digits] writes: as many as the number needs. *)
Lemma nat_digits_length fuel : forall n acc,
  0 <= n < 10 ^ Z.of_nat fuel -> (1 <= fuel)%nat ->
  exists ds, nat_digits fuel n acc = ds ++ acc
             /\ (1 <= List.length ds)%nat
             /\ (n < 10 ^ Z.of_nat (List.length ds))
             /\ (List.length ds = 1%nat \/ 10 ^ (Z.of_nat (List.length ds) - 1) <= n).
Proof.
  induction fuel as [|fuel IH]; intros n acc Hn Hf; [lia|].
  cbn [nat_digits]. cbv zeta.
  destruct (n <? 10) eqn:E.
  - apply Z.ltb_lt in E. exists [digit_char (n mod 10)].
    split; [reflexivity|]. cbn [List.length]. split; [lia|]. split; [|left; reflexivity].
    change (10 ^ Z.of_nat 1) with 10. lia.
  - apply Z.ltb_ge in E.
    assert (Hf' : (1 <= fuel)%nat).
    { destruct fuel; [|lia]. change (10 ^ Z.of_nat 1) with 10 in Hn. lia. }
    destruct (IH (n / 10) (digit_char (n mod 10) :: acc)) as (ds & E1 & L1 & U & Lo).
    { rewrite Nat2Z.inj_succ, Z.pow_succ_r in Hn by lia.
      split; [apply Z.div_pos; lia | apply Z.div_lt_upper_bound; lia]. }
    { exact Hf'. }
    exists (ds ++ [digit_char (n mod 10)]).
    rewrite E1, <- app_assoc. split; [reflexivity|].
    rewrite length_app. cbn [List.length].
    replace (Z.of_nat (List.length ds + 1)) with (Z.succ (Z.of_nat (List.length ds))) by lia.
    rewrite Z.pow_succ_r by lia.
    replace (Z.succ (Z.of_nat (List.length ds)) - 1) with (Z.of_nat (List.length ds)) by lia.
    split; [lia|]. split.
    + Z.div_mod_to_equations. lia.
    + right. destruct Lo as [Lo | Lo].
      * rewrite Lo. change (10 ^ Z.of_nat 1) with 10. lia.
      * replace (Z.of_nat (List.length ds)) with (Z.succ (Z.of_nat (List.length ds) - 1)) by lia.
        rewrite Z.pow_succ_r by lia. Z.div_mod_to_equations. lia.
Qed.

Lemma str_of_Z_length n (w : nat) :
  0 <= n < 10 ^ Z.of_nat w -> (1 <= w)%nat ->
  (1 <= List.length (str_of_Z n) <= w)%nat.
Proof.
  intros Hn Hw. unfold str_of_Z. rewrite Z.abs_eq by lia.
  replace (n <? 0) with false by (symmetry; apply Z.ltb_ge; lia).
  destruct (nat_digits_length (S (Z.to_nat (Z.log2 n))) n []) as (ds & E & L1 & U & Lo).
  - split; [lia|].
    rewrite Nat2Z.inj_succ, Z2Nat.id by apply Z.log2_nonneg.
    destruct (Z.eq_dec n 0) as [->|Hz]; [reflexivity|].
    pose proof (Z.log2_spec n ltac:(lia)) as [_ Hl].
    pose proof (Z.log2_nonneg n).
    pose proof (Z.pow_le_mono_l 2 10 (Z.succ (Z.log2 n)) ltac:(lia)). lia.
  - lia.
  - rewrite app_nil_r in E. rewrite E. split; [exact L1|].
    destruct Lo as [Lo | Lo]; [lia|].
    destruct (Nat.le_gt_cases (List.length ds) w) as [Hle | Hgt]; [exact Hle|].
    exfalso.
    pose proof (Z.pow_le_mono_r 10 (Z.of_nat w) (Z.of_nat (List.length ds) - 1)
                  ltac:(lia) ltac:(lia)). lia.
Qed.

Lemma digits_value_zeros k : forall ds,
  digits_value 0 (List.repeat "0"%char k ++ ds) = digits_value 0 ds.
Proof. induction k as [|k IH]; intros ds; [reflexivity|]. cbn. apply IH. Qed.

(** A zero-padded field has its width, holds digits only, and reads back
    as the number. *)
Lemma zero_pad_spec (w : nat) n :
  0 <= n < 10 ^ Z.of_nat w -> (1 <= w)%nat ->
  List.length (zero_pad w n) = w /\ field (zero_pad w n) = Some n.
Proof.
  intros Hn Hw. unfold zero_pad. cbv zeta.
  pose proof (str_of_Z_length n w Hn Hw) as L.
  destruct (str_of_Z_digits n ltac:(lia)) as (_ & P & V).
  split.
  - rewrite length_app, repeat_length. lia.
  - unfold field.
    replace (all_digits (List.repeat "0"%char (w - List.length (str_of_Z n)) ++ str_of_Z n))
      with true.
    + rewrite digits_value_zeros, V. reflexivity.
    + symmetry. unfold all_digits. apply forallb_forall. intros x Hx.
      apply in_app_or in Hx as [Hx | Hx].
      * apply repeat_spec in Hx as ->. reflexivity.
      * unfold plain_digits in P. rewrite Forall_forall in P.
        apply (P x), list_elem_of_In, Hx.
Qed.

Lemma pad2 n : 0 <= n < 100 ->
  exists a b, zero_pad 2 n = [a; b] /\ field [a; b] = Some n.
Proof.
  intros H. destruct (zero_pad_spec 2 n) as (L & F); [change (10 ^ Z.of_nat 2) with 100; lia | lia |].
  destruct (zero_pad 2 n) as [|a [|b [|c l]]]; try discriminate. eauto.
Qed.

Lemma pad4 n : 0 <= n < 10000 ->
  exists a b c d, zero_pad 4 n = [a; b; c; d] /\ field [a; b; c; d] = Some n.
Proof.
  intros H. destruct (zero_pad_spec 4 n) as (L & F); [change (10 ^ Z.of_nat 4) with 10000; lia | lia |].
  destruct (zero_pad 4 n) as [|a [|b [|c [|d [|e l]]]]]; try discriminate.
  exists a, b, c, d. split; [reflexivity | exact F].
Qed.

Lemma pad6 n : 0 <= n < 1000000 ->
  exists a b c d e f, zero_pad 6 n = [a; b; c; d; e; f]
                      /\ field [a; b; c; d; e; f] = Some n.
Proof.
  intros H. destruct (zero_pad_spec 6 n) as (L & F);
    [change (10 ^ Z.of_nat 6) with 1000000; lia | lia |].
  destruct (zero_pad 6 n) as [|a [|b [|c [|d [|e [|f [|g l]]]]]]]; try discriminate.
  exists a, b, c, d, e, f. split; [reflexivity | exact F].
Qed.

Lemma field_digits cs n : field cs = Some n -> all_digits cs = true.
Proof. unfold field. destruct (all_digits cs); [reflexivity | discriminate]. Qed.

(** What [isoformat] writes, [fromisoformat] reads back. *)
Lemma fromisoformat_isoformat d : valid d -> fromisoformat (isoformat d) = Ok d.
Proof.
  intros V. pose proof V as ((Hy & Hm & Hd) & Hh & Hmi & Hs & Hus).
  pose proof (days_in_month_range (year d) (month d) Hm) as Hdim.
  unfold MAXYEAR in Hy.
  destruct (pad4 (year d) ltac:(lia)) as (y1 & y2 & y3 & y4 & Ey & Fy).
  destruct (pad2 (month d) ltac:(lia)) as (m1 & m2 & Em & Fm).
  destruct (pad2 (day d) ltac:(lia)) as (d1 & d2 & Ed & Fd).
  destruct (pad2 (hour d) ltac:(lia)) as (h1 & h2 & Eh & Fh).
  destruct (pad2 (minute d) ltac:(lia)) as (i1 & i2 & Ei & Fi).
  destruct (pad2 (second d) ltac:(lia)) as (s1 & s2 & Es & Fs).
  destruct (pad6 (microsecond d) ltac:(lia)) as (u1 & u2 & u3 & u4 & u5 & u6 & Eu & Fu).
  unfold fromisoformat, isoformat. rewrite list_ascii_of_string_of_list_ascii.
  rewrite Ey, Em, Ed, Eh, Ei, Es, Eu.
  cbn [app List.length take Nat.ltb Nat.leb orb].
  rewrite (field_digits _ _ Fy). cbn [negb orb].
  assert (Vb : validb d = true) by (apply validb_spec, V).
  destruct (microsecond d =? 0) eqn:E0.
  - apply Z.eqb_eq in E0.
    cbn [app parse_naive]. rewrite Fy, Fm, Fd. cbn [mbind option_bind].
    change (Ascii.eqb "-" "-") with true. cbn [andb is_sep].
    cbn [parse_time]. rewrite Fh, Fi, Fs. cbn [mbind option_bind].
    change (Ascii.eqb ":" ":") with true. cbn [andb].
    change (is_sep "T") with true. cbv iota. cbn [mbind option_bind].
    replace (mkdt (year d) (month d) (day d) (hour d) (minute d) (second d) 0) with d
      by (destruct d; cbn in *; subst; reflexivity).
    rewrite Vb. reflexivity.
  - cbn [app parse_naive]. rewrite Fy, Fm, Fd. cbn [mbind option_bind].
    change (Ascii.eqb "-" "-") with true. cbn [andb].
    cbn [parse_time]. rewrite Fh, Fi, Fs. cbn [mbind option_bind].
    change (Ascii.eqb ":" ":") with true. cbn [andb].
    rewrite Fu. cbn [mbind option_bind].
    change (Ascii.eqb "." ".") with true. cbv iota.
    change (is_sep "T") with true. cbv iota. cbn [mbind option_bind].
    replace (mkdt (year d) (month d) (day d) (hour d) (minute d) (second d)
               (microsecond d)) with d by (destruct d; reflexivity).
    rewrite Vb. reflexivity.
Qed.

Lemma parse_iso_isoformat d :
  valid d -> App.parse_iso (Some (isoformat d)) = Ok (Some d).
Proof. intros V. unfold App.parse_iso. rewrite fromisoformat_isoformat by exact V. reflexivity. Qed.

End IsoFacts.

(** * Facts shared by the handlers *)

Module AppFacts.
Import Calendar Datetime Json Storage App Spec CalendarFacts DatetimeFacts.

Lemma parse_iso_valid s l : parse_iso s = Ok (Some l) -> valid l.
Proof.
  unfold parse_iso. destruct s as [s|]; [|discriminate].
  destruct (fromisoformat s) eqn:E; try discriminate.
  intros [= <-]. eapply fromisoformat_valid, E.
Qed.

Lemma last_of_valid user l : last_of user = Ok (Some l) -> valid l.
Proof.
  unfold last_of. destruct (Text.nonempty _); [apply parse_iso_valid | discriminate].
Qed.

Lemma users_handle_recurrence e t st :
  users (snd (handle_recurrence_after_completion e t st)) = users st.
Proof.
  unfold handle_recurrence_after_completion.
  destruct (parse_iso (r_due t)) as [[due|]| |]; try reflexivity.
  destruct (next_due _ _ _) as [[nd|]| |]; reflexivity.
Qed.

Lemma get_user_update_user u coins streak lc st user :
  get_user u st = Some user ->
  get_user u (update_user u coins streak lc st)
  = Some (mkuser (u_username user) (u_password_hash user)
            (Some coins) (Some streak) (Some lc)).
Proof.
  unfold get_user, update_user. cbn [users].
  induction (users st) as [|x l IH]; [discriminate|]. cbn [List.find List.map].
  destruct (String.eqb (u_username x) u) eqn:E.
  - intros [= ->]. cbn [List.find u_username]. rewrite E. reflexivity.
  - intros H. cbn [List.find]. rewrite E. apply IH, H.
Qed.

Lemma get_user_update_task u id_ fields st :
  get_user u (update_task id_ fields st) = get_user u st.
Proof. reflexivity. Qed.

End AppFacts.

(** * Monthly recurrence *)

Module Monthly.
Import Calendar Datetime Spec CalendarFacts DatetimeFacts.

(** [dt + relativedelta(months=1)] in the upgraded application: the next
    calendar month, the same day of the month when that month has it and its
    last day otherwise, the time of day untouched. *)
Lemma add_one_month_calendar_aware d :
  valid d -> fst (next_month (year d) (month d)) <= MAXYEAR ->
  let '(y, m) := next_month (year d) (month d) in
  add_one_month d
  = Ok (mkdt y m (Z.min (days_in_month y m) (day d))
          (hour d) (minute d) (second d) (microsecond d)).
Proof.
  intros V Hy. pose proof V as ((Hy0 & Hm & Hd) & Ht).
  unfold add_one_month, next_month in *.
  destruct (month d =? 12) eqn:E12.
  - apply Z.eqb_eq in E12. rewrite E12 in *. cbn [fst] in Hy.
    replace (12 <? 12 + 1) with true by (symmetry; apply Z.ltb_lt; lia).
    replace (12 + 1 - 12) with 1 by lia.
    replace ((1 <=? year d + 1) && (year d + 1 <=? MAXYEAR)) with true
      by (symmetry; apply andb_true_intro; split; apply Z.leb_le; lia).
    apply add_zero. split; [|exact Ht]. unfold valid_date. cbn [year month day].
    pose proof (days_in_month_range (year d + 1) 1 ltac:(lia)).
    pose proof (days_in_month_range (year d) 12 ltac:(lia)).
    repeat split; lia.
  - apply Z.eqb_neq in E12. cbn [fst] in Hy.
    replace (12 <? month d + 1) with false by (symmetry; apply Z.ltb_ge; lia).
    replace ((1 <=? year d) && (year d <=? MAXYEAR)) with true
      by (symmetry; apply andb_true_intro; split; apply Z.leb_le; lia).
    apply add_zero. split; [|exact Ht]. unfold valid_date. cbn [year month day].
    pose proof (days_in_month_range (year d) (month d + 1) ltac:(lia)).
    pose proof (days_in_month_range (year d) (month d) ltac:(lia)).
    repeat split; lia.
Qed.

(** From January 31 the upgraded application lands on the last day of
    February: the 29th in a leap year, the 28th otherwise. *)
Lemma add_one_month_jan31 y h mi s us :
  valid (mkdt y 1 31 h mi s us) ->
  add_one_month (mkdt y 1 31 h mi s us)
  = Ok (mkdt y 2 (if is_leap y then 29 else 28) h mi s us).
Proof.
  intros V. pose proof (add_one_month_calendar_aware _ V) as A.
  cbn in A. destruct V as ((Hy & _) & _). cbn in Hy.
  rewrite A by lia. unfold days_in_month. cbn.
  destruct (is_leap y); reflexivity.
Qed.

End Monthly.

(** C3, at the failing input.  In [task.py] a monthly task due on January 31
    at 09:00 is followed by a task due thirty days later: March 2 in 2023 and
    March 1 in the leap year 2024, where the claim asks for February 28 and
    February 29. *)
Theorem C3_legacy_monthly_skips_february :
  Legacy.toggle_done "T2" "T1"
    [Legacy.mkltask (Some "T1") (Some "rent") (Some "General")
       (Some "2023-01-31T09:00:00") false None (Some "monthly") false]
  = Ok [Legacy.mkltask (Some "T1") (Some "rent") (Some "General")
          (Some "2023-01-31T09:00:00") true None (Some "monthly") false;
        Legacy.mkltask (Some "T2") (Some "rent") (Some "General")
          (Some "2023-03-02T09:00:00") false None (Some "monthly") false]
  /\ Legacy.toggle_done "T2" "T1"
       [Legacy.mkltask (Some "T1") (Some "rent") (Some "General")
          (Some "2024-01-31T09:00:00") false None (Some "monthly") false]
     = Ok [Legacy.mkltask (Some "T1") (Some "rent") (Some "General")
             (Some "2024-01-31T09:00:00") true None (Some "monthly") false;
           Legacy.mkltask (Some "T2") (Some "rent") (Some "General")
             (Some "2024-03-01T09:00:00") false None (Some "monthly") false].
Proof. split; vm_compute; reflexivity. Qed.

(** * Completion through the store *)

Module Completion.
Import Calendar Datetime Json Storage App Spec.

(** The row written for the next occurrence carries the JSON text of the
    text it was copied from: [add_task] dumps the [str] read from the row. *)
Lemma successor_extra_is_dumped_again (e : env) (t : row) (nd : datetime)
    (now : string) :
  r_recurrence_extra (row_of_task (uuid e) now (successor e t nd))
  = dumps (JStr (r_recurrence_extra t)).
Proof. reflexivity. Qed.

(** Un-marking a done task in [upgraded_task.py] writes [done = 0] and
    nothing else. *)
Lemma undone_only_clears_done (e : env) (u : option string) (id_ : string)
    (st : storage) (t : row) :
  get_task id_ st = Some t -> r_done t <> 0 ->
  toggle_done e u id_ st = (Ok (), update_task id_ [SetDone 0] st).
Proof.
  intros Ht Hd. unfold toggle_done. rewrite Ht.
  apply Z.eqb_neq in Hd. rewrite Hd. reflexivity.
Qed.

(** What the recurrence code does tolerate in a custom task: a
    [recurrence_extra] that is a dict with neither mode set ends the series
    quietly. *)
Lemma custom_without_modes_stops (e : env) (t : row) (st : storage)
    (due : datetime) (members : list (string * json)) :
  r_recurrence t = "custom" ->
  App.parse_iso (r_due t) = Ok (Some due) ->
  loads (extra_text (r_recurrence_extra t)) = Ok (JObj members) ->
  opt_truthy (dict_get "every_x_days" members) = false ->
  opt_truthy (dict_get "weekdays" members) = false ->
  handle_recurrence_after_completion e t st = (Ok (), st).
Proof.
  intros Hrec Hdue Hload He Hw.
  unfold handle_recurrence_after_completion. rewrite Hdue, Hrec.
  change (next_due "custom" due (r_recurrence_extra t))
    with (custom_next_due due (r_recurrence_extra t)).
  unfold custom_next_due. rewrite Hload.
  cbn [mbind outcome_bind obind extra_get]. rewrite He, Hw. reflexivity.
Qed.

Lemma extra_text_empty : loads (extra_text "") = Ok (JObj []).
Proof. vm_compute. reflexivity. Qed.

End Completion.

(** C4, the scenario run on the store.  Completing T1 (custom, weekdays
    {Tue, Fri}, due Tuesday 09:00) inserts T2 due Friday 09:00 of the same
    week, but T2's [recurrence_extra] column holds the JSON text of a string,
    not of a dict: [add_task] dumped the text it had read from the row.
    Completing T2 marks it done, then raises [AttributeError] in
    [_handle_recurrence_after_completion]; no task for the following Tuesday
    is inserted. *)
Theorem C4_rollover_breaks_custom_recurrence :
  fst Scenario.step1 = Ok ()
  /\ List.map Storage.r_id (Storage.tasks (snd Scenario.step1)) = ["T1"; "T2"]
  /\ Storage.r_due <$> Storage.get_task "T2" (snd Scenario.step1)
     = Some (Some "2024-01-05T09:00:00")
  /\ Datetime.weekday (Datetime.mkdt 2024 1 2 9 0 0 0) = 1
  /\ Datetime.weekday (Datetime.mkdt 2024 1 5 9 0 0 0) = 4
  /\ Storage.r_recurrence_extra <$> Storage.get_task "T2" (snd Scenario.step1)
     = Some (Json.dumps (Json.JStr (Json.dumps Scenario.tue_fri)))
  /\ fst Scenario.step2 = Raise AttributeError
  /\ List.map (fun r => (Storage.r_id r, Storage.r_done r))
       (Storage.tasks (snd Scenario.step2)) = [("T1", 1); ("T2", 1)].
Proof. repeat split; vm_compute; reflexivity. Qed.

(** C7, at two failing inputs.  A custom task whose stored
    [recurrence_extra] does not have the expected shape makes completion
    raise instead of ending quietly: after a backup was restored the column
    holds the text of a JSON string, and a record imported with a list there
    holds the text of a JSON list.  In both runs the task is already marked
    done when [AttributeError] is raised, and no row is inserted. *)
Theorem C7_malformed_extra_raises :
  Storage.r_recurrence_extra <$> Storage.get_task "T1" Scenario.restored
  = Some (Json.dumps (Json.JStr (Json.dumps Scenario.tue_fri)))
  /\ (let '(result, st) :=
        App.toggle_done (Scenario.env_at 2 "T2") (Some "ann") "T1"
          Scenario.restored in
      result = Raise AttributeError
      /\ List.map (fun r => (Storage.r_id r, Storage.r_done r)) (Storage.tasks st)
         = [("T1", 1)])
  /\ (let '(result, st) :=
        App.toggle_done (Scenario.env_at 2 "T2") (Some "ann") "M1"
          (Scenario.store_of Scenario.listy) in
      result = Raise AttributeError
      /\ List.map (fun r => (Storage.r_id r, Storage.r_done r)) (Storage.tasks st)
         = [("M1", 1)]).
Proof. repeat split; vm_compute; reflexivity. Qed.

(** C5, at the failing input.  In [upgraded_task.py] un-marking a done task
    whose due-event was emitted clears [done] and leaves coins, streak and xp
    alone, but [notified] stays 1, so a notifier pass thirty seconds after the
    due time emits nothing.  [toggle_done] of [task.py] does clear
    [notified] on the same task. *)
Theorem C5_undone_keeps_notified :
  (let '(result, st) :=
     App.toggle_done (Scenario.env_at 2 "T2") (Some "ann") "D1"
       Scenario.fired_and_done in
   result = Ok ()
   /\ List.map (fun r => (Storage.r_done r, Storage.r_notified r, Storage.r_xp r))
        (Storage.tasks st) = [(0, 1, 10)]
   /\ Storage.users st = Storage.users Scenario.fired_and_done
   /\ App.notifier_pass (Datetime.mkdt 2024 1 2 9 0 30 0) (Some "ann") st
      = (Ok (), ([], st)))
  /\ Legacy.toggle_done "T2" "D1" [Scenario.legacy_fired_and_done]
     = Ok [Legacy.set_notified
             (Legacy.set_done Scenario.legacy_fired_and_done false) false].
Proof. repeat split; vm_compute; reflexivity. Qed.

(** * Handlers on an id that is not in the store *)

Module MissingId.
Import Decimal Json Storage App DecimalFacts.

Lemma remove_char_plain ds :
  plain_digits ds ->
  Text.remove_char "m" (string_of_list_ascii (ds ++ ["m"%char]))
  = string_of_list_ascii ds.
Proof.
  induction 1 as [|c ds (_ & Hc) _ IH]; [reflexivity|].
  cbn. rewrite Hc. cbn. f_equal. exact IH.
Qed.

Lemma int_of_snooze_label m :
  0 <= m -> int_of_str (Text.remove_char "m" (snooze_label m)) = Ok m.
Proof.
  intros Hm. destruct (str_of_Z_digits m Hm) as (N & P & V).
  unfold snooze_label. rewrite remove_char_plain by exact P.
  unfold int_of_str. rewrite list_ascii_of_string_of_list_ascii.
  destruct (str_of_Z m) as [|c cs] eqn:E; [congruence|].
  replace (all_digits (c :: cs)) with true; [rewrite V; reflexivity|].
  symmetry. apply forallb_forall. intros x Hx.
  unfold plain_digits in P. rewrite Forall_forall in P.
  apply (P x). apply list_elem_of_In. exact Hx.
Qed.

(** C10.  When no task row has the id, [_toggle_done] and
    [_snooze_choice] return without writing and without raising: the store
    (tasks and profiles) is the one they were given.  For snooze this holds
    for every label the menu or the due popup can pass ([f"{m}m"] and the
    placeholder); for any other text the store is still untouched. *)
Theorem C10_missing_id_changes_nothing (st : storage) (id_ : string) :
  get_task id_ st = None ->
  (forall e current_user, toggle_done e current_user id_ st = (Ok (), st))
  /\ (forall m, 0 <= m -> snooze_choice id_ (snooze_label m) st = (Ok (), st))
  /\ snooze_choice id_ "Snooze" st = (Ok (), st)
  /\ (forall val, snd (snooze_choice id_ val st) = st).
Proof.
  intros Hmiss. repeat split.
  - intros e u. unfold toggle_done. rewrite Hmiss. reflexivity.
  - intros m Hm. unfold snooze_choice.
    destruct (_ || _); [reflexivity|].
    rewrite int_of_snooze_label by exact Hm. rewrite Hmiss. reflexivity.
  - intros val. unfold snooze_choice.
    destruct (_ || _); [reflexivity|].
    destruct (int_of_str _); [|reflexivity..].
    rewrite Hmiss. reflexivity.
Qed.

Lemma C10_missing_id_witness :
  get_task "nope" Scenario.store1 = None
  /\ (forall e current_user,
        toggle_done e current_user "nope" Scenario.store1 = (Ok (), Scenario.store1))
  /\ snooze_choice "nope" (snooze_label 10) Scenario.store1 = (Ok (), Scenario.store1).
Proof.
  pose proof (C10_missing_id_changes_nothing Scenario.store1 "nope" eq_refl)
    as (H1 & H2 & _).
  split; [reflexivity|]. split; [exact H1|]. apply H2. lia.
Defined.

End MissingId.

(** * Reconciliation with the Mongo mirror *)

Module Reconcile.
Import Legacy.

Lemma truthy_ids_spec i l : i ∈ truthy_ids l <-> i <> EmptyString /\ has_id i l.
Proof.
  unfold truthy_ids, has_id. rewrite list_elem_of_omap. split.
  - intros (t & Ht & E). destruct (l_id t) as [j|] eqn:Ej; [|discriminate].
    destruct (String.eqb j "") eqn:Eb; [discriminate|].
    injection E as ->. apply String.eqb_neq in Eb. eauto.
  - intros (Hne & t & Ht & E). exists t. split; [exact Ht|]. rewrite E.
    apply String.eqb_neq in Hne. rewrite Hne. reflexivity.
Qed.



Lemma has_id_delete_many i del c :
  has_id i (delete_many del c) <-> has_id i c /\ i ∉ del.
Proof.
  unfold has_id, delete_many. split.
  - intros (x & Hx & E). apply list_elem_of_In, filter_In in Hx as [Hx Hk].
    rewrite E in Hk. apply negb_true_iff, bool_decide_eq_false in Hk.
    split; [|exact Hk]. exists x. split; [apply list_elem_of_In, Hx | exact E].
  - intros ((x & Hx & E) & Hn). exists x. split; [|exact E].
    apply list_elem_of_In, filter_In. split; [apply list_elem_of_In, Hx|].
    rewrite E. apply negb_true_iff, bool_decide_eq_false. exact Hn.
Qed.

Lemma to_delete_spec i (remote_ids local_ids : list string) :
  i ∈ List.filter (fun i => negb (bool_decide (i ∈ local_ids))) remote_ids
  <-> i ∈ remote_ids /\ i ∉ local_ids.
Proof.
  rewrite list_elem_of_In, filter_In, <- list_elem_of_In.
  rewrite negb_true_iff, bool_decide_eq_false. reflexivity.
Qed.

(** After pruning, a truthy id is remote exactly when it was remote and
    is local. *)
Lemma truthy_ids_prune i tasks c :
  i ∈ truthy_ids (prune tasks c)
  <-> i ∈ truthy_ids c /\ i ∈ truthy_ids tasks.
Proof.
  unfold prune. cbv zeta.
  set (del := List.filter _ (truthy_ids c)).
  assert (Hdel : forall j, j ∈ del <-> j ∈ truthy_ids c /\ j ∉ truthy_ids tasks)
    by (intros j; apply to_delete_spec).
  assert (Hmain : i ∈ truthy_ids (delete_many del c)
                  <-> i ∈ truthy_ids c /\ i ∈ truthy_ids tasks).
  { rewrite !(truthy_ids_spec i (delete_many _ _)), has_id_delete_many, Hdel.
    rewrite (truthy_ids_spec i c). split.
    - intros (Hne & Hc & Hn). split; [tauto|].
      destruct (decide (i ∈ truthy_ids tasks)) as [Hin | Hout]; [exact Hin|].
      exfalso. apply Hn. tauto.
    - intros ((Hne & Hc) & Hl). tauto. }
  destruct del as [|x del'] eqn:E; [|exact Hmain].
  rewrite <- Hmain. rewrite !truthy_ids_spec, has_id_delete_many.
  split; [|tauto]. intros (Hne & Hc). repeat split; try assumption. inversion 1.
Qed.


(** Local ids {A, B} against remote ids {A, B, C}: C is pruned. *)
Example reconcile_AB_ABC :
  save Scenario.local_AB (Mongo Scenario.remote_ABC)
  = (Scenario.local_AB, Mongo Scenario.local_AB).
Proof. vm_compute. reflexivity. Qed.

End Reconcile.

(** * Backup and restore *)

Module Backup.
Import Json Storage Spec.

Lemma str_or_nonempty s d : s <> EmptyString -> str_or (Some s) d = s.
Proof. intros H. unfold str_or. apply String.eqb_neq in H. rewrite H. reflexivity. Qed.

Lemma row_of_exported uuid now r :
  wf_row r -> row_of_task uuid now (task_of_row r) = reimported r.
Proof.
  intros (Hi & Hc). unfold reimported, row_of_task, task_of_row.
  cbn [t_id t_user t_title t_category t_due t_created t_done t_recurrence
       t_recurrence_extra t_notified t_xp r_id r_created].
  rewrite !(str_or_nonempty (r_id r)), !(str_or_nonempty (r_created r))
    by assumption.
  reflexivity.
Qed.

Lemma reimported_id r : wf_row r -> r_id (reimported r) = r_id r.
Proof.
  intros (Hi & _). unfold reimported, row_of_task, task_of_row.
  cbn [t_id t_user t_title t_category t_due t_created t_done t_recurrence
       t_recurrence_extra t_notified t_xp r_id r_created].
  apply str_or_nonempty, Hi.
Qed.

Lemma reimported_wf r : wf_row r -> wf_row (reimported r).
Proof.
  intros (Hi & Hc). unfold wf_row, reimported, row_of_task, task_of_row.
  cbn [t_id t_user t_title t_category t_due t_created t_done t_recurrence
       t_recurrence_extra t_notified t_xp r_id r_created].
  rewrite !(str_or_nonempty (r_id r)), !(str_or_nonempty (r_created r))
    by assumption.
  split; assumption.
Qed.

Lemma filter_keeps_all i (l : list row) :
  i ∉ List.map r_id l ->
  List.filter (fun r' => negb (String.eqb (r_id r') i)) l = l.
Proof.
  induction l as [|x l IH]; intros Hn; [reflexivity|]. cbn.
  destruct (String.eqb (r_id x) i) eqn:E.
  - exfalso. apply Hn. apply String.eqb_eq in E. rewrite <- E. cbn. left.
  - cbn. f_equal. apply IH. intros Hin. apply Hn. cbn. right. exact Hin.
Qed.

Lemma map_reimported_ids rows :
  Forall wf_row rows -> List.map r_id (List.map reimported rows) = List.map r_id rows.
Proof.
  induction 1 as [|r rows Hw _ IH]; [reflexivity|].
  rewrite !map_cons, (reimported_id r Hw), IH. reflexivity.
Qed.

Lemma outside_nil rows : outside [] rows = rows.
Proof.
  unfold outside. induction rows as [|x l IH]; [reflexivity|]. cbn [List.filter].
  rewrite bool_decide_eq_false_2 by (inversion 1). cbn [negb]. f_equal. exact IH.
Qed.

Lemma outside_cons i ids rows :
  outside ids (List.filter (fun r' => negb (String.eqb (r_id r') i)) rows)
  = outside (i :: ids) rows.
Proof.
  unfold outside. induction rows as [|x l IH]; [reflexivity|]. cbn [List.filter].
  destruct (String.eqb (r_id x) i) eqn:E; cbn [negb].
  - apply String.eqb_eq in E.
    rewrite (bool_decide_eq_true_2 (r_id x ∈ i :: ids)) by (rewrite E; left).
    cbn [negb]. exact IH.
  - apply String.eqb_neq in E. cbn [List.filter].
    destruct (bool_decide (r_id x ∈ ids)) eqn:B.
    + apply bool_decide_eq_true in B.
      rewrite (bool_decide_eq_true_2 (r_id x ∈ i :: ids)) by (right; exact B).
      cbn [negb]. exact IH.
    + apply bool_decide_eq_false in B.
      rewrite (bool_decide_eq_false_2 (r_id x ∈ i :: ids)).
      * cbn [negb]. f_equal. exact IH.
      * intros H. apply elem_of_cons in H as [H | H]; [exact (E H) | exact (B H)].
Qed.

Lemma outside_all ids rows :
  (forall r, r ∈ rows -> r_id r ∈ ids) -> outside ids rows = [].
Proof.
  unfold outside. induction rows as [|x l IH]; intros H; [reflexivity|].
  cbn [List.filter]. rewrite bool_decide_eq_true_2 by (apply H; left).
  cbn [negb]. apply IH. intros r Hr. apply H. right. exact Hr.
Qed.

Lemma outside_idem ids rows : outside ids (outside ids rows) = outside ids rows.
Proof.
  unfold outside. induction rows as [|x l IH]; [reflexivity|]. cbn [List.filter].
  destruct (negb (bool_decide (r_id x ∈ ids))) eqn:E; [|exact IH].
  cbn [List.filter]. rewrite E. f_equal. exact IH.
Qed.

Lemma outside_app ids a b : outside ids (a ++ b) = outside ids a ++ outside ids b.
Proof. unfold outside. apply List.filter_app. Qed.

(** Importing the records of [rest] into a store whose rows are [base]
    followed by rows [done_] with ids that [rest] does not use: the rows of
    [base] with an id of [rest] are deleted, and the reimported rows are
    appended in the order of [rest]. *)
Lemma import_from_spec fresh users_ rest : forall k base done_,
  NoDup (List.map r_id rest) -> Forall wf_row rest ->
  (forall i, i ∈ List.map r_id done_ -> i ∉ List.map r_id rest) ->
  import_from k fresh (List.map task_of_row rest) (mkstorage (base ++ done_) users_)
  = mkstorage (outside (List.map r_id rest) base ++ done_
               ++ List.map reimported rest) users_.
Proof.
  induction rest as [|r rest IH]; intros k base done_ Hnd Hwf Hdis.
  - cbn [List.map import_from]. rewrite outside_nil, app_nil_r. reflexivity.
  - rewrite map_cons in Hnd.
    apply NoDup_cons in Hnd as [Hr Hnd]. apply Forall_cons in Hwf as [Hw Hwf].
    cbn [List.map import_from]. unfold add_task. cbn [tasks users].
    rewrite row_of_exported by exact Hw.
    unfold insert_or_replace. rewrite (reimported_id r Hw).
    rewrite List.filter_app, (filter_keeps_all (r_id r) done_).
    2:{ intros Hin. apply (Hdis _ Hin). left. }
    rewrite <- app_assoc. rewrite IH; try assumption.
    + rewrite outside_cons, <- app_assoc. reflexivity.
    + intros i Hin. rewrite map_app in Hin. apply elem_of_app in Hin as [Hin | Hin].
      * intros Hi. apply (Hdis _ Hin). right. exact Hi.
      * change (List.map r_id [reimported r]) with [r_id (reimported r)] in Hin.
        apply list_elem_of_singleton in Hin as ->.
        rewrite (reimported_id r Hw). exact Hr.
Qed.

(** Restoring the backup of [st] into any store. *)
Lemma import_of_export_into fresh st target :
  wf_store st ->
  import_json fresh (export_json st) target
  = mkstorage (outside (List.map r_id (tasks st)) (tasks target)
               ++ List.map reimported (tasks st)) (users target).
Proof.
  intros (Hnd & Hwf). unfold import_json, export_json.
  change (list_tasks None st) with (tasks st).
  destruct target as [ts us]. cbn [tasks users].
  rewrite <- (app_nil_r ts) at 1.
  rewrite (import_from_spec fresh us (tasks st) 0%nat ts []); try assumption.
  - reflexivity.
  - intros i Hin. inversion Hin.
Qed.

Lemma NoDup_outside ids rows :
  NoDup (List.map r_id rows) -> NoDup (List.map r_id (outside ids rows)).
Proof.
  unfold outside. induction rows as [|x l IH]; intros H; [constructor|].
  rewrite map_cons in H. apply NoDup_cons in H as [Hx H]. cbn [List.filter].
  destruct (negb _); [|apply IH, H]. rewrite map_cons. apply NoDup_cons.
  split; [|apply IH, H].
  intros Hin. apply Hx. apply list_elem_of_fmap in Hin as (y & -> & Hy).
  apply list_elem_of_In, filter_In in Hy as [Hy _].
  apply list_elem_of_fmap. exists y. split; [reflexivity | apply list_elem_of_In, Hy].
Qed.

Lemma outside_ids i ids rows :
  i ∈ List.map r_id (outside ids rows) -> i ∉ ids.
Proof.
  unfold outside. intros Hin. apply list_elem_of_fmap in Hin as (y & -> & Hy).
  apply list_elem_of_In, filter_In in Hy as [_ Hy].
  apply negb_true_iff, bool_decide_eq_false in Hy. exact Hy.
Qed.

(** C9.  The records exported from a store as [add_task] builds it can be
    imported again and again: whatever store they are imported into (the
    store itself, in the claim), the store after a second import is the store
    after the first, whatever uuids and clock readings the second import
    draws; ids stay unique, and imported into the store itself the result has
    one row per original id, in the same order. *)
Theorem C9_second_import_changes_nothing
    (st target : storage) (fresh1 fresh2 : nat -> string * string) :
  wf_store st ->
  let once := import_json fresh1 (export_json st) target in
  import_json fresh2 (export_json st) once = once
  /\ (NoDup (List.map r_id (tasks target)) -> NoDup (List.map r_id (tasks once)))
  /\ (target = st -> List.map r_id (tasks once) = List.map r_id (tasks st)).
Proof.
  intros W. pose proof W as (Hnd & Hwf). cbv zeta.
  rewrite (import_of_export_into fresh1 st target W).
  rewrite (import_of_export_into fresh2 st _ W). cbn [tasks users].
  set (ids := List.map r_id (tasks st)).
  assert (Hre : List.map r_id (List.map reimported (tasks st)) = ids)
    by (apply map_reimported_ids, Hwf).
  split; [|split].
  - rewrite outside_app, outside_idem.
    rewrite (outside_all ids (List.map reimported (tasks st))).
    + rewrite app_nil_r. reflexivity.
    + intros r Hr. rewrite <- Hre. apply list_elem_of_fmap. eauto.
  - intros Ht. rewrite map_app, Hre. apply NoDup_app. split; [|split].
    + apply NoDup_outside, Ht.
    + intros i Hi. apply (outside_ids _ _ _ Hi).
    + exact Hnd.
  - intros ->. rewrite (outside_all ids (tasks st)).
    + exact Hre.
    + intros r Hr. subst ids. apply list_elem_of_fmap. eauto.
Qed.

(** Stores built by [add_task] from the empty store satisfy [wf_store]. *)
Lemma wf_store_empty : wf_store (mkstorage [] []).
Proof. split; constructor. Qed.

Lemma wf_store_add_task uuid now t st :
  uuid <> EmptyString -> now <> EmptyString ->
  wf_store st -> wf_store (add_task uuid now t st).
Proof.
  intros Hu Hn (Hnd & Hwf). unfold add_task, insert_or_replace.
  assert (Hnew : wf_row (row_of_task uuid now t)).
  { unfold wf_row, row_of_task, str_or. cbn [r_id r_created]. split.
    - destruct (t_id t) as [i|]; [|exact Hu].
      destruct (String.eqb i "") eqn:E; [exact Hu | apply String.eqb_neq, E].
    - destruct (t_created t) as [i|]; [|exact Hn].
      destruct (String.eqb i "") eqn:E; [exact Hn | apply String.eqb_neq, E]. }
  set (new := row_of_task uuid now t) in *. clearbody new.
  split; cbn [tasks].
  - rewrite map_app. apply NoDup_app. split; [|split].
    + clear Hwf. induction (tasks st) as [|x l IH]; [constructor|].
      cbn in *. apply NoDup_cons in Hnd as [Hx Hnd].
      destruct (negb _); [|apply IH, Hnd]. cbn. apply NoDup_cons. split; [|apply IH, Hnd].
      intros Hin. apply Hx. apply list_elem_of_fmap in Hin as (y & -> & Hy).
      apply list_elem_of_In, filter_In in Hy as [Hy _].
      apply list_elem_of_fmap. exists y. split; [reflexivity | apply list_elem_of_In, Hy].
    + intros i Hin Hi. change (List.map r_id [new]) with [r_id new] in Hi.
      apply list_elem_of_singleton in Hi as ->.
      apply list_elem_of_fmap in Hin as (y & Ey & Hy).
      apply list_elem_of_In, filter_In in Hy as [_ Hy].
      apply negb_true_iff, String.eqb_neq in Hy. congruence.
    + apply NoDup_singleton.
  - apply Forall_app. split.
    + rewrite Forall_forall in Hwf |- *. intros x Hx.
      apply Hwf. apply list_elem_of_In, filter_In in Hx as [Hx _].
      apply list_elem_of_In, Hx.
    + constructor; [exact Hnew | constructor].
Qed.

Lemma C9_second_import_witness :
  wf_store Scenario.store1
  /\ import_json (fun _ => ("u2", "n2"))
       (export_json Scenario.store1) Scenario.restored
     = Scenario.restored.
Proof.
  assert (W : wf_store Scenario.store1).
  { split; vm_compute.
    - apply NoDup_singleton.
    - constructor; [split; discriminate | constructor]. }
  split; [exact W|].
  exact (proj1 (C9_second_import_changes_nothing Scenario.store1 Scenario.store1
                  (fun _ => ("unused", "unused")) (fun _ => ("u2", "n2")) W)).
Defined.

End Backup.


(** * Weekday-set recurrence *)

Module WeekdaySet.
Import Calendar Datetime Json Storage App Spec CalendarFacts DatetimeFacts AppFacts.

(** *** [sorted] *)

Lemma elem_of_insert_sorted x y l : y ∈ insert_sorted x l <-> y = x \/ y ∈ l.
Proof.
  induction l as [|z l IH]; cbn [insert_sorted].
  - rewrite list_elem_of_singleton. split; [left; assumption|].
    intros [H | H]; [exact H | inversion H].
  - destruct (x <=? z).
    + rewrite elem_of_cons. reflexivity.
    + rewrite !elem_of_cons, IH. tauto.
Qed.

Lemma elem_of_sorted y l : y ∈ sorted l <-> y ∈ l.
Proof.
  unfold sorted. induction l as [|x l IH]; cbn [fold_right]; [reflexivity|].
  rewrite elem_of_insert_sorted, elem_of_cons, IH. reflexivity.
Qed.

Lemma ascending_cons x l :
  ascending (x :: l) <-> (forall y, y ∈ l -> x <= y) /\ ascending l.
Proof.
  unfold ascending. split.
  - intros H. split.
    + intros y Hy. apply list_elem_of_lookup in Hy as [j Hj].
      apply (H 0%nat (S j) x y); [lia | reflexivity | exact Hj].
    + intros i j a b Hij Ha Hb. apply (H (S i) (S j)); [lia | exact Ha | exact Hb].
  - intros [Hx Hl] i j a b Hij Ha Hb.
    destruct i as [|i], j as [|j]; cbn in Ha, Hb.
    + injection Ha as <-. injection Hb as <-. lia.
    + injection Ha as <-. apply Hx. apply list_elem_of_lookup. eauto.
    + lia.
    + apply (Hl i j); [lia | exact Ha | exact Hb].
Qed.

Lemma ascending_insert_sorted x l : ascending l -> ascending (insert_sorted x l).
Proof.
  induction l as [|z l IH]; intros Hl; cbn [insert_sorted].
  - apply ascending_cons. split; [inversion 1|]. intros i j a b _ Ha. destruct i; discriminate.
  - destruct (x <=? z) eqn:E.
    + apply Z.leb_le in E. apply ascending_cons. split; [|exact Hl].
      apply ascending_cons in Hl as [Hz _].
      intros y Hy. apply elem_of_cons in Hy as [-> | Hy]; [exact E|].
      specialize (Hz y Hy). lia.
    + apply Z.leb_gt in E. apply ascending_cons in Hl as [Hz Hl].
      apply ascending_cons. split; [|apply IH, Hl].
      intros y Hy. apply elem_of_insert_sorted in Hy as [-> | Hy]; [lia | apply Hz, Hy].
Qed.

Lemma ascending_sorted l : ascending (sorted l).
Proof.
  unfold sorted. induction l as [|x l IH]; cbn [fold_right].
  - intros i j a b _ Ha. destruct i; discriminate.
  - apply ascending_insert_sorted, IH.
Qed.

(** The search of the loop on an ascending list. *)
Lemma find_above_ascending wd s :
  ascending s ->
  match List.find (fun d => wd <? d) s with
  | Some w => w ∈ s /\ wd < w /\ forall w', w' ∈ s -> wd < w' -> w <= w'
  | None => forall w', w' ∈ s -> w' <= wd
  end.
Proof.
  induction s as [|x s IH]; intros Hs; cbn [List.find].
  - inversion 1.
  - apply ascending_cons in Hs as [Hx Hs]. destruct (wd <? x) eqn:E.
    + apply Z.ltb_lt in E. split; [left|]. split; [exact E|].
      intros w' Hw' _. apply elem_of_cons in Hw' as [-> | Hw']; [lia | apply Hx, Hw'].
    + apply Z.ltb_ge in E. specialize (IH Hs).
      destruct (List.find _ s) as [w|].
      * destruct IH as (Hw & Hlt & Hmin). split; [right; exact Hw|]. split; [exact Hlt|].
        intros w' Hw' Hl. apply elem_of_cons in Hw' as [-> | Hw']; [lia | apply Hmin; assumption].
      * intros w' Hw'. apply elem_of_cons in Hw' as [-> | Hw']; [exact E | apply IH, Hw'].
Qed.

(** The weekday the search settles on, and the days it adds. *)
Lemma weekday_delta_spec wd days :
  days <> [] ->
  exists w,
    weekday_delta wd (sorted days) = Ok (weekday_gap wd w)
    /\ (smallest_above wd days w
        \/ ((forall w', w' ∈ days -> w' <= wd) /\ smallest days w)).
Proof.
  intros Hne. unfold weekday_delta, weekday_gap.
  pose proof (find_above_ascending wd (sorted days) (ascending_sorted days)) as F.
  destruct (List.find _ (sorted days)) as [w|].
  - destruct F as (Hw & Hlt & Hmin). exists w.
    replace (wd <? w) with true by (symmetry; apply Z.ltb_lt; exact Hlt).
    split; [reflexivity|]. left. split; [apply elem_of_sorted, Hw|]. split; [exact Hlt|].
    intros w' Hw'. apply Hmin, elem_of_sorted, Hw'.
  - pose proof (ascending_sorted days) as A.
    destruct (sorted days) as [|w s] eqn:Es.
    + exfalso. destruct days as [|x days]; [congruence|].
      assert (x ∈ sorted (x :: days)) as Hx by (apply elem_of_sorted; left).
      rewrite Es in Hx. inversion Hx.
    + exists w. assert (Hw : w ∈ days) by (apply elem_of_sorted; rewrite Es; left).
      replace (wd <? w) with false
        by (symmetry; apply Z.ltb_ge, F; left).
      split; [reflexivity|]. right. split.
      * intros w' Hw'. apply F. rewrite <- Es. apply elem_of_sorted, Hw'.
      * split; [exact Hw|]. intros w' Hw'.
        apply ascending_cons in A as [A _].
        assert (w' ∈ w :: s) as Hin by (rewrite <- Es; apply elem_of_sorted, Hw').
        apply elem_of_cons in Hin as [-> | Hin]; [lia | apply A, Hin].
Qed.

Lemma numbers_nil l : numbers l = Some [] -> l = [].
Proof.
  destruct l as [|v l]; [reflexivity|]. cbn [numbers].
  destruct v; try discriminate; destruct (numbers l); discriminate.
Qed.

Lemma time_of_day_eq (a b : datetime) :
  hour a = hour b -> minute a = minute b -> second a = second b ->
  microsecond a = microsecond b -> time_of_day a = time_of_day b.
Proof. unfold time_of_day. intros -> -> -> ->. reflexivity. Qed.

(** C2, as amended.  For a completed custom task whose stored
    [recurrence_extra] is a dict with a list of weekdays (0..6) and without
    an every-N-days interval, and whose due time is at least a week before
    the end of year 9999: with an empty list nothing is inserted; otherwise
    the task inserted is due on the smallest configured weekday above
    [weekday(due)], or, when there is none, on the smallest configured
    weekday of the next week ([(7 - wd) + w] days later), at the same time of
    day. *)
Theorem C2_weekday_set_recurrence
    (e : env) (t : row) (st : storage) (due : datetime)
    (members : list (string * json)) (l : list json) (days : list Z) :
  r_recurrence t = "custom" ->
  parse_iso (r_due t) = Ok (Some due) ->
  toordinal due + 7 <= MAXORDINAL ->
  loads (extra_text (r_recurrence_extra t)) = Ok (JObj members) ->
  opt_truthy (dict_get "every_x_days" members) = false ->
  dict_get "weekdays" members = Some (JArr l) ->
  numbers l = Some days ->
  Forall (fun w => 0 <= w <= 6) days ->
  (days = [] -> handle_recurrence_after_completion e t st = (Ok (), st))
  /\ (days <> [] ->
      exists w nd,
        (smallest_above (weekday due) days w
         \/ ((forall w', w' ∈ days -> w' <= weekday due) /\ smallest days w))
        /\ valid nd /\ weekday nd = w
        /\ toordinal nd = toordinal due + weekday_gap (weekday due) w
        /\ time_of_day nd = time_of_day due
        /\ handle_recurrence_after_completion e t st
           = (Ok (), add_task (uuid e) (isoformat (utcnow e))
                       (successor e t nd) st)
        /\ t_due (successor e t nd) = Some (isoformat nd)
        /\ App.parse_iso (Some (isoformat nd)) = Ok (Some nd)).
Proof.
  intros Hrec Hdue Hmax Hload Hevery Hwd Hnum Hrange.
  pose proof (parse_iso_valid _ _ Hdue) as V.
  assert (Hnext : next_due (r_recurrence t) due (r_recurrence_extra t)
                  = custom_next_due due (r_recurrence_extra t))
    by (rewrite Hrec; reflexivity).
  unfold handle_recurrence_after_completion. rewrite Hdue, Hnext.
  unfold custom_next_due. rewrite Hload.
  cbn [mbind outcome_bind obind extra_get]. rewrite Hevery, Hwd.
  split.
  - intros ->. apply numbers_nil in Hnum as ->. reflexivity.
  - intros Hne.
    assert (Htr : opt_truthy (Some (JArr l)) = true).
    { destruct l; [|reflexivity]. cbn in Hnum. congruence. }
    rewrite Htr. change (default JNull (Some (JArr l))) with (JArr l).
    cbv iota beta. rewrite Hnum.
    destruct (weekday_delta_spec (weekday due) days Hne) as (w & Ed & Hw).
    rewrite Ed. cbn [mbind outcome_bind obind].
    assert (Hwr : 0 <= w <= 6).
    { rewrite Forall_forall in Hrange. apply Hrange.
      destruct Hw as [(Hw & _) | (_ & Hw & _)]; exact Hw. }
    assert (Hwdr : 0 <= weekday due < 7) by (unfold weekday; apply Z.mod_pos_bound; lia).
    assert (Hgap : 1 <= weekday_gap (weekday due) w <= 7).
    { unfold weekday_gap. destruct (weekday due <? w) eqn:E;
        [apply Z.ltb_lt in E | apply Z.ltb_ge in E]; lia. }
    pose proof (toordinal_pos due V) as Hpos.
    destruct (add_days due (weekday_gap (weekday due) w) V ltac:(lia))
      as (nd & Ea & Vn & Eo & Hh & Hmi & Hs & Hus).
    rewrite Ea. cbn [mbind outcome_bind obind].
    exists w, nd. split; [exact Hw|]. split; [exact Vn|]. split.
    + rewrite (weekday_add_days due nd _ Eo). unfold weekday_gap.
      destruct (weekday due <? w) eqn:E;
        [apply Z.ltb_lt in E | apply Z.ltb_ge in E];
        Z.div_mod_to_equations; lia.
    + split; [exact Eo|]. split; [apply time_of_day_eq; assumption|].
      split; [reflexivity|]. split; [reflexivity|].
      apply IsoFacts.parse_iso_isoformat, Vn.
Qed.

Lemma C2_weekday_set_witness :
  exists w nd,
    weekday nd = w
    /\ handle_recurrence_after_completion (Scenario.env_at 2 "T2")
         (mkrow "T1" (Some "ann") (Some "Gym") (Some "Fitness")
            (Some "2024-01-02T09:00:00") "2024-01-01T08:00:00" 0 "custom"
            (dumps Scenario.tue_fri) 0 0)
         Scenario.store1
       = (Ok (), add_task "T2" "2024-01-02T09:30:00"
                   (successor (Scenario.env_at 2 "T2")
                      (mkrow "T1" (Some "ann") (Some "Gym") (Some "Fitness")
                         (Some "2024-01-02T09:00:00") "2024-01-01T08:00:00" 0
                         "custom" (dumps Scenario.tue_fri) 0 0) nd)
                   Scenario.store1).
Proof.
  destruct (C2_weekday_set_recurrence (Scenario.env_at 2 "T2")
              (mkrow "T1" (Some "ann") (Some "Gym") (Some "Fitness")
                 (Some "2024-01-02T09:00:00") "2024-01-01T08:00:00" 0 "custom"
                 (dumps Scenario.tue_fri) 0 0)
              Scenario.store1 (mkdt 2024 1 2 9 0 0 0)
              [("weekdays", JArr [JInt 1; JInt 4])] [JInt 1; JInt 4] [1; 4])
    as [_ H].
  - reflexivity.
  - reflexivity.
  - vm_compute. discriminate.
  - reflexivity.
  - reflexivity.
  - reflexivity.
  - reflexivity.
  - repeat constructor; lia.
  - destruct (H ltac:(discriminate)) as (w & nd & _ & _ & Hw & _ & _ & Hh & _).
    exists w, nd. split; [exact Hw | exact Hh].
Defined.

(** C2 as stated fails when the form filled both custom fields: task B1
    is due on a Wednesday and has the weekdays {Mon, Thu} configured, so the
    claim puts the next occurrence on Thursday; the every-3-days interval is
    tried first and the task inserted is due on Saturday. *)
Lemma C2_interval_takes_precedence :
  weekday (mkdt 2024 1 3 9 0 0 0) = 2
  /\ smallest_above 2 [0; 3] 3
  /\ toggle_done (Scenario.env_at 3 "B2") (Some "ann") "B1"
       (Scenario.store_of Scenario.both_modes)
     = (Ok (),
        snd (toggle_done (Scenario.env_at 3 "B2") (Some "ann") "B1"
               (Scenario.store_of Scenario.both_modes)))
  /\ List.map (fun r => (r_id r, r_due r))
       (tasks (snd (toggle_done (Scenario.env_at 3 "B2") (Some "ann") "B1"
                      (Scenario.store_of Scenario.both_modes))))
     = [("B1", Some "2024-01-03T09:00:00"); ("B2", Some "2024-01-06T09:00:00")]
  /\ weekday (mkdt 2024 1 6 9 0 0 0) = 5.
Proof.
  split; [reflexivity|]. split.
  - split; [right; left|]. split; [lia|].
    intros w' Hw' Hlt. apply elem_of_cons in Hw' as [-> | Hw']; [lia|].
    apply list_elem_of_singleton in Hw' as ->. lia.
  - repeat split; vm_compute; reflexivity.
Qed.

End WeekdaySet.

(** * The streak rule *)

Module Streak.
Import Calendar Datetime Json Storage App Spec CalendarFacts DatetimeFacts AppFacts.

(** The streak arms, read off the distance in days between the last
    completion and today. *)
Lemma streak_branch_spec (last : option datetime) (today : date) :
  (let '(y, m, d) := today in valid_date y m d) ->
  1 < date_toordinal today ->
  (forall l, last = Some l -> valid l) ->
  exists arm,
    streak_branch last today = Ok arm
    /\ (arm = Incremented <-> exists l, last = Some l /\ days_since l today = 1)
    /\ (arm = Unchanged <-> exists l, last = Some l /\ days_since l today = 0)
    /\ (arm = ResetToOne <->
        last = None
        \/ exists l, last = Some l /\ days_since l today <> 1
                     /\ days_since l today <> 0).
Proof.
  intros Vt Ht Vl. destruct today as [[y m] d]. destruct Vt as (Hy & Hm & Hd).
  unfold streak_branch, days_since, date_toordinal in *.
  destruct last as [l|].
  2:{ exists ResetToOne. split; [reflexivity|]. repeat split; try discriminate.
      - intros (l & [=] & _).
      - intros (l & [=] & _).
      - left. reflexivity. }
  specialize (Vl l eq_refl). destruct Vl as ((Hly & Hlm & Hld) & _).
  unfold date_sub_days, date_toordinal. cbn [mbind outcome_bind obind].
  replace ((0 <? ymd2ord y m d - 1) && (ymd2ord y m d - 1 <=? MAXORDINAL)) with true.
  2:{ symmetry. apply andb_true_intro.
      pose proof (toordinal_pos (mkdt y m d 0 0 0 0)) as P.
      unfold toordinal, valid, valid_date in P. cbn in P.
      split; [apply Z.ltb_lt | apply Z.leb_le]; lia. }
  cbn [obind].
  pose proof (ord2ymd_spec (ymd2ord y m d - 1) ltac:(lia)) as S.
  destruct (ord2ymd (ymd2ord y m d - 1)) as [[y' m'] d'] eqn:Ey.
  destruct S as (Eo & Hy' & Hm' & Hd' & _).
  unfold mbind, outcome_bind, obind.
  assert (Hyes : date_of l = (y', m', d') <-> ymd2ord y m d - toordinal l = 1).
  { unfold date_of, toordinal. split.
    - intros [= <- <- <-]. lia.
    - intros E. assert (ymd2ord (year l) (month l) (day l) = ymd2ord y' m' d') as Ei by lia.
      apply ymd2ord_inj in Ei; try assumption. destruct Ei as (-> & -> & ->). reflexivity. }
  assert (Htod : date_of l = (y, m, d) <-> ymd2ord y m d - toordinal l = 0).
  { unfold date_of, toordinal. split.
    - intros [= <- <- <-]. lia.
    - intros E. assert (ymd2ord (year l) (month l) (day l) = ymd2ord y m d) as Ei by lia.
      apply ymd2ord_inj in Ei; try assumption. destruct Ei as (-> & -> & ->). reflexivity. }
  destruct (decide (date_of l = (y', m', d'))) as [Dy | Dy].
  - exists Incremented. split; [reflexivity|]. apply Hyes in Dy. repeat split; try discriminate.
    + intros _. exists l. split; [reflexivity | exact Dy].
    + intros (l' & [= <-] & E). lia.
    + intros [[=] | (l' & [= <-] & E & _)]. lia.
  - destruct (decide (date_of l = (y, m, d))) as [Dt | Dt].
    + exists Unchanged. split; [reflexivity|]. apply Htod in Dt. repeat split; try discriminate.
      * intros (l' & [= <-] & E). lia.
      * intros _. exists l. split; [reflexivity | exact Dt].
      * intros [[=] | (l' & [= <-] & _ & E)]. lia.
    + exists ResetToOne. split; [reflexivity|]. repeat split; try discriminate.
      * intros (l' & [= <-] & E). exfalso. apply Dy, Hyes, E.
      * intros (l' & [= <-] & E). exfalso. apply Dt, Htod, E.
      * intros _. right. exists l. split; [reflexivity|]. split; intros E.
        -- apply Dy, Hyes, E.
        -- apply Dt, Htod, E.
Qed.



(** The rule compares the stored [last_completed], which is written from
    the UTC clock, with the local date.  On a machine ahead of UTC, two
    completions on the same local day shortly after midnight are stored under
    the previous UTC date, and the second one takes the [Incremented] arm. *)
Remark streak_dates_differ_by_clock :
  let first := toggle_done (Scenario.env_ahead_of_utc 0) (Some "ann") "A1"
                 Scenario.two_tasks in
  let second := toggle_done (Scenario.env_ahead_of_utc 30) (Some "ann") "A2"
                  (snd first) in
  (u_streak <$> get_user "ann" (snd first) = Some (Some 1)
   /\ u_last_completed <$> get_user "ann" (snd first)
      = Some (Some "2024-01-04T22:00:00"))
  /\ u_streak <$> get_user "ann" (snd second) = Some (Some 2).
Proof. repeat split; vm_compute; reflexivity. Qed.

End Streak.

(** * The due window *)

Module WindowFacts.
Import Calendar Datetime Spec CalendarFacts DatetimeFacts.

Lemma month_end_before y m m' :
  1 <= m -> m < m' -> m' <= 12 ->
  days_before_month y m + days_in_month y m <= days_before_month y m'.
Proof.
  intros H1 H2 H3. unfold days_before_month, days_in_month.
  assert (m = 1 \/ m = 2 \/ m = 3 \/ m = 4 \/ m = 5 \/ m = 6 \/ m = 7 \/ m = 8
          \/ m = 9 \/ m = 10 \/ m = 11) as Hc by lia.
  assert (m' = 2 \/ m' = 3 \/ m' = 4 \/ m' = 5 \/ m' = 6 \/ m' = 7
          \/ m' = 8 \/ m' = 9 \/ m' = 10 \/ m' = 11 \/ m' = 12) as Hc' by lia.
  destruct (is_leap y);
    repeat (destruct Hc as [-> | Hc]); try subst m;
    repeat (destruct Hc' as [-> | Hc']); try subst m'; simpl; lia.
Qed.

(** Dates in calendar order have increasing ordinals. *)
Lemma ymd2ord_lex_lt y m d y' m' d' :
  1 <= m <= 12 -> 1 <= d <= days_in_month y m ->
  1 <= m' <= 12 -> 1 <= d' <= days_in_month y' m' ->
  y < y' \/ (y = y' /\ (m < m' \/ (m = m' /\ d < d'))) ->
  ymd2ord y m d < ymd2ord y' m' d'.
Proof.
  intros Hm Hd Hm' Hd' L. unfold ymd2ord.
  pose proof (yday_bounds y m d Hm Hd). pose proof (yday_bounds y' m' d' Hm' Hd').
  destruct L as [L | (<- & [L | (<- & L)])].
  - pose proof (dby_succ y). pose proof (dby_mono (y + 1) y' ltac:(lia)). lia.
  - pose proof (month_end_before y m m' ltac:(lia) L ltac:(lia)). lia.
  - lia.
Qed.

Lemma leb_unfold a b :
  leb a b
  = ((year a <? year b) || ((year a =? year b) &&
     ((month a <? month b) || ((month a =? month b) &&
      ((day a <? day b) || ((day a =? day b) &&
       ((hour a <? hour b) || ((hour a =? hour b) &&
        ((minute a <? minute b) || ((minute a =? minute b) &&
         ((second a <? second b) || ((second a =? second b) &&
          ((microsecond a <? microsecond b)
           || ((microsecond a =? microsecond b) && true)))))))))))))).
Proof. reflexivity. Qed.

(** The order of naive datetimes is the order of their positions on the
    time line. *)
Lemma leb_to_micro a b :
  valid a -> valid b -> (leb a b = true <-> to_micro a <= to_micro b).
Proof.
  intros ((Hy & Hm & Hd) & Hh & Hmi & Hs & Hus)
         ((Hy' & Hm' & Hd') & Hh' & Hmi' & Hs' & Hus').
  rewrite leb_unfold. unfold to_micro, time_of_day, toordinal, US_PER_DAY.
  pose proof (ymd2ord_lex_lt (year a) (month a) (day a) (year b) (month b) (day b)
                Hm Hd Hm' Hd') as L1.
  pose proof (ymd2ord_lex_lt (year b) (month b) (day b) (year a) (month a) (day a)
                Hm' Hd' Hm Hd) as L2.
  set (oa := ymd2ord (year a) (month a) (day a)) in *.
  set (ob := ymd2ord (year b) (month b) (day b)) in *.
  assert (Eq : year a = year b -> month a = month b -> day a = day b -> oa = ob)
    by (subst oa ob; intros -> -> ->; reflexivity).
  clearbody oa ob.
  destruct (Z.ltb_spec (year a) (year b)); destruct (Z.eqb_spec (year a) (year b));
  destruct (Z.ltb_spec (month a) (month b)); destruct (Z.eqb_spec (month a) (month b));
  destruct (Z.ltb_spec (day a) (day b)); destruct (Z.eqb_spec (day a) (day b));
  cbn [orb andb];
  try (split; [intros _; assert (oa < ob) by (apply L1; lia); lia | reflexivity]);
  try (split; [discriminate | intros Hle; exfalso;
                              assert (ob < oa) by (apply L2; lia); lia]);
  try lia.
Qed.

(** [datetime.__add__] moves the position on the time line by the
    timedelta. *)
Lemma add_to_micro d k d' :
  valid d -> add d k = Ok d' -> valid d' /\ to_micro d' = to_micro d + k.
Proof.
  intros V. unfold add. cbv zeta.
  set (total := to_micro d + k).
  destruct ((0 <? total / US_PER_DAY) && (total / US_PER_DAY <=? MAXORDINAL)) eqn:R;
    [|discriminate].
  apply andb_prop in R as [R1 R2]. apply Z.ltb_lt in R1. apply Z.leb_le in R2.
  pose proof (ord2ymd_spec (total / US_PER_DAY) ltac:(lia)) as S.
  destruct (ord2ymd (total / US_PER_DAY)) as [[y m] dd].
  destruct S as (E & Hy & Hm & Hd & Hmax). specialize (Hmax R2).
  intros [= <-]. unfold valid, valid_date, to_micro, toordinal, time_of_day.
  cbn [year month day hour minute second microsecond]. rewrite E.
  unfold US_PER_DAY in *. clearbody total. clear E.
  split.
  - repeat split; try assumption; Z.div_mod_to_equations; lia.
  - Z.div_mod_to_equations. lia.
Qed.

Lemma add_minutes_ok now k :
  clock_ok now -> -1 <= k <= 0 -> exists d, add now (td_minutes k) = Ok d.
Proof.
  intros (V & Ho) Hk. pose proof V as (_ & Hh & Hmi & Hs & Hus).
  pose proof (toordinal_pos now V) as Hp.
  unfold add, to_micro, td_minutes, time_of_day, US_PER_DAY.
  set (total := _ + k * 60 * 1000000). cbv zeta.
  assert (Hd : 0 < total / (86400 * 1000000) <= MAXORDINAL).
  { subst total. unfold MAXORDINAL in *. Z.div_mod_to_equations. lia. }
  replace ((0 <? total / (86400 * 1000000)) && (total / (86400 * 1000000) <=? MAXORDINAL))
    with true
    by (symmetry; apply andb_true_intro; split; [apply Z.ltb_lt | apply Z.leb_le]; lia).
  destruct (ord2ymd _) as [[y m] d]. eexists. reflexivity.
Qed.

Lemma in_window_ok now d :
  clock_ok now -> App.in_window now d = Ok (in_due_window now d).
Proof.
  intros C. unfold in_due_window, App.in_window.
  destruct (add_minutes_ok now (-1) C ltac:(lia)) as (ws & ->).
  destruct (add_minutes_ok now 0 C ltac:(lia)) as (we & ->).
  reflexivity.
Qed.

(** The window test of a pass, on the time line: the due time is at most
    one minute before [now] and not after it. *)
Lemma in_due_window_spec now d :
  clock_ok now -> valid d ->
  (in_due_window now d = true
   <-> to_micro now - 60 * 1000000 <= to_micro d <= to_micro now).
Proof.
  intros C V. pose proof C as (Vn & _).
  unfold in_due_window, App.in_window.
  destruct (add_minutes_ok now (-1) C ltac:(lia)) as (ws & Es).
  destruct (add_minutes_ok now 0 C ltac:(lia)) as (we & Ee).
  rewrite Es, Ee. cbn [mbind outcome_bind obind].
  apply (add_to_micro now _ ws Vn) in Es as (Vs & Ms).
  apply (add_to_micro now _ we Vn) in Ee as (Ve & Me).
  rewrite andb_true_iff, (leb_to_micro ws d Vs V), (leb_to_micro d we V Ve).
  unfold td_minutes in *. lia.
Qed.

End WindowFacts.

(** * The notifier of [task.py] *)

Module LegacyNotifier.
Import Calendar Datetime Legacy Spec.

Lemma legacy_parse_never_raises s x : parse_iso s <> Raise x.
Proof.
  unfold parse_iso. destruct (Text.nonempty s); [|discriminate].
  destruct (fromisoformat _); discriminate.
Qed.













End LegacyNotifier.

(** * The notifier *)

Module Notifier.
Import Calendar Datetime Json Storage App Spec CalendarFacts DatetimeFacts AppFacts
  WindowFacts.

Lemma parse_iso_never_raises s x : App.parse_iso s <> Raise x.
Proof.
  unfold App.parse_iso. destruct s as [s|]; [|discriminate].
  destruct (fromisoformat s); discriminate.
Qed.

(** One row of the snapshot. *)
Lemma notify_row_spec now t st :
  clock_ok now -> row_in_model t ->
  notify_row now t st
  = Ok (if fires now t
        then (Some t, update_task (r_id t) [SetNotified 1] st)
        else (None, st)).
Proof.
  intros C M. unfold notify_row, fires.
  destruct (r_done t =? 0); [|reflexivity].
  destruct (r_notified t =? 0); [|reflexivity]. cbn [negb andb].
  unfold row_in_model in M.
  destruct (App.parse_iso (r_due t)) as [[d|]|x|] eqn:E.
  - cbn [mbind outcome_bind obind]. rewrite (in_window_ok now d C).
    cbn [obind]. destruct (in_due_window now d); reflexivity.
  - reflexivity.
  - exfalso. exact (parse_iso_never_raises _ _ E).
  - congruence.
Qed.

Lemma notify_rows_spec now snapshot : forall events st,
  clock_ok now -> Forall row_in_model snapshot ->
  notify_rows now snapshot events st
  = (Ok (), (events ++ List.filter (fires now) snapshot,
             mark_all now snapshot st)).
Proof.
  induction snapshot as [|t snapshot IH]; intros events st C M.
  - cbn. rewrite app_nil_r. reflexivity.
  - apply Forall_cons in M as [Mt M].
    cbn [notify_rows]. rewrite (notify_row_spec now t st C Mt).
    unfold mark_all. cbn [List.filter fold_left].
    destruct (fires now t).
    + rewrite IH by assumption. rewrite <- app_assoc. reflexivity.
    + rewrite IH by assumption. reflexivity.
Qed.

Lemma marked_id x : r_id (marked x) = r_id x.
Proof. reflexivity. Qed.

Lemma after_pass_id fired x : r_id (after_pass fired x) = r_id x.
Proof. unfold after_pass. destruct (bool_decide _); reflexivity. Qed.

Lemma after_pass_user fired x : r_user (after_pass fired x) = r_user x.
Proof. unfold after_pass. destruct (bool_decide _); reflexivity. Qed.

Lemma after_pass_due fired x : r_due (after_pass fired x) = r_due x.
Proof. unfold after_pass. destruct (bool_decide _); reflexivity. Qed.

Lemma tasks_mark_all now snapshot : forall st,
  tasks (mark_all now snapshot st)
  = List.map (after_pass (List.map r_id (List.filter (fires now) snapshot)))
      (tasks st).
Proof.
  unfold mark_all. induction snapshot as [|t snapshot IH]; intros st.
  - cbn. unfold after_pass. symmetry. erewrite map_ext; [apply map_id|].
    intros x. cbn. rewrite bool_decide_eq_false_2; [reflexivity | inversion 1].
  - cbn [fold_left List.filter]. destruct (fires now t); [|apply IH].
    rewrite IH. unfold update_task. cbn [tasks List.map fold_left].
    rewrite map_map. apply map_ext. intros x.
    unfold after_pass. destruct (String.eqb (r_id x) (r_id t)) eqn:E.
    + apply String.eqb_eq in E. cbn [fold_left]. fold (marked x).
      rewrite marked_id, E.
      rewrite (bool_decide_eq_true_2 (r_id t ∈ r_id t :: _)) by left.
      destruct (bool_decide _); reflexivity.
    + apply String.eqb_neq in E.
      destruct (bool_decide (r_id x ∈ List.map r_id (List.filter (fires now) snapshot))) eqn:B.
      * apply bool_decide_eq_true in B.
        rewrite bool_decide_eq_true_2 by (right; exact B). reflexivity.
      * apply bool_decide_eq_false in B. rewrite bool_decide_eq_false_2; [reflexivity|].
        intros H. apply elem_of_cons in H as [H | H]; [exact (E H) | exact (B H)].
Qed.

Lemma users_mark_all now snapshot : forall st,
  users (mark_all now snapshot st) = users st.
Proof.
  unfold mark_all. induction snapshot as [|t snapshot IH]; intros st; [reflexivity|].
  cbn [fold_left]. destruct (fires now t); rewrite IH; reflexivity.
Qed.

Lemma list_tasks_sub u st x : x ∈ list_tasks u st -> x ∈ tasks st.
Proof.
  unfold list_tasks. destruct (Text.nonempty u); [|trivial].
  intros H. apply list_elem_of_In, filter_In in H as [H _]. apply list_elem_of_In, H.
Qed.

Lemma list_tasks_map u f ts us :
  (forall x, r_user (f x) = r_user x) ->
  list_tasks u (mkstorage (List.map f ts) us)
  = List.map f (list_tasks u (mkstorage ts us)).
Proof.
  intros Hf. unfold list_tasks. cbn [tasks]. destruct (Text.nonempty u); [|reflexivity].
  induction ts as [|x ts IH]; [reflexivity|]. cbn [List.map List.filter].
  rewrite Hf. destruct (match r_user x with Some _ => _ | None => _ end).
  - cbn [List.map]. rewrite IH. reflexivity.
  - exact IH.
Qed.

Lemma NoDup_filter_ids (p : row -> bool) l :
  NoDup (List.map r_id l) -> NoDup (List.map r_id (List.filter p l)).
Proof.
  induction l as [|x l IH]; intros H; [constructor|].
  rewrite map_cons in H. apply NoDup_cons in H as [Hx H]. cbn [List.filter].
  destruct (p x); [|apply IH, H]. rewrite map_cons. apply NoDup_cons. split; [|apply IH, H].
  intros Hin. apply Hx. apply list_elem_of_fmap in Hin as (y & -> & Hy).
  apply list_elem_of_In, filter_In in Hy as [Hy _].
  apply list_elem_of_fmap. exists y. split; [reflexivity | apply list_elem_of_In, Hy].
Qed.

(** In a list keyed by id, the rows with the id of [r] are [r] alone. *)
Lemma filter_by_id l r :
  NoDup (List.map r_id l) -> r ∈ l ->
  List.filter (fun x => String.eqb (r_id x) (r_id r)) l = [r].
Proof.
  induction l as [|x l IH]; intros Hnd Hin; [inversion Hin|].
  rewrite map_cons in Hnd. apply NoDup_cons in Hnd as [Hx Hnd]. cbn [List.filter].
  assert (Hnone : forall y, y ∈ l -> r_id y <> r_id x).
  { intros y Hy E. apply Hx. rewrite <- E. apply list_elem_of_fmap. eauto. }
  apply elem_of_cons in Hin as [-> | Hin].
  - rewrite String.eqb_refl. f_equal.
    clear IH Hx Hnd. induction l as [|y l IHl]; [reflexivity|]. cbn [List.filter].
    replace (String.eqb (r_id y) (r_id x)) with false
      by (symmetry; apply String.eqb_neq, Hnone; left).
    apply IHl. intros z Hz. apply Hnone. right. exact Hz.
  - replace (String.eqb (r_id x) (r_id r)) with false.
    + apply IH; assumption.
    + symmetry. apply String.eqb_neq. intros E. apply (Hnone r Hin). congruence.
Qed.

Lemma filter_comm {A} (p q : A -> bool) l :
  List.filter p (List.filter q l) = List.filter q (List.filter p l).
Proof.
  induction l as [|x l IH]; [reflexivity|]. cbn [List.filter].
  destruct (q x) eqn:Q, (p x) eqn:P; cbn [List.filter]; rewrite ?Q, ?P, IH; reflexivity.
Qed.

(** One pass, seen from a row of the snapshot. *)
Lemma notifier_pass_spec now u st r :
  clock_ok now -> steady st -> r ∈ list_tasks u st ->
  exists events st',
    notifier_pass now u st = (Ok (), (events, st'))
    /\ occurrences (r_id r) events = (if fires now r then 1 else 0)%nat
    /\ steady st'
    /\ (if fires now r then marked r else r) ∈ list_tasks u st'.
Proof.
  intros C (Hnd & Hm) Hr. unfold notifier_pass.
  set (snapshot := list_tasks u st).
  assert (Hsub : forall x, x ∈ snapshot -> x ∈ tasks st) by (apply list_tasks_sub).
  assert (Hms : Forall row_in_model snapshot).
  { rewrite Forall_forall in Hm |- *. intros x Hx. apply Hm, Hsub, Hx. }
  assert (Hnds : NoDup (List.map r_id snapshot)).
  { subst snapshot. unfold list_tasks. destruct (Text.nonempty u); [|exact Hnd].
    apply NoDup_filter_ids, Hnd. }
  rewrite notify_rows_spec by assumption. cbn [app].
  eexists _, _. split; [reflexivity|].
  set (fired := List.map r_id (List.filter (fires now) snapshot)).
  assert (Hfired : r_id r ∈ fired <-> fires now r = true).
  { subst fired. rewrite list_elem_of_fmap. split.
    - intros (y & Ey & Hy). apply list_elem_of_In, filter_In in Hy as [Hy Hf].
      apply list_elem_of_In in Hy.
      pose proof (filter_by_id snapshot r Hnds Hr) as F.
      assert (y ∈ List.filter (fun x => String.eqb (r_id x) (r_id r)) snapshot) as Hin.
      { apply list_elem_of_In, filter_In. split; [apply list_elem_of_In, Hy|].
        apply String.eqb_eq. congruence. }
      rewrite F in Hin. apply list_elem_of_singleton in Hin as ->. exact Hf.
    - intros Hf. exists r. split; [reflexivity|].
      apply list_elem_of_In, filter_In. split; [apply list_elem_of_In, Hr | exact Hf]. }
  split; [|split; [split|]].
  - unfold occurrences. rewrite filter_comm, (filter_by_id snapshot r Hnds Hr).
    cbn [List.filter]. destruct (fires now r); reflexivity.
  - rewrite tasks_mark_all, map_map. fold fired.
    erewrite map_ext; [exact Hnd|]. intros x. apply after_pass_id.
  - rewrite tasks_mark_all. fold fired. rewrite Forall_forall in Hm |- *.
    intros x Hx. apply list_elem_of_fmap in Hx as (y & -> & Hy).
    unfold row_in_model. rewrite after_pass_due. apply Hm, Hy.
  - assert (E : mark_all now snapshot st
                = mkstorage (List.map (after_pass fired) (tasks st)) (users st)).
    { pose proof (tasks_mark_all now snapshot st) as T.
      pose proof (users_mark_all now snapshot st) as U.
      destruct (mark_all now snapshot st). cbn in T, U. subst. reflexivity. }
    rewrite E, list_tasks_map by (apply after_pass_user).
    replace (mkstorage (tasks st) (users st)) with st by (destruct st; reflexivity).
    assert (after_pass fired r = (if fires now r then marked r else r)) as <-.
    { unfold after_pass. destruct (fires now r).
      - rewrite bool_decide_eq_true_2 by (apply Hfired; reflexivity). reflexivity.
      - rewrite bool_decide_eq_false_2; [reflexivity|].
        intros H. apply Hfired in H. discriminate. }
    apply list_elem_of_fmap. exists r. split; [reflexivity | exact Hr].
Qed.










End Notifier.

(** * The store: lookup after a write *)

Module StoreFacts.
Import Json Storage.

Lemma find_app_l {A} (p : A -> bool) l l' x :
  List.find p l = Some x -> List.find p (l ++ l') = Some x.
Proof.
  induction l as [|a l IH]; cbn; [discriminate|].
  destruct (p a); auto.
Qed.

Lemma find_app_r {A} (p : A -> bool) l l' :
  List.find p l = None -> List.find p (l ++ l') = List.find p l'.
Proof.
  induction l as [|a l IH]; cbn; [reflexivity|].
  destruct (p a); [discriminate|auto].
Qed.

Lemma find_filter_none {A} (p q : A -> bool) l :
  (forall y, p y = true -> q y = false) -> List.find p (List.filter q l) = None.
Proof.
  intros H. induction l as [|a l IH]; cbn; [reflexivity|].
  destruct (q a) eqn:Q; [|exact IH]. cbn.
  destruct (p a) eqn:P; [|exact IH]. apply H in P. congruence.
Qed.

Lemma find_filter_same {A} (p q : A -> bool) l :
  (forall y, p y = true -> q y = true) ->
  List.find p (List.filter q l) = List.find p l.
Proof.
  intros H. induction l as [|a l IH]; cbn; [reflexivity|].
  destruct (p a) eqn:P.
  - rewrite (H _ P). cbn. rewrite P. reflexivity.
  - destruct (q a); cbn; [rewrite P|]; exact IH.
Qed.

Lemma r_id_fold_assign fields : forall r, r_id (fold_left assign fields r) = r_id r.
Proof.
  induction fields as [|a fields IH]; intros r; cbn; [reflexivity|].
  rewrite IH. destruct a; reflexivity.
Qed.

Lemma ids_update_task id_ fields st :
  List.map r_id (tasks (update_task id_ fields st)) = List.map r_id (tasks st).
Proof.
  cbn [update_task tasks]. rewrite List.map_map. apply List.map_ext.
  intros r. destruct (String.eqb _ _); [apply r_id_fold_assign|reflexivity].
Qed.

Lemma get_task_add_task_same uuid now t st :
  get_task (r_id (row_of_task uuid now t)) (add_task uuid now t st)
  = Some (row_of_task uuid now t).
Proof.
  unfold get_task, add_task, insert_or_replace. cbn [tasks].
  rewrite find_app_r.
  - cbn. rewrite String.eqb_refl. reflexivity.
  - apply find_filter_none. intros y ->. reflexivity.
Qed.

Lemma get_task_add_task_other j uuid now t st :
  j <> r_id (row_of_task uuid now t) ->
  get_task j (add_task uuid now t st) = get_task j st.
Proof.
  intros Hj. unfold get_task, add_task, insert_or_replace. cbn [tasks].
  set (r := row_of_task uuid now t) in *. clearbody r.
  destruct (List.find (fun r => String.eqb (r_id r) j) (tasks st)) as [x|] eqn:F.
  - apply find_app_l. rewrite find_filter_same; [exact F|].
    intros y Hy. apply String.eqb_eq in Hy. subst j.
    apply negb_true_iff, String.eqb_neq. exact Hj.
  - rewrite find_app_r.
    + cbn [List.find]. destruct (String.eqb (r_id r) j) eqn:E; [|reflexivity].
      apply String.eqb_eq in E. congruence.
    + rewrite find_filter_same; [exact F|].
      intros y Hy. apply String.eqb_eq in Hy. subst j.
      apply negb_true_iff, String.eqb_neq. exact Hj.
Qed.

Lemma get_task_update_task_same id_ fields st :
  get_task id_ (update_task id_ fields st)
  = fold_left assign fields <$> get_task id_ st.
Proof.
  unfold get_task, update_task. cbn [tasks].
  induction (tasks st) as [|a l IH]; cbn; [reflexivity|].
  destruct (String.eqb (r_id a) id_) eqn:E.
  - rewrite r_id_fold_assign, E. reflexivity.
  - rewrite E. exact IH.
Qed.

Lemma NoDup_ids_filter (p : row -> bool) l :
  NoDup (List.map r_id l) -> NoDup (List.map r_id (List.filter p l)).
Proof.
  induction l as [|a l IH]; cbn; [auto|].
  intros H. apply NoDup_cons in H as [Hn Hd].
  destruct (p a); cbn; [|auto].
  apply NoDup_cons. split; [|auto].
  intros Hin. apply Hn.
  apply list_elem_of_In, in_map_iff in Hin as (x & Ex & Hx).
  apply list_elem_of_In, in_map_iff. exists x. split; [exact Ex|].
  apply filter_In in Hx. tauto.
Qed.

Lemma NoDup_ids_add_task uuid now t st :
  NoDup (List.map r_id (tasks st)) ->
  NoDup (List.map r_id (tasks (add_task uuid now t st))).
Proof.
  intros H. unfold add_task, insert_or_replace. cbn [tasks].
  set (r := row_of_task uuid now t) in *. clearbody r.
  rewrite List.map_app. apply NoDup_app. split; [|split].
  - apply NoDup_ids_filter, H.
  - intros i Hi Hi'. cbn in Hi'. apply list_elem_of_singleton in Hi'. subst i.
    apply list_elem_of_In, in_map_iff in Hi as (x & Ex & Hx).
    apply filter_In in Hx as [_ Hx].
    apply negb_true_iff, String.eqb_neq in Hx. congruence.
  - cbn. apply NoDup_singleton.
Qed.

Lemma ids_add_task_fresh uuid now t st :
  r_id (row_of_task uuid now t) ∉ List.map r_id (tasks st) ->
  tasks (add_task uuid now t st) = tasks st ++ [row_of_task uuid now t].
Proof.
  intros H. unfold add_task, insert_or_replace. cbn [tasks].
  set (r := row_of_task uuid now t) in *. clearbody r. f_equal.
  induction (tasks st) as [|a l IH]; cbn; [reflexivity|].
  cbn in H. apply not_elem_of_cons in H as [H1 H2].
  destruct (String.eqb (r_id a) _) eqn:E.
  - apply String.eqb_eq in E. congruence.
  - cbn. f_equal. auto.
Qed.

(** X1.  [Storage.add_task] followed by [Storage.get_task]: the row just
    written is the one found under its id, whatever row had that id before;
    every other id still finds what it found before, and the profiles are
    untouched. *)
Theorem add_task_then_get_task (uuid now : string) (t : task) (st : storage) :
  get_task (r_id (row_of_task uuid now t)) (add_task uuid now t st)
  = Some (row_of_task uuid now t)
  /\ (forall j, j <> r_id (row_of_task uuid now t) ->
                get_task j (add_task uuid now t st) = get_task j st)
  /\ users (add_task uuid now t st) = users st.
Proof.
  split; [apply get_task_add_task_same|].
  split; [intros j; apply get_task_add_task_other|reflexivity].
Qed.

(** X2.  [Storage.add_task] on a table whose ids are distinct: the ids
    stay distinct; a task whose id is new goes to the end of the table and
    changes no other row, and a task whose id exists replaces that row, so
    the number of rows does not grow. *)
Theorem add_task_keeps_ids_unique (uuid now : string) (t : task) (st : storage) :
  NoDup (List.map r_id (tasks st)) ->
  NoDup (List.map r_id (tasks (add_task uuid now t st)))
  /\ (r_id (row_of_task uuid now t) ∉ List.map r_id (tasks st) ->
      tasks (add_task uuid now t st) = tasks st ++ [row_of_task uuid now t])
  /\ (r_id (row_of_task uuid now t) ∈ List.map r_id (tasks st) ->
      List.length (tasks (add_task uuid now t st)) = List.length (tasks st)).
Proof.
  intros H. split; [apply NoDup_ids_add_task, H|].
  split; [apply ids_add_task_fresh|].
  intros Hin. unfold add_task, insert_or_replace. cbn [tasks].
  rewrite List.length_app. cbn [List.length].
  set (i := r_id (row_of_task uuid now t)) in *. clearbody i.
  induction (tasks st) as [|a l IH]; cbn in *.
  - apply elem_of_nil in Hin. contradiction.
  - apply NoDup_cons in H as [Hn Hd].
    destruct (String.eqb (r_id a) i) eqn:E; cbn.
    + apply String.eqb_eq in E. subst i.
      assert (F : List.filter (fun r' => negb (String.eqb (r_id r') (r_id a))) l = l).
      { clear -Hn. induction l as [|b l IH]; cbn; [reflexivity|].
        cbn in Hn. apply not_elem_of_cons in Hn as [H1 H2].
        destruct (String.eqb (r_id b) (r_id a)) eqn:E.
        - apply String.eqb_eq in E. congruence.
        - cbn. f_equal. auto. }
      rewrite F. lia.
    + apply String.eqb_neq in E. apply elem_of_cons in Hin as [Hin|Hin].
      * congruence.
      * specialize (IH Hd Hin). lia.
Qed.

Lemma add_task_keeps_ids_unique_witness :
  tasks (add_task "unused" "unused" Scenario.S1 Scenario.store1)
  = tasks Scenario.store1 ++ [row_of_task "unused" "unused" Scenario.S1].
Proof.
  assert (I : List.map r_id (tasks Scenario.store1) = ["T1"%string])
    by (vm_compute; reflexivity).
  assert (H : NoDup (List.map r_id (tasks Scenario.store1)))
    by (rewrite I; apply NoDup_singleton).
  apply (proj1 (proj2 (add_task_keeps_ids_unique "unused" "unused" Scenario.S1
                         Scenario.store1 H))).
  rewrite I. intros Hin. apply list_elem_of_singleton in Hin. discriminate Hin.
Defined.

(** X3.  [Storage.add_user] is INSERT OR REPLACE: afterwards the name
    finds a profile with the given hash, zero coins, zero streak and no last
    completion, also when the name had a profile with coins before; other
    profiles and all task rows are untouched. *)
Theorem add_user_resets_profile (username password_hash : string) (st : storage) :
  get_user username (add_user username password_hash st)
  = Some (mkuser username password_hash (Some 0) (Some 0) None)
  /\ (forall v, v <> username ->
                get_user v (add_user username password_hash st) = get_user v st)
  /\ tasks (add_user username password_hash st) = tasks st.
Proof.
  split; [|split; [|reflexivity]].
  - unfold get_user, add_user. cbn [users].
    rewrite find_app_r.
    + cbn. rewrite String.eqb_refl. reflexivity.
    + apply find_filter_none. intros y ->. reflexivity.
  - intros v Hv. unfold get_user, add_user. cbn [users].
    assert (F : List.find (fun u => String.eqb (u_username u) v)
                  (List.filter (fun u => negb (String.eqb (u_username u) username))
                     (users st))
                = List.find (fun u => String.eqb (u_username u) v) (users st)).
    { apply find_filter_same. intros y Hy. apply String.eqb_eq in Hy. subst v.
      apply negb_true_iff, String.eqb_neq. exact Hv. }
    destruct (List.find _ (users st)) as [x|] eqn:E.
    + apply find_app_l. exact F.
    + rewrite find_app_r; [|exact F]. cbn.
      destruct (String.eqb username v) eqn:E'; [|reflexivity].
      apply String.eqb_eq in E'. congruence.
Qed.

End StoreFacts.

(** * Completion rewards *)

Module RewardFacts.
Import Calendar Datetime Json Storage App Spec.

Lemma award_xp_range t xp :
  award_xp_for_task t = Ok xp -> 10 <= xp <= 45 /\ 2 <= xp / 5 <= 9.
Proof.
  unfold award_xp_for_task. destruct (r_title t) as [title|]; [|discriminate].
  intros [= <-].
  assert (0 <= Text.len title) by (unfold Text.len; lia).
  destruct (Text.contains "work" _), (Text.contains "urgent" _ || Text.contains "important" _);
    split; Z.div_mod_to_equations; lia.
Qed.

Lemma get_user_ext name st st' :
  users st' = users st -> get_user name st' = get_user name st.
Proof. unfold get_user. intros ->. reflexivity. Qed.

Lemma get_task_ext i st st' :
  tasks st' = tasks st -> get_task i st' = get_task i st.
Proof. unfold get_task. intros ->. reflexivity. Qed.

Lemma get_user_update_user_other name u coins streak lc st :
  name <> u -> get_user name (update_user u coins streak lc st) = get_user name st.
Proof.
  intros Hn. unfold get_user, update_user. cbn [users].
  induction (users st) as [|a l IH]; cbn; [reflexivity|].
  destruct (String.eqb (u_username a) u) eqn:E; cbn [u_username].
  - apply String.eqb_eq in E.
    destruct (String.eqb (u_username a) name) eqn:E'.
    + apply String.eqb_eq in E'. congruence.
    + exact IH.
  - destruct (String.eqb (u_username a) name); [reflexivity|exact IH].
Qed.

Lemma successor_id e now t nd :
  r_id (row_of_task (uuid e) now (successor e t nd)) = uuid e.
Proof.
  unfold row_of_task, successor, str_or. cbn [r_id t_id].
  destruct (String.eqb (uuid e) ""); reflexivity.
Qed.

Lemma get_task_handle_recurrence e t st j :
  j <> uuid e ->
  get_task j (snd (handle_recurrence_after_completion e t st)) = get_task j st.
Proof.
  intros Hj. unfold handle_recurrence_after_completion.
  destruct (App.parse_iso (r_due t)) as [[due|]| |]; try reflexivity.
  destruct (next_due _ _ _) as [[nd|]| |]; try reflexivity.
  cbn [snd]. apply StoreFacts.get_task_add_task_other.
  rewrite successor_id. exact Hj.
Qed.

(** The store a completion leaves is the store after the reward step,
    up to the successor row that the recurrence step may add. *)
Lemma after_reward e t c (rw : run unit) :
  let result :=
    match rw with
    | (Ok _, st) =>
        if (c : bool) then handle_recurrence_after_completion e t st
        else (Ok (), st)
    | failed => failed
    end in
  users (snd result) = users (snd rw)
  /\ forall j, j <> uuid e -> get_task j (snd result) = get_task j (snd rw).
Proof.
  destruct rw as [[[]| |] st]; cbn [snd]; try (split; reflexivity).
  destruct c; [|split; reflexivity].
  split; [apply AppFacts.users_handle_recurrence|].
  intros j. apply get_task_handle_recurrence.
Qed.

(** X4.  [award_xp_for_task]: a task with a title earns between 10 and
    45 XP, which is between 2 and 9 coins; the only failure is the
    [TypeError] of [len(None)] on a row whose title is NULL. *)
Theorem award_xp_bounds (t : row) :
  match award_xp_for_task t with
  | Ok xp => is_Some (r_title t) /\ 10 <= xp <= 45 /\ 2 <= xp / 5 <= 9
  | Raise x => x = TypeError /\ r_title t = None
  | OutOfModel => False
  end.
Proof.
  destruct (award_xp_for_task t) as [xp|x|] eqn:E.
  - split; [|exact (award_xp_range _ _ E)].
    unfold award_xp_for_task in E. destruct (r_title t); [eauto|discriminate].
  - unfold award_xp_for_task in E. destruct (r_title t); [discriminate|].
    injection E as <-. auto.
  - unfold award_xp_for_task in E. destruct (r_title t); discriminate.
Qed.

(** X5.  [_toggle_done] on a pending task, run by a user with a
    profile: the profile gains [floor(xp / 5)] coins, at least 2, and its
    [last_completed] becomes the UTC clock reading; the task row gets
    [done = 1] and the XP in its [xp] column. *)
Theorem completion_pays_coins
    (e : env) (u id_ : string) (st : storage) (t : row) (user : user_row)
    (last : option datetime) (xp : Z) :
  get_task id_ st = Some t -> r_done t = 0 -> award_xp_for_task t = Ok xp ->
  get_user u st = Some user -> last_of user = Ok last ->
  (let '(y, m, d) := today e in valid_date y m d) ->
  1 < date_toordinal (today e) ->
  let st' := snd (toggle_done e (Some u) id_ st) in
  (u_coins <$> get_user u st' = Some (Some (default 0 (u_coins user) + xp / 5))
   /\ default 0 (u_coins user) + 2 <= default 0 (u_coins user) + xp / 5
   /\ u_last_completed <$> get_user u st' = Some (Some (isoformat (utcnow e))))
  /\ (id_ <> uuid e ->
      get_task id_ st' = Some (assign (assign t (SetDone 1)) (SetXp xp))).
Proof.
  intros Ht Hd Hxp Hu Hl Vt Ho st'.
  destruct (Streak.streak_branch_spec last (today e) Vt Ho) as (arm & Ea & _).
  { intros l ->. eapply AppFacts.last_of_valid, Hl. }
  pose proof (award_xp_range _ _ Hxp) as [_ Hc].
  subst st'. unfold toggle_done. rewrite Ht, Hd, Hxp. cbn [Z.eqb].
  cbn [mbind option_bind]. rewrite AppFacts.get_user_update_task, Hu.
  rewrite Hl, Ea. change (default EmptyString (Some u)) with u.
  set (st2 := update_task id_ [SetXp xp] _).
  set (c := negb _ && negb _).
  destruct (after_reward e t c (Ok (), st2)) as [Hus Hts].
  cbn [snd] in Hus, Hts.
  assert (E : get_user u st2
              = Some (mkuser (u_username user) (u_password_hash user)
                        (Some (default 0 (u_coins user) + xp / 5))
                        (Some (apply_streak arm (default 0 (u_streak user))))
                        (Some (isoformat (utcnow e))))).
  { subst st2. rewrite AppFacts.get_user_update_task.
    apply AppFacts.get_user_update_user.
    rewrite AppFacts.get_user_update_task. exact Hu. }
  split.
  - rewrite !(get_user_ext u st2 _ Hus), E. cbn. repeat split; lia.
  - intros Hj. rewrite (Hts id_ Hj). subst st2.
    rewrite StoreFacts.get_task_update_task_same.
    rewrite (get_task_ext id_ (update_task id_ [SetDone 1] st)
               (update_user _ _ _ _ _)) by reflexivity.
    rewrite StoreFacts.get_task_update_task_same, Ht. reflexivity.
Qed.

Lemma completion_pays_coins_witness :
  u_coins <$> get_user "ann"
                (snd (toggle_done (Scenario.env_at 2 "S2") (Some "ann") "S1"
                        (Samples.one_row Samples.daily_row)))
  = Some (Some 2).
Proof.
  destruct (completion_pays_coins (Scenario.env_at 2 "S2") "ann" "S1"
              (Samples.one_row Samples.daily_row) Samples.daily_row Samples.ann
              None 10) as [(H & _) _].
  - reflexivity.
  - reflexivity.
  - reflexivity.
  - reflexivity.
  - reflexivity.
  - vm_compute. repeat split; discriminate.
  - vm_compute. reflexivity.
  - exact H.
Defined.

(** X6.  [_toggle_done] on a pending task, run without a profile (the
    guest, or nobody signed in): no profile changes, and the task row gets
    [done = 1] only, so the XP is not written to its [xp] column either. *)
Theorem guest_completion_pays_nothing
    (e : env) (u : option string) (id_ : string) (st : storage) (t : row) :
  get_task id_ st = Some t -> r_done t = 0 -> is_Some (r_title t) ->
  u ≫= (fun n => get_user n st) = None ->
  let st' := snd (toggle_done e u id_ st) in
  users st' = users st
  /\ (id_ <> uuid e -> get_task id_ st' = Some (assign t (SetDone 1))).
Proof.
  intros Ht Hd [title Hti] Hu st'.
  subst st'. unfold toggle_done. rewrite Ht, Hd. cbn [Z.eqb].
  unfold award_xp_for_task. rewrite Hti.
  assert (Hu' : u ≫= (fun n => get_user n (update_task id_ [SetDone 1] st)) = None).
  { destruct u as [n|]; [|reflexivity]. cbn [mbind option_bind] in *.
    rewrite AppFacts.get_user_update_task. exact Hu. }
  rewrite Hu'.
  set (c := negb _ && negb _).
  destruct (after_reward e t c (Ok (), update_task id_ [SetDone 1] st)) as [Hus Hts].
  cbn [snd] in Hus, Hts. split.
  - rewrite Hus. reflexivity.
  - intros Hj. rewrite (Hts id_ Hj), StoreFacts.get_task_update_task_same, Ht.
    reflexivity.
Qed.

Lemma guest_completion_pays_nothing_witness :
  users (snd (toggle_done (Scenario.env_at 2 "S2") (Some "guest") "S1"
                (Samples.one_row Samples.daily_row)))
  = [Samples.ann].
Proof.
  destruct (guest_completion_pays_nothing (Scenario.env_at 2 "S2") (Some "guest")
              "S1" (Samples.one_row Samples.daily_row) Samples.daily_row)
    as [H _].
  - reflexivity.
  - reflexivity.
  - eexists; reflexivity.
  - reflexivity.
  - exact H.
Defined.

(** X7.  [_toggle_done] never takes coins away: whatever the id, the
    user and the clocks are, and however the handler ends, every profile is
    still there afterwards with at least the coins it had and the same
    password hash.  Un-marking a task in particular keeps the reward. *)
Theorem coins_never_decrease
    (e : env) (u : option string) (id_ : string) (st : storage)
    (name : string) (user : user_row) :
  get_user name st = Some user ->
  exists user',
    get_user name (snd (toggle_done e u id_ st)) = Some user'
    /\ default 0 (u_coins user) <= default 0 (u_coins user')
    /\ u_password_hash user' = u_password_hash user.
Proof.
  intros Hu.
  assert (Same : forall st', users st' = users st ->
            exists user', get_user name st' = Some user'
              /\ default 0 (u_coins user) <= default 0 (u_coins user')
              /\ u_password_hash user' = u_password_hash user).
  { intros st' Hs. exists user. rewrite (get_user_ext _ _ _ Hs).
    split; [exact Hu|]. split; [lia|reflexivity]. }
  unfold toggle_done.
  destruct (get_task id_ st) as [t|]; [|apply Same; reflexivity].
  destruct (r_done t =? 0); [|apply Same; reflexivity].
  destruct (award_xp_for_task t) as [xp| |] eqn:Hxp; try (apply Same; reflexivity).
  pose proof (award_xp_range _ _ Hxp) as [_ Hc].
  set (c := negb _ && negb _). clearbody c.
  destruct u as [u0|]; cbn [mbind option_bind].
  2:{ destruct c; apply Same;
        [rewrite AppFacts.users_handle_recurrence|]; reflexivity. }
  rewrite AppFacts.get_user_update_task.
  destruct (get_user u0 st) as [user0|] eqn:Hu0.
  2:{ destruct c; apply Same;
        [rewrite AppFacts.users_handle_recurrence|]; reflexivity. }
  destruct (last_of user0) as [last| |]; try (apply Same; reflexivity).
  destruct (streak_branch last (today e)) as [arm| |]; try (apply Same; reflexivity).
  change (default EmptyString (Some u0)) with u0.
  set (st2 := update_task id_ [SetXp xp] _).
  assert (Hst2 : exists user',
             get_user name st2 = Some user'
             /\ default 0 (u_coins user) <= default 0 (u_coins user')
             /\ u_password_hash user' = u_password_hash user).
  { subst st2. rewrite AppFacts.get_user_update_task.
    destruct (String.eqb name u0) eqn:En.
    - apply String.eqb_eq in En. subst u0.
      assert (user0 = user) by congruence. subst user0.
      eexists. split.
      + apply AppFacts.get_user_update_user.
        rewrite AppFacts.get_user_update_task. exact Hu.
      + cbn. split; [lia|reflexivity].
    - apply String.eqb_neq in En.
      rewrite get_user_update_user_other by exact En.
      rewrite AppFacts.get_user_update_task.
      exists user. split; [exact Hu|]. split; [lia|reflexivity]. }
  destruct c; [|exact Hst2].
  rewrite (get_user_ext name st2 _ (AppFacts.users_handle_recurrence e t st2)).
  exact Hst2.
Qed.

Lemma coins_never_decrease_witness :
  exists user',
    get_user "ann"
      (snd (toggle_done (Scenario.env_at 2 "T2") (Some "ann") "T1" Scenario.store1))
    = Some user'
    /\ 0 <= default 0 (u_coins user').
Proof.
  destruct (coins_never_decrease (Scenario.env_at 2 "T2") (Some "ann") "T1"
              Scenario.store1 "ann" (mkuser "ann" "hash" (Some 0) (Some 0) None))
    as (user' & H & Hc & _).
  - reflexivity.
  - exists user'. split; [exact H | exact Hc].
Defined.

End RewardFacts.

(** * Fixed-step and interval recurrence *)

Module RecurrenceFacts.
Import Calendar Datetime Json Storage App Spec.

(** Adding whole days in the handler: the step of the due time and the
    row that is written. *)
Lemma step_by_days due k :
  valid due -> 0 < toordinal due + k <= MAXORDINAL ->
  exists nd,
    add due (td_days k) = Ok nd
    /\ valid nd /\ toordinal nd = toordinal due + k
    /\ time_of_day nd = time_of_day due
    /\ weekday nd = (weekday due + k) mod 7
    /\ App.parse_iso (Some (isoformat nd)) = Ok (Some nd).
Proof.
  intros V R.
  destruct (DatetimeFacts.add_days due k V R) as (nd & Ea & Vn & Eo & Hh & Hmi & Hs & Hus).
  exists nd. split; [exact Ea|]. split; [exact Vn|]. split; [exact Eo|].
  split; [apply WeekdaySet.time_of_day_eq; assumption|].
  split; [apply (DatetimeFacts.weekday_add_days due nd k Eo)|].
  apply IsoFacts.parse_iso_isoformat, Vn.
Qed.

(** X8.  [_handle_recurrence_after_completion] on a daily or weekly
    task: the successor is due exactly 1 or 7 days after the due time of the
    completed task (not after the completion), at the same time of day; a
    weekly successor falls on the same weekday. *)
Theorem daily_and_weekly_successor
    (e : env) (t : row) (st : storage) (due : datetime) (k : Z) :
  (r_recurrence t = "daily" /\ k = 1) \/ (r_recurrence t = "weekly" /\ k = 7) ->
  App.parse_iso (r_due t) = Ok (Some due) ->
  toordinal due + k <= MAXORDINAL ->
  exists nd,
    handle_recurrence_after_completion e t st
    = (Ok (), add_task (uuid e) (isoformat (utcnow e)) (successor e t nd) st)
    /\ valid nd /\ toordinal nd = toordinal due + k
    /\ time_of_day nd = time_of_day due
    /\ weekday nd = (weekday due + k) mod 7
    /\ (k = 7 -> weekday nd = weekday due)
    /\ App.parse_iso (t_due (successor e t nd)) = Ok (Some nd).
Proof.
  intros Hk Hdue Hmax.
  pose proof (AppFacts.parse_iso_valid _ _ Hdue) as V.
  pose proof (DatetimeFacts.toordinal_pos due V) as Hpos.
  assert (Hk' : k = 1 \/ k = 7) by (destruct Hk as [[_ ->]|[_ ->]]; auto).
  destruct (step_by_days due k V ltac:(lia)) as (nd & Ea & Vn & Eo & Et & Ew & Ep).
  exists nd.
  assert (Hn : next_due (r_recurrence t) due (r_recurrence_extra t) = Ok (Some nd)).
  { destruct Hk as [[-> ->]|[-> ->]]; unfold next_due; cbn [String.eqb Ascii.eqb Bool.eqb].
    - rewrite Ea. reflexivity.
    - change (td_weeks 1) with (td_days 7). rewrite Ea. reflexivity. }
  unfold handle_recurrence_after_completion. rewrite Hdue, Hn.
  split; [reflexivity|]. split; [exact Vn|]. split; [exact Eo|].
  split; [exact Et|]. split; [exact Ew|]. split; [|exact Ep].
  intros ->. rewrite Ew. unfold weekday. Z.div_mod_to_equations. lia.
Qed.

Lemma daily_and_weekly_successor_witness :
  exists nd,
    handle_recurrence_after_completion (Scenario.env_at 2 "S2") Samples.daily_row
      (Samples.one_row Samples.daily_row)
    = (Ok (), add_task "S2" "2024-01-02T09:30:00"
                (successor (Scenario.env_at 2 "S2") Samples.daily_row nd)
                (Samples.one_row Samples.daily_row))
    /\ toordinal nd = toordinal (mkdt 2024 1 2 9 0 0 0) + 1.
Proof.
  destruct (daily_and_weekly_successor (Scenario.env_at 2 "S2") Samples.daily_row
              (Samples.one_row Samples.daily_row) (mkdt 2024 1 2 9 0 0 0) 1)
    as (nd & H & _ & Ho & _).
  - left. split; reflexivity.
  - reflexivity.
  - vm_compute. discriminate.
  - exists nd. split; [exact H | exact Ho].
Defined.

(** X9.  [_handle_recurrence_after_completion] on a monthly task: the
    successor is due in the next calendar month, on the same day of the
    month clipped to the length of that month, at the same time of day; a
    due time in December 9999 raises [ValueError] and leaves the store as
    it was. *)
Theorem monthly_successor
    (e : env) (t : row) (st : storage) (due : datetime) :
  r_recurrence t = "monthly" ->
  App.parse_iso (r_due t) = Ok (Some due) ->
  (fst (next_month (year due) (month due)) <= MAXYEAR ->
   let '(y, m) := next_month (year due) (month due) in
   let nd := mkdt y m (Z.min (days_in_month y m) (day due))
               (hour due) (minute due) (second due) (microsecond due) in
   handle_recurrence_after_completion e t st
   = (Ok (), add_task (uuid e) (isoformat (utcnow e)) (successor e t nd) st)
   /\ valid nd /\ day nd <= day due
   /\ (day due <= 28 -> day nd = day due))
  /\ (year due = MAXYEAR -> month due = 12 ->
      handle_recurrence_after_completion e t st = (Raise ValueError, st)).
Proof.
  intros Hrec Hdue.
  pose proof (AppFacts.parse_iso_valid _ _ Hdue) as V.
  assert (Hn : next_due (r_recurrence t) due (r_recurrence_extra t)
               = (d ← add_one_month due; Ok (Some d)))
    by (rewrite Hrec; reflexivity).
  unfold handle_recurrence_after_completion. rewrite Hdue, Hn. split.
  - intros Hy. pose proof (Monthly.add_one_month_calendar_aware due V Hy) as H.
    destruct (next_month (year due) (month due)) as [y m] eqn:Enm.
    rewrite H. cbn [mbind outcome_bind obind].
    split; [reflexivity|].
    assert (Hm : 1 <= y <= MAXYEAR /\ 1 <= m <= 12).
    { destruct V as ((Hyr & Hmo & _) & _). unfold next_month in Enm. cbn [fst] in Hy.
      destruct (month due =? 12) eqn:E; injection Enm as <- <-;
        [apply Z.eqb_eq in E | apply Z.eqb_neq in E]; unfold MAXYEAR in *; lia. }
    pose proof (CalendarFacts.days_in_month_range y m (proj2 Hm)) as Hr.
    destruct V as ((Hyr & Hmo & Hda) & Hti). cbn [day].
    split; [|split; [lia|intros; lia]].
    split; [|exact Hti]. cbn [year month day].
    split; [tauto|]. split; [tauto|lia].
  - intros Hy Hm. unfold add_one_month. rewrite Hy, Hm. reflexivity.
Qed.

Lemma monthly_successor_witness :
  handle_recurrence_after_completion (Scenario.env_at 31 "M2") Samples.monthly_row
    (Samples.one_row Samples.monthly_row)
  = (Ok (), add_task "M2" "2024-01-31T09:30:00"
              (successor (Scenario.env_at 31 "M2") Samples.monthly_row
                 (mkdt 2024 2 29 9 0 0 0))
              (Samples.one_row Samples.monthly_row)).
Proof.
  destruct (monthly_successor (Scenario.env_at 31 "M2") Samples.monthly_row
              (Samples.one_row Samples.monthly_row) (mkdt 2024 1 31 9 0 0 0))
    as [H _].
  - reflexivity.
  - reflexivity.
  - destruct (H ltac:(vm_compute; discriminate)) as [E _]. exact E.
Defined.

(** X10.  [_handle_recurrence_after_completion] on a custom task whose
    [recurrence_extra] is a dict with a non-zero integer under
    [every_x_days]: the successor is due that many days after the due time,
    at the same time of day, whether or not the dict also lists weekdays; a
    negative number moves the successor before the completed task. *)
Theorem interval_successor
    (e : env) (t : row) (st : storage) (due : datetime)
    (members : list (string * json)) (n : Z) :
  r_recurrence t = "custom" ->
  App.parse_iso (r_due t) = Ok (Some due) ->
  loads (extra_text (r_recurrence_extra t)) = Ok (JObj members) ->
  dict_get "every_x_days" members = Some (JInt n) -> n <> 0 ->
  0 < toordinal due + n <= MAXORDINAL ->
  exists nd,
    handle_recurrence_after_completion e t st
    = (Ok (), add_task (uuid e) (isoformat (utcnow e)) (successor e t nd) st)
    /\ valid nd /\ toordinal nd = toordinal due + n
    /\ time_of_day nd = time_of_day due
    /\ App.parse_iso (t_due (successor e t nd)) = Ok (Some nd).
Proof.
  intros Hrec Hdue Hload Hevery Hn Hr.
  pose proof (AppFacts.parse_iso_valid _ _ Hdue) as V.
  destruct (step_by_days due n V Hr) as (nd & Ea & Vn & Eo & Et & Ew & Ep).
  exists nd.
  assert (Hnext : next_due (r_recurrence t) due (r_recurrence_extra t) = Ok (Some nd)).
  { rewrite Hrec.
    change (next_due "custom" due (r_recurrence_extra t))
      with (custom_next_due due (r_recurrence_extra t)).
    unfold custom_next_due. rewrite Hload.
    cbn [mbind outcome_bind obind extra_get]. rewrite Hevery.
    cbn [opt_truthy truthy]. apply Z.eqb_neq in Hn. rewrite Hn.
    cbn [negb]. change (default JNull (Some (JInt n))) with (JInt n).
    cbn [py_int mbind outcome_bind obind]. rewrite Ea. reflexivity. }
  unfold handle_recurrence_after_completion. rewrite Hdue, Hnext.
  split; [reflexivity|]. split; [exact Vn|]. split; [exact Eo|].
  split; [exact Et|exact Ep].
Qed.

Lemma interval_successor_witness :
  exists nd,
    handle_recurrence_after_completion (Scenario.env_at 2 "I2") Samples.interval_row
      (Samples.one_row Samples.interval_row)
    = (Ok (), add_task "I2" "2024-01-02T09:30:00"
                (successor (Scenario.env_at 2 "I2") Samples.interval_row nd)
                (Samples.one_row Samples.interval_row))
    /\ toordinal nd = toordinal (mkdt 2024 1 2 9 0 0 0) + 3.
Proof.
  destruct (interval_successor (Scenario.env_at 2 "I2") Samples.interval_row
              (Samples.one_row Samples.interval_row) (mkdt 2024 1 2 9 0 0 0)
              [("every_x_days"%string, JInt 3)] 3)
    as (nd & H & _ & Ho & _).
  - reflexivity.
  - reflexivity.
  - vm_compute. reflexivity.
  - reflexivity.
  - discriminate.
  - vm_compute. split; [reflexivity | discriminate].
  - exists nd. split; [exact H | exact Ho].
Defined.

(** X11.  The row [_handle_recurrence_after_completion] writes for the
    next occurrence: a copy of the completed row under the new id with the
    new due time, [done] and [notified] cleared, the creation stamp of the
    completed row and the XP the row had when it was read; its
    [recurrence_extra] is the JSON text of the old column text.  With a new
    id the row goes to the end of the table and no other row changes. *)
Theorem successor_row_is_a_cleared_copy
    (e : env) (t : row) (st : storage) (due nd : datetime) :
  App.parse_iso (r_due t) = Ok (Some due) ->
  next_due (r_recurrence t) due (r_recurrence_extra t) = Ok (Some nd) ->
  r_created t <> EmptyString ->
  let new := mkrow (uuid e) (r_user t) (r_title t) (r_category t)
               (Some (isoformat nd)) (r_created t) 0 (r_recurrence t)
               (dumps (JStr (r_recurrence_extra t))) 0 (r_xp t) in
  let st' := snd (handle_recurrence_after_completion e t st) in
  get_task (uuid e) st' = Some new
  /\ users st' = users st
  /\ (uuid e ∉ List.map r_id (tasks st) -> tasks st' = tasks st ++ [new]).
Proof.
  intros Hdue Hn Hc new st'.
  assert (Hrec : r_recurrence t <> EmptyString).
  { intros E. rewrite E in Hn. unfold next_due in Hn. cbn in Hn. discriminate. }
  assert (Hrow : row_of_task (uuid e) (isoformat (utcnow e)) (successor e t nd) = new).
  { unfold row_of_task, successor, task_of_row, new.
    cbn [t_id t_user t_title t_category t_due t_created t_done t_recurrence
         t_recurrence_extra t_notified t_xp].
    rewrite (Backup.str_or_nonempty (r_created t)) by exact Hc.
    rewrite (Backup.str_or_nonempty (r_recurrence t)) by exact Hrec.
    f_equal. unfold str_or. destruct (String.eqb (uuid e) ""); reflexivity. }
  assert (Hst : st' = add_task (uuid e) (isoformat (utcnow e)) (successor e t nd) st).
  { subst st'. unfold handle_recurrence_after_completion. rewrite Hdue, Hn. reflexivity. }
  rewrite Hst. split; [|split; [reflexivity|]].
  - pose proof (StoreFacts.get_task_add_task_same (uuid e) (isoformat (utcnow e))
                  (successor e t nd) st) as G.
    rewrite Hrow in G. exact G.
  - intros Hf.
    pose proof (StoreFacts.ids_add_task_fresh (uuid e) (isoformat (utcnow e))
                  (successor e t nd) st) as G.
    rewrite Hrow in G. exact (G Hf).
Qed.

Lemma successor_row_is_a_cleared_copy_witness :
  get_task "S2"
    (snd (handle_recurrence_after_completion (Scenario.env_at 2 "S2")
            Samples.daily_row (Samples.one_row Samples.daily_row)))
  = Some (Samples.row_of "S2" "2024-01-03T09:00:00" "daily"
            (dumps (JStr "{}"))).
Proof.
  destruct (successor_row_is_a_cleared_copy (Scenario.env_at 2 "S2")
              Samples.daily_row (Samples.one_row Samples.daily_row)
              (mkdt 2024 1 2 9 0 0 0) (mkdt 2024 1 3 9 0 0 0))
    as [H _].
  - reflexivity.
  - vm_compute. reflexivity.
  - discriminate.
  - eapply eq_trans; [exact H | vm_compute; reflexivity].
Defined.

(** X12.  [_handle_recurrence_after_completion] ends a series without a
    word: a row whose due text is NULL or too short to be a date, or whose
    recurrence is not one of daily, weekly, monthly and custom, gets no
    successor and raises nothing. *)
Theorem no_successor_without_due_or_rule (e : env) (t : row) (st : storage) :
  (r_due t = None
   \/ (exists s, r_due t = Some s /\ (String.length s < 7)%nat)
   \/ (row_in_model t
       /\ r_recurrence t ∉ ["daily"; "weekly"; "monthly"; "custom"]%string)) ->
  handle_recurrence_after_completion e t st = (Ok (), st).
Proof.
  intros [H|[(s & H & Hs)|(Hm & H)]]; unfold handle_recurrence_after_completion.
  - rewrite H. reflexivity.
  - rewrite H. unfold App.parse_iso, fromisoformat.
    assert (L : (List.length (list_ascii_of_string s) <? 7)%nat = true).
    { apply Nat.ltb_lt. clear -Hs. revert Hs. generalize 7%nat.
      induction s as [|c s IH]; intros n Hn; cbn in *; [exact Hn|].
      destruct n as [|n]; [lia|]. specialize (IH n). lia. }
    rewrite L. reflexivity.
  - unfold row_in_model in Hm.
    destruct (App.parse_iso (r_due t)) as [[due|]|x|] eqn:Ep; try reflexivity.
    + assert (Hn : next_due (r_recurrence t) due (r_recurrence_extra t) = Ok None).
      { unfold next_due.
        destruct (String.eqb (r_recurrence t) "daily") eqn:E1;
          [apply String.eqb_eq in E1; rewrite E1 in H; exfalso; apply H; set_solver|].
        destruct (String.eqb (r_recurrence t) "weekly") eqn:E2;
          [apply String.eqb_eq in E2; rewrite E2 in H; exfalso; apply H; set_solver|].
        destruct (String.eqb (r_recurrence t) "monthly") eqn:E3;
          [apply String.eqb_eq in E3; rewrite E3 in H; exfalso; apply H; set_solver|].
        destruct (String.eqb (r_recurrence t) "custom") eqn:E4;
          [apply String.eqb_eq in E4; rewrite E4 in H; exfalso; apply H; set_solver|].
        reflexivity. }
      rewrite Hn. reflexivity.
    + exfalso. exact (Notifier.parse_iso_never_raises _ _ Ep).
    + contradiction.
Qed.

Lemma no_successor_without_due_or_rule_witness :
  handle_recurrence_after_completion (Scenario.env_at 2 "U2") Samples.undated_row
    (Samples.one_row Samples.undated_row)
  = (Ok (), Samples.one_row Samples.undated_row).
Proof.
  apply (no_successor_without_due_or_rule (Scenario.env_at 2 "U2")
           Samples.undated_row (Samples.one_row Samples.undated_row)).
  left. reflexivity.
Defined.

End RecurrenceFacts.

(** * Snooze and the edit dialog *)

Module SnoozeFacts.
Import Calendar Datetime Json Storage App Spec.

(** Valid naive datetimes are determined by their position on the time
    line. *)
Lemma to_micro_inj a b : valid a -> valid b -> to_micro a = to_micro b -> a = b.
Proof.
  intros ((Hy & Hm & Hd) & Hh & Hmi & Hs & Hus)
         ((Hy' & Hm' & Hd') & Hh' & Hmi' & Hs' & Hus') E.
  unfold to_micro, time_of_day, toordinal, US_PER_DAY in E.
  assert (Eo : ymd2ord (year a) (month a) (day a) = ymd2ord (year b) (month b) (day b))
    by lia.
  destruct (CalendarFacts.ymd2ord_inj _ _ _ _ _ _ Hm Hd Hm' Hd' Eo) as (E1 & E2 & E3).
  destruct a, b. cbn in *. subst. f_equal; lia.
Qed.

Lemma add_minutes_in_range d m :
  valid d -> 0 <= m -> toordinal d + m / 1440 < MAXORDINAL ->
  exists nd, add d (td_minutes m) = Ok nd /\ valid nd
             /\ to_micro nd = to_micro d + m * 60 * 1000000.
Proof.
  intros V Hm Hr. pose proof V as (_ & Hh & Hmi & Hs & Hus).
  pose proof (DatetimeFacts.toordinal_pos d V) as Hp.
  assert (E : exists nd, add d (td_minutes m) = Ok nd).
  { unfold add, to_micro, td_minutes, time_of_day, US_PER_DAY.
    set (total := _ + m * 60 * 1000000). cbv zeta.
    assert (Hd : 0 < total / (86400 * 1000000) <= MAXORDINAL).
    { subst total. unfold MAXORDINAL in *. Z.div_mod_to_equations. lia. }
    replace ((0 <? total / (86400 * 1000000))
             && (total / (86400 * 1000000) <=? MAXORDINAL))
      with true
      by (symmetry; apply andb_true_intro; split;
          [apply Z.ltb_lt | apply Z.leb_le]; lia).
    destruct (ord2ymd _) as [[y mo] dd]. eexists. reflexivity. }
  destruct E as (nd & E). exists nd. split; [exact E|].
  apply (WindowFacts.add_to_micro d _ nd V) in E. exact E.
Qed.

Lemma snooze_label_is_a_choice m :
  0 <= m ->
  String.eqb (snooze_label m) "" || String.eqb (snooze_label m) "Snooze" = false.
Proof.
  intros Hm. destruct (DecimalFacts.str_of_Z_digits m Hm) as (N & P & _).
  unfold snooze_label. destruct (Decimal.str_of_Z m) as [|c cs]; [congruence|].
  apply Forall_cons in P as [(Hc & _) _]. cbn.
  destruct (Ascii.eqb c "S") eqn:E; [|reflexivity].
  apply Ascii.eqb_eq in E. subst c. discriminate.
Qed.

Lemma update_task_absorbs id_ (x y : string) st :
  update_task id_ [SetDue y; SetNotified 0]
    (update_task id_ [SetDue x; SetNotified 0] st)
  = update_task id_ [SetDue y; SetNotified 0] st.
Proof.
  unfold update_task. cbn [tasks users]. f_equal.
  rewrite List.map_map. apply List.map_ext. intros r.
  destruct (String.eqb (r_id r) id_) eqn:E; cbn [fold_left assign r_id]; rewrite E;
    reflexivity.
Qed.

Lemma snooze_step id_ m st t due :
  get_task id_ st = Some t -> App.parse_iso (r_due t) = Ok (Some due) ->
  0 <= m -> toordinal due + m / 1440 < MAXORDINAL ->
  exists nd,
    snooze_choice id_ (snooze_label m) st
    = (Ok (), update_task id_ [SetDue (isoformat nd); SetNotified 0] st)
    /\ valid nd /\ to_micro nd = to_micro due + m * 60 * 1000000.
Proof.
  intros Ht Hdue Hm Hr.
  pose proof (AppFacts.parse_iso_valid _ _ Hdue) as V.
  destruct (add_minutes_in_range due m V Hm Hr) as (nd & Ea & Vn & En).
  exists nd. split; [|split; assumption].
  unfold snooze_choice. rewrite snooze_label_is_a_choice by exact Hm.
  rewrite MissingId.int_of_snooze_label by exact Hm.
  rewrite Ht, Hdue, Ea. reflexivity.
Qed.

(** X13.  [_snooze_choice] on a task whose due time parses, with a menu
    label [f"{m}m"]: the due time moves forward by exactly [m] minutes on
    the time line, [notified] is cleared, nothing else in the row changes,
    and the new due text reads back as the new due time. *)
Theorem snooze_moves_due_and_rearms
    (id_ : string) (m : Z) (st : storage) (t : row) (due : datetime) :
  get_task id_ st = Some t -> App.parse_iso (r_due t) = Ok (Some due) ->
  0 <= m -> toordinal due + m / 1440 < MAXORDINAL ->
  exists nd,
    snooze_choice id_ (snooze_label m) st
    = (Ok (), update_task id_ [SetDue (isoformat nd); SetNotified 0] st)
    /\ valid nd /\ to_micro nd = to_micro due + m * 60 * 1000000
    /\ get_task id_ (snd (snooze_choice id_ (snooze_label m) st))
       = Some (mkrow (r_id t) (r_user t) (r_title t) (r_category t)
                 (Some (isoformat nd)) (r_created t) (r_done t)
                 (r_recurrence t) (r_recurrence_extra t) 0 (r_xp t))
    /\ App.parse_iso (Some (isoformat nd)) = Ok (Some nd).
Proof.
  intros Ht Hdue Hm Hr.
  destruct (snooze_step id_ m st t due Ht Hdue Hm Hr) as (nd & Es & Vn & En).
  exists nd. split; [exact Es|]. split; [exact Vn|]. split; [exact En|].
  split; [|apply IsoFacts.parse_iso_isoformat, Vn].
  rewrite Es. cbn [snd].
  rewrite StoreFacts.get_task_update_task_same, Ht. reflexivity.
Qed.

Lemma snooze_moves_due_and_rearms_witness :
  exists nd,
    snooze_choice "T1" (snooze_label 10) Scenario.store1
    = (Ok (), update_task "T1" [SetDue (isoformat nd); SetNotified 0]
                Scenario.store1)
    /\ to_micro nd = to_micro (mkdt 2024 1 2 9 0 0 0) + 10 * 60 * 1000000.
Proof.
  destruct (snooze_moves_due_and_rearms "T1" 10 Scenario.store1
              (Samples.row_of "T1" "2024-01-02T09:00:00" "custom"
                 (dumps Scenario.tue_fri))
              (mkdt 2024 1 2 9 0 0 0))
    as (nd & H & _ & Hm & _).
  - reflexivity.
  - reflexivity.
  - lia.
  - vm_compute. reflexivity.
  - exists nd. split; [exact H | exact Hm].
Defined.

(** X14.  Two snoozes in a row add up: snoozing by [a] minutes and then
    by [b] minutes leaves the store that one snooze by [a + b] minutes
    leaves. *)
Theorem snooze_twice_adds_up
    (id_ : string) (a b : Z) (st : storage) (t : row) (due : datetime) :
  get_task id_ st = Some t -> App.parse_iso (r_due t) = Ok (Some due) ->
  0 <= a -> 0 <= b -> toordinal due + (a + b) / 1440 + 1 < MAXORDINAL ->
  snooze_choice id_ (snooze_label b) (snd (snooze_choice id_ (snooze_label a) st))
  = snooze_choice id_ (snooze_label (a + b)) st.
Proof.
  intros Ht Hdue Ha Hb Hr.
  pose proof (AppFacts.parse_iso_valid _ _ Hdue) as V.
  pose proof (DatetimeFacts.toordinal_pos due V) as Hp.
  assert (Hra : toordinal due + a / 1440 < MAXORDINAL)
    by (Z.div_mod_to_equations; lia).
  destruct (snooze_step id_ a st t due Ht Hdue Ha Hra) as (na & Ea & Va & Ma).
  destruct (snooze_step id_ (a + b) st t due Ht Hdue ltac:(lia) ltac:(lia))
    as (nab & Eab & Vab & Mab).
  rewrite Ea, Eab. cbn [snd].
  set (st1 := update_task id_ [SetDue (isoformat na); SetNotified 0] st).
  assert (Ht1 : get_task id_ st1
                = Some (fold_left assign [SetDue (isoformat na); SetNotified 0] t)).
  { subst st1. rewrite StoreFacts.get_task_update_task_same, Ht. reflexivity. }
  assert (Hd1 : App.parse_iso
                  (r_due (fold_left assign [SetDue (isoformat na); SetNotified 0] t))
                = Ok (Some na))
    by (apply IsoFacts.parse_iso_isoformat, Va).
  assert (Hrb : toordinal na + b / 1440 < MAXORDINAL).
  { unfold to_micro, US_PER_DAY in Ma.
    assert (0 <= time_of_day na < 86400 * 1000000 /\ 0 <= time_of_day due < 86400 * 1000000).
    { destruct Va as (_ & ? & ? & ? & ?). destruct V as (_ & ? & ? & ? & ?).
      unfold time_of_day. lia. }
    Z.div_mod_to_equations. lia. }
  destruct (snooze_step id_ b st1 _ na Ht1 Hd1 Hb Hrb) as (nb & Eb & Vb & Mb).
  rewrite Eb. subst st1. rewrite update_task_absorbs.
  assert (nb = nab) by (apply to_micro_inj; [assumption..|lia]).
  subst nb. reflexivity.
Qed.

Lemma snooze_twice_adds_up_witness :
  snooze_choice "T1" (snooze_label 10)
    (snd (snooze_choice "T1" (snooze_label 5) Scenario.store1))
  = snooze_choice "T1" (snooze_label (5 + 10)) Scenario.store1.
Proof.
  apply (snooze_twice_adds_up "T1" 5 10 Scenario.store1
           (Samples.row_of "T1" "2024-01-02T09:00:00" "custom"
              (dumps Scenario.tue_fri))
           (mkdt 2024 1 2 9 0 0 0)).
  - reflexivity.
  - reflexivity.
  - lia.
  - lia.
  - vm_compute. reflexivity.
Defined.

Lemma int_text_pad2 n :
  0 <= n < 100 ->
  Chars.int_text (string_of_list_ascii (Decimal.zero_pad 2 n)) = Ok n.
Proof.
  intros Hn. destruct (IsoFacts.pad2 n Hn) as (a & b & -> & F).
  unfold Chars.int_text. cbn [String.length string_of_list_ascii Nat.ltb Nat.leb].
  unfold int_of_str. cbn [list_ascii_of_string].
  unfold Decimal.field in F.
  destruct (Decimal.all_digits [a; b]); [|discriminate].
  congruence.
Qed.

(** X15.  Saving the edit dialog.  With a date, an hour and a minute
    that form a valid time, the due text becomes that time and [notified]
    is cleared.  Saving a dialog that was opened on a task and not touched
    does not keep the due time: the minute is rounded down to a multiple of
    five and the seconds are dropped.  An empty hour text changes
    nothing. *)
Theorem edit_save_sets_due_and_rearms
    (id_ : string) (due : datetime) (st : storage) :
  valid due ->
  (forall h m, 0 <= h < 24 -> 0 <= m < 60 ->
     Form.save_and_close id_ (date_of due)
       (string_of_list_ascii (Decimal.zero_pad 2 h))
       (string_of_list_ascii (Decimal.zero_pad 2 m)) st
     = Ok (update_task id_
             [SetDue (isoformat (mkdt (year due) (month due) (day due) h m 0 0));
              SetNotified 0] st))
  /\ Form.save_and_close id_ (date_of due)
       (Form.prefill_hour due) (Form.prefill_minute due) st
     = Ok (update_task id_
             [SetDue (isoformat (mkdt (year due) (month due) (day due)
                                   (hour due) (minute due / 5 * 5) 0 0));
              SetNotified 0] st)
  /\ (forall mv, Form.save_and_close id_ (date_of due) "" mv st = Ok st).
Proof.
  intros V.
  assert (G : forall h m, 0 <= h < 24 -> 0 <= m < 60 ->
     Form.save_and_close id_ (date_of due)
       (string_of_list_ascii (Decimal.zero_pad 2 h))
       (string_of_list_ascii (Decimal.zero_pad 2 m)) st
     = Ok (update_task id_
             [SetDue (isoformat (mkdt (year due) (month due) (day due) h m 0 0));
              SetNotified 0] st)).
  { intros h m Hh Hm. unfold Form.save_and_close.
    rewrite !int_text_pad2 by lia. cbn [mbind outcome_bind obind].
    unfold Form.make_datetime, date_of.
    destruct V as ((Hy & Hmo & Hd) & _).
    pose proof (CalendarFacts.days_in_month_range (year due) (month due) Hmo) as Hdim.
    assert (F : forallb Form.fits_int [year due; month due; day due; h; m] = true).
    { unfold Form.fits_int, MAXYEAR in *. cbn [forallb].
      repeat (apply andb_true_intro; split); try reflexivity;
        try apply Z.leb_le; lia. }
    rewrite F.
    assert (Vb : validb (mkdt (year due) (month due) (day due) h m 0 0) = true).
    { apply DatetimeFacts.validb_spec. repeat split; cbn; try lia; tauto. }
    rewrite Vb. reflexivity. }
  split; [exact G|]. split.
  - unfold Form.prefill_hour, Form.prefill_minute.
    destruct V as (_ & Hh & Hmi & _).
    apply G; [lia|]. Z.div_mod_to_equations. lia.
  - intros mv. reflexivity.
Qed.

Lemma edit_save_sets_due_and_rearms_witness :
  Form.save_and_close "T1" (2024, 1, 2) "09" "05" Scenario.store1
  = Ok (update_task "T1"
          [SetDue (isoformat (mkdt 2024 1 2 9 5 0 0)); SetNotified 0]
          Scenario.store1).
Proof.
  assert (V : valid (mkdt 2024 1 2 9 7 30 0))
    by (apply DatetimeFacts.validb_spec; vm_compute; reflexivity).
  exact (proj1 (proj2 (edit_save_sets_due_and_rearms "T1" (mkdt 2024 1 2 9 7 30 0)
                         Scenario.store1 V))).
Defined.

Lemma steady_update_due id_ nd st :
  valid nd -> steady st ->
  steady (update_task id_ [SetDue (isoformat nd); SetNotified 0] st).
Proof.
  intros Vn (Hnd & Hm). split.
  - rewrite StoreFacts.ids_update_task. exact Hnd.
  - unfold update_task. cbn [tasks]. rewrite Forall_forall in Hm |- *.
    intros x Hx. apply list_elem_of_In, in_map_iff in Hx as (y & <- & Hy).
    destruct (String.eqb (r_id y) id_).
    + unfold row_in_model. cbn [fold_left assign r_due].
      rewrite IsoFacts.parse_iso_isoformat by exact Vn. discriminate.
    + apply Hm, list_elem_of_In, Hy.
Qed.

(** X16.  Snooze and the notifier together.  After [_snooze_choice] by
    [m] minutes on a pending task, the next pass emits the due-event for
    the task exactly when the moved due time lies in the window of that
    pass, from one minute before [now] to [now], whether or not the task
    had been notified before the snooze. *)
Theorem snooze_rearms_notifier
    (u : option string) (id_ : string) (m : Z) (now : datetime)
    (st : storage) (t : row) (due : datetime) :
  steady st -> clock_ok now ->
  get_task id_ st = Some t -> t ∈ list_tasks u st -> r_done t = 0 ->
  App.parse_iso (r_due t) = Ok (Some due) ->
  0 <= m -> toordinal due + m / 1440 < MAXORDINAL ->
  let st1 := snd (snooze_choice id_ (snooze_label m) st) in
  let events := fst (snd (notifier_pass now u st1)) in
  (to_micro now - 60 * 1000000 <= to_micro due + m * 60 * 1000000 <= to_micro now
   -> occurrences id_ events = 1%nat)
  /\ (~ (to_micro now - 60 * 1000000 <= to_micro due + m * 60 * 1000000
         <= to_micro now)
      -> occurrences id_ events = 0%nat).
Proof.
  intros Hst Hc Ht Hin Hd Hdue Hm Hr st1 events.
  destruct (snooze_step id_ m st t due Ht Hdue Hm Hr) as (nd & Es & Vn & En).
  assert (Hid : r_id t = id_).
  { unfold get_task in Ht. apply find_some in Ht as [_ Ht].
    apply String.eqb_eq, Ht. }
  set (t' := mkrow (r_id t) (r_user t) (r_title t) (r_category t)
               (Some (isoformat nd)) (r_created t) (r_done t)
               (r_recurrence t) (r_recurrence_extra t) 0 (r_xp t)).
  assert (Hst1 : st1 = update_task id_ [SetDue (isoformat nd); SetNotified 0] st)
    by (subst st1; rewrite Es; reflexivity).
  assert (S1 : steady st1) by (rewrite Hst1; apply steady_update_due; assumption).
  assert (Hin1 : t' ∈ list_tasks u st1).
  { rewrite Hst1. unfold update_task.
    rewrite Notifier.list_tasks_map.
    - apply list_elem_of_In, in_map_iff. exists t. split.
      + rewrite Hid, String.eqb_refl. reflexivity.
      + apply list_elem_of_In. destruct st. exact Hin.
    - intros x. destruct (String.eqb (r_id x) id_); reflexivity. }
  destruct (Notifier.notifier_pass_spec now u st1 t' Hc S1 Hin1)
    as (ev & st2 & Ep & Ho & _).
  assert (Hev : events = ev) by (subst events; rewrite Ep; reflexivity).
  rewrite Hev. change (r_id t') with (r_id t) in Ho. rewrite Hid in Ho.
  assert (Hf : fires now t' = in_due_window now nd).
  { unfold fires. cbn [r_done r_notified r_due t'].
    rewrite Hd, IsoFacts.parse_iso_isoformat by exact Vn. reflexivity. }
  rewrite Hf in Ho.
  pose proof (WindowFacts.in_due_window_spec now nd Hc Vn) as W.
  rewrite En in W. split; intros Hw.
  - apply W in Hw. rewrite Hw in Ho. exact Ho.
  - destruct (in_due_window now nd); [exfalso; apply Hw, W; reflexivity|exact Ho].
Qed.

Lemma snooze_rearms_notifier_witness :
  occurrences "T1"
    (fst (snd (notifier_pass (mkdt 2024 1 2 9 10 30 0) (Some "ann")
                 (snd (snooze_choice "T1" (snooze_label 10) Scenario.store1)))))
  = 1%nat.
Proof.
  assert (S : steady Scenario.store1).
  { split.
    - replace (List.map r_id (tasks Scenario.store1)) with ["T1"%string]
        by (vm_compute; reflexivity).
      apply NoDup_singleton.
    - replace (tasks Scenario.store1)
        with [Samples.row_of "T1" "2024-01-02T09:00:00" "custom"
                (dumps Scenario.tue_fri)]
        by (vm_compute; reflexivity).
      constructor; [|constructor]. unfold row_in_model. vm_compute. discriminate. }
  assert (C : clock_ok (mkdt 2024 1 2 9 10 30 0)).
  { split; [apply DatetimeFacts.validb_spec; vm_compute; reflexivity
           | vm_compute; reflexivity]. }
  assert (R : Samples.row_of "T1" "2024-01-02T09:00:00" "custom"
                (dumps Scenario.tue_fri)
              ∈ list_tasks (Some "ann") Scenario.store1).
  { vm_compute. left. }
  apply (proj1 (snooze_rearms_notifier (Some "ann") "T1" 10
                  (mkdt 2024 1 2 9 10 30 0) Scenario.store1
                  (Samples.row_of "T1" "2024-01-02T09:00:00" "custom"
                     (dumps Scenario.tue_fri))
                  (mkdt 2024 1 2 9 0 0 0) S C eq_refl R eq_refl eq_refl
                  ltac:(lia) ltac:(vm_compute; reflexivity))).
  vm_compute. split; discriminate.
Defined.

End SnoozeFacts.

(** * One pass of the notifier *)

Module PassFacts.
Import Calendar Datetime Json Storage App Spec Props.

Lemma pass_result now u st :
  clock_ok now -> Forall row_in_model (list_tasks u st) ->
  notifier_pass now u st
  = (Ok (), (List.filter (fires now) (list_tasks u st),
             mark_all now (list_tasks u st) st)).
Proof.
  intros C M. unfold notifier_pass.
  rewrite (Notifier.notify_rows_spec now (list_tasks u st) [] st C M).
  reflexivity.
Qed.

Lemma mark_all_none now l : forall st,
  (forall x, x ∈ l -> fires now x = false) -> mark_all now l st = st.
Proof.
  unfold mark_all. induction l as [|a l IH]; intros st H; cbn; [reflexivity|].
  rewrite (H a) by left. apply IH. intros x Hx. apply H. right. exact Hx.
Qed.


Lemma same_or_marked_update i l l' :
  Forall2 same_or_marked l l' ->
  Forall2 same_or_marked l
    (List.map (fun r => if String.eqb (r_id r) i
                        then fold_left assign [SetNotified 1] r else r) l').
Proof.
  induction 1 as [|r r' l l' H _ IH]; cbn [List.map]; constructor; [|exact IH].
  destruct (String.eqb (r_id r') i); [|exact H].
  cbn [fold_left]. change (assign r' (SetNotified 1)) with (marked r').
  destruct H as [->| ->]; right; reflexivity.
Qed.

Lemma same_or_marked_ids l l' :
  Forall2 same_or_marked l l' -> List.map r_id l' = List.map r_id l.
Proof.
  induction 1 as [|r r' l l' Hr _ IH]; cbn; [reflexivity|].
  f_equal; [|exact IH]. destruct Hr as [->| ->]; reflexivity.
Qed.

Lemma notify_rows_only_marks now snapshot : forall events st0 st,
  Forall2 same_or_marked (tasks st0) (tasks st) -> users st = users st0 ->
  let st' := snd (snd (notify_rows now snapshot events st)) in
  Forall2 same_or_marked (tasks st0) (tasks st') /\ users st' = users st0.
Proof.
  induction snapshot as [|t snapshot IH]; intros events st0 st H U; cbn [notify_rows].
  - split; assumption.
  - unfold notify_row.
    destruct (negb (r_done t =? 0)); [apply IH; assumption|].
    destruct (negb (r_notified t =? 0)); [apply IH; assumption|].
    destruct (App.parse_iso (r_due t)) as [[due|]| |];
      cbn [mbind outcome_bind obind]; try (split; assumption);
      [|apply IH; assumption].
    destruct (in_window now due) as [[|]| |];
      cbn [mbind outcome_bind obind]; try (split; assumption);
      [|apply IH; assumption].
    apply IH; [|exact U].
    unfold update_task. cbn [tasks]. apply same_or_marked_update, H.
Qed.

(** X17.  One pass of [_notifier_loop] over a store whose visible due
    texts parse or surely fail to parse: the events are exactly the visible
    rows that are not done, not notified and due inside the window, in table
    order; afterwards [notified] is set on the rows whose id fired and
    nothing else in the store has changed. *)
Theorem pass_emits_every_due_row (now : datetime) (u : option string) (st : storage) :
  clock_ok now -> Forall row_in_model (list_tasks u st) ->
  exists st',
    notifier_pass now u st
    = (Ok (), (List.filter (fires now) (list_tasks u st), st'))
    /\ tasks st'
       = List.map (after_pass (List.map r_id
                                 (List.filter (fires now) (list_tasks u st))))
           (tasks st)
    /\ users st' = users st.
Proof.
  intros C M. exists (mark_all now (list_tasks u st) st).
  split; [apply pass_result; assumption|].
  split; [apply Notifier.tasks_mark_all|apply Notifier.users_mark_all].
Qed.

Lemma pass_emits_every_due_row_witness :
  fst (snd (notifier_pass (mkdt 2024 1 2 9 0 30 0) (Some "ann") Scenario.store1))
  = [Samples.row_of "T1" "2024-01-02T09:00:00" "custom" (dumps Scenario.tue_fri)].
Proof.
  assert (C : clock_ok (mkdt 2024 1 2 9 0 30 0)).
  { split; [apply DatetimeFacts.validb_spec; vm_compute; reflexivity
           | vm_compute; reflexivity]. }
  assert (M : Forall row_in_model (list_tasks (Some "ann") Scenario.store1)).
  { replace (list_tasks (Some "ann") Scenario.store1)
      with [Samples.row_of "T1" "2024-01-02T09:00:00" "custom"
              (dumps Scenario.tue_fri)]
      by (vm_compute; reflexivity).
    constructor; [|constructor]. unfold row_in_model. vm_compute. discriminate. }
  destruct (pass_emits_every_due_row (mkdt 2024 1 2 9 0 30 0) (Some "ann")
              Scenario.store1 C M) as (st' & H & _).
  rewrite H. vm_compute. reflexivity.
Defined.

(** X18.  Whatever the clock and the store are, and however the pass
    ends, [_notifier_loop] writes nothing but [notified = 1]: the profiles
    are untouched, and every row afterwards is the row before or that row
    with [notified] set; no row is added, removed or reordered. *)
Theorem notifier_only_sets_notified
    (now : datetime) (u : option string) (st : storage) :
  let st' := snd (snd (notifier_pass now u st)) in
  users st' = users st
  /\ Forall2 (fun r r' => r' = r \/ r' = assign r (SetNotified 1))
       (tasks st) (tasks st')
  /\ List.map r_id (tasks st') = List.map r_id (tasks st).
Proof.
  intros st'.
  destruct (notify_rows_only_marks now (list_tasks u st) [] st st) as [H U].
  { clear. induction (tasks st); constructor; [left; reflexivity|assumption]. }
  { reflexivity. }
  fold st' in H, U. split; [exact U|]. split; [exact H|].
  apply same_or_marked_ids, H.
Qed.

(** X19.  A second pass at the same clock reading is silent: once a
    pass has run, running it again emits no event and leaves the store as
    the first pass left it. *)
Theorem second_pass_is_silent (now : datetime) (u : option string) (st : storage) :
  clock_ok now -> Forall row_in_model (list_tasks u st) ->
  let st' := snd (snd (notifier_pass now u st)) in
  notifier_pass now u st' = (Ok (), ([], st')).
Proof.
  intros C M st'.
  set (fired := List.map r_id (List.filter (fires now) (list_tasks u st))).
  assert (Hst' : st' = mkstorage (List.map (after_pass fired) (tasks st)) (users st)).
  { subst st'. rewrite (pass_result now u st C M). cbn [snd].
    pose proof (Notifier.tasks_mark_all now (list_tasks u st) st) as T.
    pose proof (Notifier.users_mark_all now (list_tasks u st) st) as U.
    destruct (mark_all now (list_tasks u st) st) as [ts us].
    cbn [tasks users] in T, U. subst ts us. reflexivity. }
  assert (Hl : list_tasks u st' = List.map (after_pass fired) (list_tasks u st)).
  { rewrite Hst'. rewrite Notifier.list_tasks_map by apply Notifier.after_pass_user.
    destruct st. reflexivity. }
  assert (Hq : forall x, x ∈ list_tasks u st' -> fires now x = false).
  { intros x Hx. rewrite Hl in Hx.
    apply list_elem_of_In, in_map_iff in Hx as (y & <- & Hy).
    unfold after_pass. destruct (bool_decide (r_id y ∈ fired)) eqn:B.
    - unfold fires, marked. cbn [assign r_notified r_done].
      rewrite andb_false_r. reflexivity.
    - destruct (fires now y) eqn:F; [|reflexivity]. exfalso.
      apply bool_decide_eq_false in B. apply B.
      apply list_elem_of_In, in_map_iff. exists y. split; [reflexivity|].
      apply filter_In. split; assumption. }
  assert (M' : Forall row_in_model (list_tasks u st')).
  { rewrite Hl. rewrite Forall_forall in M |- *. intros x Hx.
    apply list_elem_of_In, in_map_iff in Hx as (y & <- & Hy).
    unfold row_in_model. rewrite Notifier.after_pass_due.
    apply M, list_elem_of_In, Hy. }
  rewrite (pass_result now u st' C M').
  rewrite (mark_all_none now _ st' Hq).
  replace (List.filter (fires now) (list_tasks u st')) with (@nil row); [reflexivity|].
  symmetry. clear -Hq. induction (list_tasks u st') as [|a l IH]; cbn; [reflexivity|].
  rewrite (Hq a) by left. apply IH. intros x Hx. apply Hq. right. exact Hx.
Qed.

Lemma second_pass_is_silent_witness :
  notifier_pass (mkdt 2024 1 2 9 0 30 0) (Some "ann")
    (snd (snd (notifier_pass (mkdt 2024 1 2 9 0 30 0) (Some "ann")
                 Scenario.store1)))
  = (Ok (), ([], snd (snd (notifier_pass (mkdt 2024 1 2 9 0 30 0) (Some "ann")
                             Scenario.store1)))).
Proof.
  assert (C : clock_ok (mkdt 2024 1 2 9 0 30 0)).
  { split; [apply DatetimeFacts.validb_spec; vm_compute; reflexivity
           | vm_compute; reflexivity]. }
  assert (M : Forall row_in_model (list_tasks (Some "ann") Scenario.store1)).
  { replace (list_tasks (Some "ann") Scenario.store1)
      with [Samples.row_of "T1" "2024-01-02T09:00:00" "custom"
              (dumps Scenario.tue_fri)]
      by (vm_compute; reflexivity).
    constructor; [|constructor]. unfold row_in_model. vm_compute. discriminate. }
  exact (second_pass_is_silent (mkdt 2024 1 2 9 0 30 0) (Some "ann")
           Scenario.store1 C M).
Defined.

End PassFacts.

(** * JSON strings read back, and what that does to [recurrence_extra] *)

Module RequoteFacts.
Import Calendar Datetime Json Storage App Spec.

(** [py_scanstring] undoes the escape of one character. *)
Lemma scan_escape c rest acc :
  scan_string (escape_char c ++ rest) acc = scan_string rest (c :: acc).
Proof.
  destruct c as [[] [] [] [] [] [] [] []]; reflexivity.
Qed.

Lemma scan_escaped cs rest : forall acc,
  scan_string (flat_map escape_char cs ++ dquote :: rest) acc
  = Ok (string_of_list_ascii (rev acc ++ cs), rest).
Proof.
  induction cs as [|c cs IH]; intros acc.
  - rewrite app_nil_r. reflexivity.
  - cbn [flat_map]. rewrite <- List.app_assoc, scan_escape, IH.
    cbn [rev]. rewrite <- List.app_assoc. reflexivity.
Qed.

(** A JSON string written by [dumps] is read back by [loads] as the
    same [str]. *)
Lemma loads_dumps_string s : loads (dumps (JStr s)) = Ok (JStr s).
Proof.
  unfold loads, dumps. rewrite list_ascii_of_string_of_list_ascii.
  cbn [dumps_chars]. unfold dumps_string.
  change (skip_ws (dquote :: ?x)) with (dquote :: x).
  cbn [scan_once]. change (Ascii.eqb dquote dquote) with true. cbv iota.
  change (flat_map escape_char (list_ascii_of_string s) ++ [dquote])
    with (flat_map escape_char (list_ascii_of_string s) ++ dquote :: []).
  rewrite scan_escaped. cbn [mbind outcome_bind obind rev app skip_ws].
  rewrite string_of_list_ascii_of_string. reflexivity.
Qed.

Lemma dumps_string_longer s :
  (String.length s + 2 <= String.length (dumps (JStr s)))%nat.
Proof.
  unfold dumps. cbn [dumps_chars]. unfold dumps_string.
  assert (L : forall cs, String.length (string_of_list_ascii cs) = List.length cs).
  { induction cs as [|c cs IH]; cbn; [reflexivity|]. rewrite IH. reflexivity. }
  rewrite L. cbn [List.length]. rewrite List.length_app. cbn [List.length].
  assert (E : (String.length s <= List.length (flat_map escape_char (list_ascii_of_string s)))%nat).
  { induction s as [|c s IH]; cbn [list_ascii_of_string flat_map String.length]; [lia|].
    rewrite List.length_app.
    assert (1 <= List.length (escape_char c))%nat; [|lia].
    destruct c as [[] [] [] [] [] [] [] []]; vm_compute; lia. }
  lia.
Qed.

Lemma extra_text_dumps s : extra_text (dumps (JStr s)) = dumps (JStr s).
Proof.
  unfold extra_text. destruct (String.eqb_spec (dumps (JStr s)) "") as [E|]; [|reflexivity].
  pose proof (dumps_string_longer s) as L. rewrite E in L. cbn in L. lia.
Qed.

(** X20.  A custom task that is itself a successor, or that went
    through a backup, cannot recur: its [recurrence_extra] column holds the
    JSON text of a string, [json.loads] returns a [str], and
    [_handle_recurrence_after_completion] raises [AttributeError] on
    [extra.get] without writing anything. *)
Theorem requoted_custom_task_raises
    (e : env) (t : row) (st : storage) (due : datetime) (old : string) :
  r_recurrence t = "custom" ->
  App.parse_iso (r_due t) = Ok (Some due) ->
  r_recurrence_extra t = dumps (JStr old) ->
  loads (extra_text (r_recurrence_extra t)) = Ok (JStr old)
  /\ handle_recurrence_after_completion e t st = (Raise AttributeError, st).
Proof.
  intros Hrec Hdue Hx.
  assert (L : loads (extra_text (r_recurrence_extra t)) = Ok (JStr old))
    by (rewrite Hx, extra_text_dumps; apply loads_dumps_string).
  split; [exact L|].
  unfold handle_recurrence_after_completion. rewrite Hdue, Hrec.
  change (next_due "custom" due (r_recurrence_extra t))
    with (custom_next_due due (r_recurrence_extra t)).
  unfold custom_next_due. rewrite L. reflexivity.
Qed.

Lemma requoted_custom_task_raises_witness :
  handle_recurrence_after_completion (Scenario.env_at 2 "Q2") Samples.requoted_row
    (Samples.one_row Samples.requoted_row)
  = (Raise AttributeError, Samples.one_row Samples.requoted_row).
Proof.
  apply (proj2 (requoted_custom_task_raises (Scenario.env_at 2 "Q2")
                  Samples.requoted_row (Samples.one_row Samples.requoted_row)
                  (mkdt 2024 1 2 9 0 0 0) (dumps Scenario.tue_fri)
                  eq_refl eq_refl eq_refl)).
Defined.

(** X21.  Restoring a backup into the store it was exported from keeps
    the table in order with every column except [recurrence_extra], which
    becomes the JSON text of its old text and so differs from it in every
    row; [done] and [notified] become 0 or 1 and an empty [recurrence]
    becomes [none].  The profiles are untouched. *)
Theorem restore_requotes_recurrence_extra
    (fresh : nat -> string * string) (st : storage) :
  wf_store st ->
  let st' := import_json fresh (export_json st) st in
  users st' = users st
  /\ tasks st'
     = List.map (fun r =>
          mkrow (r_id r) (r_user r) (r_title r) (r_category r) (r_due r)
            (r_created r) (if r_done r =? 0 then 0 else 1)
            (if String.eqb (r_recurrence r) "" then "none" else r_recurrence r)
            (dumps (JStr (r_recurrence_extra r)))
            (if r_notified r =? 0 then 0 else 1) (r_xp r)) (tasks st)
  /\ Forall2 (fun r r' => r_recurrence_extra r' <> r_recurrence_extra r)
       (tasks st) (tasks st').
Proof.
  intros W st'.
  assert (E : st' = mkstorage (List.map reimported (tasks st)) (users st)).
  { subst st'. rewrite (Backup.import_of_export_into fresh st st W).
    rewrite Backup.outside_all; [reflexivity|].
    intros r Hr. apply list_elem_of_In, in_map_iff. exists r.
    split; [reflexivity|apply list_elem_of_In, Hr]. }
  rewrite E. cbn [users tasks]. clear E st'. split; [reflexivity|].
  destruct W as [_ W]. split.
  - induction W as [|r l (Hi & Hc) _ IH]; cbn [List.map]; [reflexivity|].
    f_equal; [|exact IH].
    unfold reimported, row_of_task, task_of_row.
    cbn [t_id t_user t_title t_category t_due t_created t_done t_recurrence
         t_recurrence_extra t_notified t_xp].
    rewrite (Backup.str_or_nonempty (r_id r)) by exact Hi.
    rewrite (Backup.str_or_nonempty (r_created r)) by exact Hc.
    unfold str_or. cbn [default].
    destruct (r_done r =? 0), (r_notified r =? 0); reflexivity.
  - clear W. induction (tasks st) as [|r l IH]; cbn [List.map]; constructor; [|exact IH].
    intros Eq. pose proof (dumps_string_longer (r_recurrence_extra r)) as L.
    change (dumps (JStr (r_recurrence_extra r)) = r_recurrence_extra r) in Eq.
    rewrite Eq in L. lia.
Qed.

Lemma restore_requotes_recurrence_extra_witness :
  List.map r_recurrence_extra (tasks Scenario.restored)
  = [dumps (JStr (dumps Scenario.tue_fri))].
Proof.
  assert (W : wf_store Scenario.store1).
  { split; vm_compute.
    - apply NoDup_singleton.
    - constructor; [split; discriminate | constructor]. }
  destruct (restore_requotes_recurrence_extra (fun _ => ("unused", "unused"))
              Scenario.store1 W) as (_ & H & _).
  unfold Scenario.restored. rewrite H. vm_compute. reflexivity.
Defined.

End RequoteFacts.

(** * [task.py]: recurrence, completion, snooze, edit and save *)

Module LegacyFacts.
Import Calendar Datetime Legacy LegacyOps Spec.

Lemma isoformat_nonempty d : valid d -> Text.nonempty (Some (isoformat d)) = true.
Proof.
  intros V. pose proof (IsoFacts.fromisoformat_isoformat d V) as F.
  unfold Text.nonempty. destruct (String.eqb_spec (isoformat d) "") as [E|]; [|reflexivity].
  rewrite E in F. discriminate.
Qed.

Lemma legacy_parse_iso_isoformat d :
  valid d -> Legacy.parse_iso (Some (isoformat d)) = Ok (Some d).
Proof.
  intros V. unfold Legacy.parse_iso. rewrite isoformat_nonempty by exact V.
  change (default EmptyString (Some (isoformat d))) with (isoformat d).
  rewrite IsoFacts.fromisoformat_isoformat by exact V. reflexivity.
Qed.

Lemma legacy_parse_iso_valid s d : Legacy.parse_iso s = Ok (Some d) -> valid d.
Proof.
  unfold Legacy.parse_iso. destruct (Text.nonempty s); [|discriminate].
  destruct (fromisoformat _) as [x| |] eqn:E; try discriminate.
  intros [= <-]. eapply DatetimeFacts.fromisoformat_valid, E.
Qed.

(** X22.  [parse_iso] of both files reads back what [isoformat] wrote:
    every due text the applications write themselves parses to the due time
    it was written from; and a text shorter than seven characters is
    [None], not an exception. *)
Theorem parse_iso_reads_back_isoformat (d : datetime) :
  valid d ->
  App.parse_iso (Some (isoformat d)) = Ok (Some d)
  /\ Legacy.parse_iso (Some (isoformat d)) = Ok (Some d)
  /\ (forall s, (String.length s < 7)%nat ->
        App.parse_iso (Some s) = Ok None /\ Legacy.parse_iso (Some s) = Ok None).
Proof.
  intros V. split; [apply IsoFacts.parse_iso_isoformat, V|].
  split; [apply legacy_parse_iso_isoformat, V|].
  intros s Hs.
  assert (L : (List.length (list_ascii_of_string s) <? 7)%nat = true).
  { apply Nat.ltb_lt. clear -Hs. revert Hs. generalize 7%nat.
    induction s as [|c s IH]; intros n Hn; cbn in *; [exact Hn|].
    destruct n as [|n]; [lia|]. specialize (IH n). lia. }
  split.
  - unfold App.parse_iso, fromisoformat. rewrite L. reflexivity.
  - unfold Legacy.parse_iso. destruct (Text.nonempty (Some s)); [|reflexivity].
    change (default EmptyString (Some s)) with s.
    unfold fromisoformat. rewrite L. reflexivity.
Qed.

Lemma parse_iso_reads_back_isoformat_witness :
  App.parse_iso (Some (isoformat (mkdt 2024 2 29 23 59 59 250000)))
  = Ok (Some (mkdt 2024 2 29 23 59 59 250000))
  /\ App.parse_iso (Some "soon") = Ok None.
Proof.
  assert (V : valid (mkdt 2024 2 29 23 59 59 250000))
    by (apply DatetimeFacts.validb_spec; vm_compute; reflexivity).
  destruct (parse_iso_reads_back_isoformat (mkdt 2024 2 29 23 59 59 250000) V)
    as (H & _ & Hs).
  split; [exact H|]. apply (Hs "soon"%string). cbn. lia.
Defined.

(** X23.  [_schedule_next_for_recurring]: the successor of a daily,
    weekly or monthly task is a copy under the new id, not done and not
    notified, due exactly 1, 7 or 30 days after the due time of the
    completed task at the same time of day; any other recurrence word gives
    no successor. *)
Theorem legacy_successor_offsets
    (uuid : string) (t : ltask) (due : datetime) (k : Z) :
  (recurrence_of t = "daily" /\ k = 1)
  \/ (recurrence_of t = "weekly" /\ k = 7)
  \/ (recurrence_of t = "monthly" /\ k = 30) ->
  Legacy.parse_iso (l_due t) = Ok (Some due) ->
  toordinal due + k <= MAXORDINAL ->
  exists nd,
    schedule_next_for_recurring uuid t
    = Ok (Some (mkltask (Some uuid) (l_task t) (l_category t)
                  (Some (isoformat nd)) false (l_created t)
                  (l_recurrence t) false))
    /\ valid nd /\ toordinal nd = toordinal due + k
    /\ time_of_day nd = time_of_day due
    /\ Legacy.parse_iso (Some (isoformat nd)) = Ok (Some nd).
Proof.
  intros Hk Hdue Hmax.
  pose proof (legacy_parse_iso_valid _ _ Hdue) as V.
  pose proof (DatetimeFacts.toordinal_pos due V) as Hpos.
  assert (Hk' : 0 < k) by (destruct Hk as [[_ ->]|[[_ ->]|[_ ->]]]; lia).
  destruct (RecurrenceFacts.step_by_days due k V ltac:(lia))
    as (nd & Ea & Vn & Eo & Et & _ & _).
  exists nd. split; [|split; [exact Vn|split; [exact Eo|split; [exact Et|]]]].
  - unfold schedule_next_for_recurring. cbv zeta. rewrite Hdue.
    cbn [mbind outcome_bind obind].
    destruct Hk as [[-> ->]|[[-> ->]|[-> ->]]]; cbn [String.eqb Ascii.eqb Bool.eqb];
      [|change (td_weeks 1) with (td_days 7)|]; rewrite Ea; reflexivity.
  - apply legacy_parse_iso_isoformat, Vn.
Qed.

Lemma legacy_successor_offsets_witness :
  exists nd,
    schedule_next_for_recurring "N" Samples.legacy_daily
    = Ok (Some (mkltask (Some "N") (Some "Gym") (Some "Fitness")
                  (Some (isoformat nd)) false (Some "2024-01-01T08:00:00")
                  (Some "daily") false))
    /\ toordinal nd = toordinal (mkdt 2024 1 2 9 0 0 0) + 1.
Proof.
  destruct (legacy_successor_offsets "N" Samples.legacy_daily
              (mkdt 2024 1 2 9 0 0 0) 1)
    as (nd & H & _ & Ho & _).
  - left. split; reflexivity.
  - reflexivity.
  - vm_compute. discriminate.
  - exists nd. split; [exact H | exact Ho].
Defined.




(** *** Saving twice *)

Lemma find_after_replace t c :
  List.find (matches_id (l_id t)) (replace_one (l_id t) t c) = Some t.
Proof.
  assert (M : matches_id (l_id t) t = true) by (apply bool_decide_eq_true_2; reflexivity).
  induction c as [|d c IH]; cbn [replace_one List.find].
  - rewrite M. reflexivity.
  - destruct (matches_id (l_id t) d) eqn:E; cbn [List.find].
    + rewrite M. reflexivity.
    + rewrite E. exact IH.
Qed.

Lemma find_replace_other v t c :
  v <> l_id t ->
  List.find (matches_id v) (replace_one (l_id t) t c) = List.find (matches_id v) c.
Proof.
  intros Hv.
  assert (M : matches_id v t = false)
    by (apply bool_decide_eq_false_2; congruence).
  induction c as [|d c IH]; cbn [replace_one List.find].
  - rewrite M. reflexivity.
  - destruct (matches_id (l_id t) d) eqn:E; cbn [List.find].
    + rewrite M. apply bool_decide_eq_true in E.
      assert (M' : matches_id v d = false)
        by (apply bool_decide_eq_false_2; congruence).
      rewrite M'. reflexivity.
    + destruct (matches_id v d); [reflexivity|exact IH].
Qed.

Lemma replace_found t c :
  List.find (matches_id (l_id t)) c = Some t -> replace_one (l_id t) t c = c.
Proof.
  induction c as [|d c IH]; cbn [replace_one List.find]; [discriminate|].
  destruct (matches_id (l_id t) d).
  - intros [= ->]. reflexivity.
  - intros H. rewrite (IH H). reflexivity.
Qed.

Lemma find_push_all_other v tasks : forall c,
  Forall (fun t => l_id t <> v) tasks ->
  List.find (matches_id v) (push_all tasks c) = List.find (matches_id v) c.
Proof.
  unfold push_all. induction tasks as [|t tasks IH]; intros c H; cbn [fold_left].
  - reflexivity.
  - apply Forall_cons in H as [Ht H]. rewrite IH by exact H.
    apply find_replace_other. congruence.
Qed.

Lemma find_push_all tasks : forall c t,
  NoDup (List.map l_id tasks) -> t ∈ tasks ->
  List.find (matches_id (l_id t)) (push_all tasks c) = Some t.
Proof.
  induction tasks as [|t0 tasks IH]; intros c t Hn Ht.
  - inversion Ht.
  - cbn [List.map] in Hn. apply NoDup_cons in Hn as [Hx Hn].
    change (push_all (t0 :: tasks) c) with (push_all tasks (replace_one (l_id t0) t0 c)).
    apply elem_of_cons in Ht as [-> | Ht].
    + rewrite find_push_all_other; [apply find_after_replace|].
      apply Forall_forall. intros x Hin E. apply Hx.
      rewrite <- E. apply list_elem_of_In, in_map, list_elem_of_In, Hin.
    + apply IH; assumption.
Qed.

Lemma push_all_fixed tasks : forall c,
  Forall (fun t => List.find (matches_id (l_id t)) c = Some t) tasks ->
  push_all tasks c = c.
Proof.
  unfold push_all. induction tasks as [|t tasks IH]; intros c H; cbn [fold_left].
  - reflexivity.
  - apply Forall_cons in H as [Ht H]. rewrite (replace_found t c Ht). apply IH, H.
Qed.

Lemma find_prune tasks c t :
  t ∈ tasks ->
  List.find (matches_id (l_id t)) (prune tasks c) = List.find (matches_id (l_id t)) c.
Proof.
  intros Ht. unfold prune. cbv zeta.
  set (del := List.filter _ (truthy_ids c)).
  assert (Hdel : forall j, j ∈ del -> j ∈ truthy_ids c /\ j ∉ truthy_ids tasks)
    by (intros j; apply Reconcile.to_delete_spec).
  destruct del as [|x del'] eqn:E; [reflexivity|]. rewrite <- E in *.
  unfold delete_many. apply StoreFacts.find_filter_same.
  intros y Hy. apply bool_decide_eq_true in Hy.
  destruct (l_id y) as [j|] eqn:Ej; [|reflexivity].
  apply negb_true_iff, bool_decide_eq_false. intros Hj.
  apply Hdel in Hj as [Hr Hl]. apply Hl.
  apply Reconcile.truthy_ids_spec in Hr as [Hne _].
  apply Reconcile.truthy_ids_spec. split; [exact Hne|].
  exists t. split; [exact Ht|congruence].
Qed.

Lemma prune_settled tasks c :
  (forall i, i ∈ truthy_ids c -> i ∈ truthy_ids tasks) -> prune tasks c = c.
Proof.
  intros H. unfold prune. cbv zeta.
  replace (List.filter _ (truthy_ids c)) with (@nil string); [reflexivity|].
  symmetry. induction (truthy_ids c) as [|i l IH]; cbn [List.filter]; [reflexivity|].
  rewrite bool_decide_eq_true_2 by (apply H; left). cbn [negb].
  apply IH. intros j Hj. apply H. right. exact Hj.
Qed.

(** X25.  [Storage.save] is idempotent when the local ids are distinct:
    saving the same list a second time leaves the backend as the first save
    left it.  On the Mongo backend the first save leaves every local task in
    the collection exactly as it is in the list. *)
Theorem legacy_save_twice_is_save_once (tasks : list ltask) (b : backend) :
  NoDup (List.map l_id tasks) ->
  save tasks (snd (save tasks b)) = save tasks b
  /\ (forall c, b = Mongo c ->
        exists c', snd (save tasks b) = Mongo c' /\ forall t, t ∈ tasks -> t ∈ c').
Proof.
  intros Hn. destruct b as [c|contents].
  - cbn [save snd].
    set (c1 := prune tasks (push_all tasks c)).
    assert (F : forall t, t ∈ tasks -> List.find (matches_id (l_id t)) c1 = Some t).
    { intros t Ht. subst c1. rewrite find_prune by exact Ht.
      apply find_push_all; assumption. }
    split.
    + f_equal. f_equal.
      rewrite (push_all_fixed tasks c1) by (apply Forall_forall; exact F).
      apply prune_settled. intros i Hi. subst c1.
      apply Reconcile.truthy_ids_prune in Hi. tauto.
    + intros c0 _. exists c1. split; [reflexivity|].
      intros t Ht. apply F in Ht. apply find_some in Ht as [Ht _].
      apply list_elem_of_In, Ht.
  - split; [reflexivity|]. intros c E. discriminate.
Qed.

Lemma legacy_save_twice_is_save_once_witness :
  save Scenario.local_AB (snd (save Scenario.local_AB (Mongo Scenario.remote_ABC)))
  = save Scenario.local_AB (Mongo Scenario.remote_ABC).
Proof.
  assert (H : NoDup (List.map l_id Scenario.local_AB)).
  { replace (List.map l_id Scenario.local_AB) with [Some "A"%string; Some "B"%string]
      by reflexivity.
    apply NoDup_cons. split.
    - intros Hin. apply list_elem_of_singleton in Hin. discriminate Hin.
    - apply NoDup_singleton. }
  exact (proj1 (legacy_save_twice_is_save_once Scenario.local_AB
                  (Mongo Scenario.remote_ABC) H)).
Defined.

(** X26.  [delete_task] of [task.py] followed by the save it
    triggers, on the Mongo backend: no document with the deleted id is left
    in the collection, and every other local task is in the collection
    exactly as it is in the list. *)
Theorem legacy_delete_then_save_prunes_mirror
    (i : string) (tasks collection : list ltask) :
  i <> EmptyString -> NoDup (List.map l_id tasks) ->
  exists collection',
    save (delete_task i tasks) (Mongo collection)
    = (delete_task i tasks, Mongo collection')
    /\ ~ has_id i collection'
    /\ (forall t, t ∈ tasks -> l_id t <> Some i -> t ∈ collection').
Proof.
  intros Hi Hn.
  set (kept := delete_task i tasks).
  assert (Hk : forall t, t ∈ kept <-> t ∈ tasks /\ l_id t <> Some i).
  { intros t. unfold kept, delete_task.
    rewrite list_elem_of_In, filter_In, <- list_elem_of_In, negb_true_iff,
      bool_decide_eq_false. reflexivity. }
  assert (Hnk : NoDup (List.map l_id kept)).
  { unfold kept, delete_task. clear -Hn.
    induction tasks as [|a l IH]; cbn; [constructor|].
    cbn in Hn. apply NoDup_cons in Hn as [Hx Hn].
    destruct (negb _); cbn; [|auto]. apply NoDup_cons. split; [|auto].
    intros Hin. apply Hx.
    apply list_elem_of_In, in_map_iff in Hin as (x & Ex & Hx').
    apply list_elem_of_In, in_map_iff. exists x. split; [exact Ex|].
    apply filter_In in Hx'. tauto. }
  exists (prune kept (push_all kept collection)).
  split; [reflexivity|]. split.
  - intros H.
    assert (Hin : i ∈ truthy_ids (prune kept (push_all kept collection)))
      by (apply Reconcile.truthy_ids_spec; auto).
    apply Reconcile.truthy_ids_prune in Hin as [_ Hin].
    apply Reconcile.truthy_ids_spec in Hin as (_ & t & Ht & E).
    apply Hk in Ht as [_ Ht]. contradiction.
  - intros t Ht Hne.
    assert (Htk : t ∈ kept) by (apply Hk; auto).
    assert (F : List.find (matches_id (l_id t)) (prune kept (push_all kept collection))
                = Some t).
    { rewrite find_prune by exact Htk. apply find_push_all; assumption. }
    apply find_some in F as [F _]. apply list_elem_of_In, F.
Qed.

Lemma legacy_delete_then_save_prunes_mirror_witness :
  exists collection',
    save (delete_task "B" Scenario.local_AB) (Mongo Scenario.remote_ABC)
    = (delete_task "B" Scenario.local_AB, Mongo collection')
    /\ ~ has_id "B" collection'.
Proof.
  assert (H : NoDup (List.map l_id Scenario.local_AB)).
  { replace (List.map l_id Scenario.local_AB) with [Some "A"%string; Some "B"%string]
      by reflexivity.
    apply NoDup_cons. split.
    - intros Hin. apply list_elem_of_singleton in Hin. discriminate Hin.
    - apply NoDup_singleton. }
  destruct (legacy_delete_then_save_prunes_mirror "B" Scenario.local_AB
              Scenario.remote_ABC ltac:(discriminate) H)
    as (c & Hs & Hn & _).
  exists c. split; [exact Hs | exact Hn].
Defined.

(** *** Snooze and edit *)








End LegacyFacts.

(** * Numbers in JSON text *)

Module NumberFacts.
Import Decimal Json Props.

Lemma digits_value_bound cs :
  all_digits cs = true ->
  forall a, digits_value a cs
            = a * 10 ^ Z.of_nat (List.length cs) + digits_value 0 cs
            /\ 0 <= digits_value 0 cs < 10 ^ Z.of_nat (List.length cs).
Proof.
  induction cs as [|c cs IH]; intros H a.
  - cbn. lia.
  - cbn [all_digits forallb] in H. apply andb_prop in H as [Hc H].
    specialize (IH H). cbn [digits_value List.length].
    rewrite Nat2Z.inj_succ, Z.pow_succ_r by lia.
    assert (Hd : 0 <= digit_value c < 10).
    { unfold is_digit in Hc. unfold digit_value.
      apply andb_prop in Hc as [H1 H2].
      apply N.leb_le in H1. apply N.leb_le in H2. lia. }
    destruct (IH (10 * a + digit_value c)) as [E1 B].
    destruct (IH (10 * 0 + digit_value c)) as [E0 _].
    rewrite E1, E0. split; [lia|]. nia.
Qed.

(** [str] writes no leading zero. *)
Lemma nat_digits_head fuel : forall n acc,
  0 <= n < 10 ^ Z.of_nat fuel -> (1 <= fuel)%nat ->
  exists c ds, nat_digits fuel n acc = c :: ds ++ acc
               /\ (Ascii.eqb c "0" = true -> ds = []).
Proof.
  induction fuel as [|fuel IH]; intros n acc Hn Hf; [lia|].
  cbn [nat_digits]. cbv zeta.
  assert (Hd : 0 <= n mod 10 < 10) by (apply Z.mod_pos_bound; lia).
  destruct (n <? 10) eqn:E.
  - exists (digit_char (n mod 10)), []. split; [reflexivity|]. reflexivity.
  - apply Z.ltb_ge in E.
    assert (Hf' : (1 <= fuel)%nat).
    { destruct fuel; [|lia]. change (10 ^ Z.of_nat 1) with 10 in Hn. lia. }
    assert (Hq : 0 <= n / 10 < 10 ^ Z.of_nat fuel).
    { rewrite Nat2Z.inj_succ, Z.pow_succ_r in Hn by lia.
      split; [apply Z.div_pos; lia | apply Z.div_lt_upper_bound; lia]. }
    destruct (IH (n / 10) (digit_char (n mod 10) :: acc) Hq Hf') as (c & ds & E1 & Hz).
    exists c, (ds ++ [digit_char (n mod 10)]).
    rewrite E1, <- List.app_assoc. split; [reflexivity|].
    intros Hc. exfalso. specialize (Hz Hc). subst ds.
    destruct (DecimalFacts.nat_digits_spec fuel (n / 10)
                (digit_char (n mod 10) :: acc) Hq Hf') as (ds' & E2 & _ & P & V).
    rewrite E1 in E2. cbn [app] in E2.
    assert (ds' = [c]).
    { destruct ds' as [|x [|y ds']]; cbn in E2.
      - exfalso. apply (f_equal (@List.length ascii)) in E2. cbn in E2. lia.
      - congruence.
      - exfalso. apply (f_equal (@List.length ascii)) in E2. cbn in E2.
        rewrite List.length_app in E2. cbn in E2. lia. }
    subst ds'. specialize (V 0).
    apply Ascii.eqb_eq in Hc. subst c.
    change (digits_value 0 ["0"%char]) with 0 in V.
    assert (n / 10 = 0) by lia. Z.div_mod_to_equations. lia.
Qed.

Lemma str_of_Z_head n :
  0 <= n ->
  exists c ds, str_of_Z n = c :: ds /\ (Ascii.eqb c "0" = true -> ds = [])
               /\ all_digits (c :: ds) = true
               /\ digits_value 0 (c :: ds) = n.
Proof.
  intros Hn. destruct (DecimalFacts.str_of_Z_digits n Hn) as (_ & P & V).
  assert (A : all_digits (str_of_Z n) = true).
  { apply forallb_forall. intros x Hx. unfold plain_digits in P.
    rewrite Forall_forall in P. apply (P x). apply list_elem_of_In, Hx. }
  revert P V A. unfold str_of_Z. rewrite Z.abs_eq by exact Hn.
  replace (n <? 0) with false by (symmetry; apply Z.ltb_ge; exact Hn).
  destruct (nat_digits_head (S (Z.to_nat (Z.log2 n))) n []) as (c & ds & E & Hz).
  - split; [exact Hn|].
    rewrite Nat2Z.inj_succ, Z2Nat.id by apply Z.log2_nonneg.
    destruct (Z.eq_dec n 0) as [->|Hne]; [reflexivity|].
    pose proof (Z.log2_spec n ltac:(lia)) as [_ Hl].
    pose proof (Z.log2_nonneg n).
    pose proof (Z.pow_le_mono_l 2 10 (Z.succ (Z.log2 n)) ltac:(lia)). lia.
  - lia.
  - rewrite app_nil_r in E. rewrite E. intros P V A.
    exists c, ds. auto.
Qed.

Lemma span_digits_run ds rest :
  all_digits ds = true -> ends_number rest ->
  span_digits (ds ++ rest) = (ds, rest).
Proof.
  intros A R. induction ds as [|c ds IH]; cbn [app span_digits].
  - destruct rest as [|c rest]; [reflexivity|]. cbn [span_digits].
    destruct R as (-> & _). reflexivity.
  - cbn [all_digits forallb] in A. apply andb_prop in A as [Hc A].
    rewrite Hc, (IH A). reflexivity.
Qed.

Lemma float_follows_end rest : ends_number rest -> float_follows rest = false.
Proof.
  destruct rest as [|c [|d rest]]; try reflexivity.
  intros (_ & H1 & H2 & H3). cbn [float_follows]. rewrite H1, H2, H3. reflexivity.
Qed.

Lemma scan_once_digit c tl fuel :
  is_digit c = true -> scan_once (S fuel) (c :: tl) = scan_number false (c :: tl).
Proof.
  destruct c as [[] [] [] [] [] [] [] []]; intros H; try discriminate H; reflexivity.
Qed.

(** [scan_once] reads the digits [str] wrote for a natural number back
    as that number. *)
Lemma scan_once_number n rest fuel :
  0 <= n -> (List.length (str_of_Z n) <= 4300)%nat -> ends_number rest ->
  scan_once (S fuel) (str_of_Z n ++ rest) = Ok (JInt n, rest).
Proof.
  intros Hn Hl R.
  destruct (str_of_Z_head n Hn) as (c & ds & E & Hz & A & V).
  rewrite E in *. cbn [app].
  assert (Hc : is_digit c = true).
  { cbn [all_digits forallb] in A. apply andb_prop in A. tauto. }
  rewrite scan_once_digit by exact Hc.
  unfold scan_number.
  assert (S : span_int (c :: ds ++ rest) = Some (c :: ds, rest)).
  { unfold span_int. destruct (Ascii.eqb c "0") eqn:E0.
    - rewrite (Hz eq_refl). reflexivity.
    - rewrite Hc. change (c :: ds ++ rest) with ((c :: ds) ++ rest).
      rewrite span_digits_run by assumption. reflexivity. }
  rewrite S, float_follows_end by exact R.
  replace (4300 <? List.length (c :: ds))%nat with false
    by (symmetry; apply Nat.ltb_ge; exact Hl).
  rewrite V. reflexivity.
Qed.

End NumberFacts.

(** * The task form *)

Module FormFacts.
Import Calendar Datetime Decimal Json Storage App Form Spec Props.

Lemma skip_ws_cons c x : is_ws c = false -> skip_ws (c :: x) = c :: x.
Proof. intros H. cbn [skip_ws]. rewrite H. reflexivity. Qed.

Lemma digit_not_ws c : is_digit c = true -> is_ws c = false.
Proof.
  destruct c as [[] [] [] [] [] [] [] []]; intros H; try discriminate H; reflexivity.
Qed.

Lemma skip_ws_number n tail :
  0 <= n -> skip_ws (str_of_Z n ++ tail) = str_of_Z n ++ tail.
Proof.
  intros Hn. destruct (NumberFacts.str_of_Z_head n Hn) as (c & ds & E & _ & A & _).
  rewrite E. cbn [app]. apply skip_ws_cons, digit_not_ws.
  cbn [all_digits forallb] in A. apply andb_prop in A. tauto.
Qed.

(** The member [every_x_days] of an object, scanned after the opening
    quote of its key, up to the character after its value. *)
Lemma scan_member_every F n tail :
  0 <= n -> (List.length (str_of_Z n) <= 4300)%nat -> ends_number tail ->
  scan_members (S (S F))
    (list_ascii_of_string "every_x_days"
     ++ dquote :: ":"%char :: " "%char :: str_of_Z n ++ tail) []
  = match skip_ws tail with
    | c :: rest =>
        if Ascii.eqb c "}" then Ok ([("every_x_days"%string, JInt n)], rest)
        else if Ascii.eqb c "," then
          match skip_ws rest with
          | q :: rest =>
              if Ascii.eqb q dquote
              then scan_members (S F) rest [("every_x_days"%string, JInt n)]
              else Raise JSONDecodeError
          | [] => Raise JSONDecodeError
          end
        else Raise JSONDecodeError
    | [] => Raise JSONDecodeError
    end.
Proof.
  intros Hn Hl Ht.
  replace (list_ascii_of_string "every_x_days")
    with (flat_map escape_char (list_ascii_of_string "every_x_days")) by reflexivity.
  cbn [scan_members]. rewrite RequoteFacts.scan_escaped.
  cbn [mbind outcome_bind obind rev app].
  rewrite (skip_ws_cons ":"%char) by reflexivity.
  change (Ascii.eqb ":" ":") with true. cbv iota.
  change (skip_ws (" "%char :: str_of_Z n ++ tail)) with (skip_ws (str_of_Z n ++ tail)).
  rewrite skip_ws_number by exact Hn.
  rewrite NumberFacts.scan_once_number by assumption.
  cbn [mbind outcome_bind obind]. reflexivity.
Qed.

(** The member [weekdays] of the form's dict, closing the object. *)
Lemma scan_member_weekdays F acc (b0 b1 b2 b3 b4 b5 b6 : bool) :
  existsb id [b0; b1; b2; b3; b4; b5; b6] = true ->
  scan_members (12 + F)
    (list_ascii_of_string "weekdays"
     ++ dquote :: ":"%char :: " "%char
     :: dumps_chars (JArr (List.map JInt (checked [b0; b1; b2; b3; b4; b5; b6])))
     ++ ["}"%char]) acc
  = Ok (dict_set "weekdays"
          (JArr (List.map JInt (checked [b0; b1; b2; b3; b4; b5; b6]))) acc, []).
Proof.
  destruct b0, b1, b2, b3, b4, b5, b6; intros H; try discriminate H;
    vm_compute; reflexivity.
Qed.

(** [json.loads] on an object text, given what its members scan to. *)
Lemma loads_of_members chars d :
  (forall F, scan_members (14 + F) chars [] = Ok (d, [])) ->
  (6 <= List.length chars)%nat ->
  loads (extra_text (string_of_list_ascii ("{"%char :: dquote :: chars)))
  = Ok (JObj d).
Proof.
  intros H L.
  assert (X : extra_text (string_of_list_ascii ("{"%char :: dquote :: chars))
              = string_of_list_ascii ("{"%char :: dquote :: chars)) by reflexivity.
  rewrite X. unfold loads. rewrite list_ascii_of_string_of_list_ascii.
  rewrite (skip_ws_cons "{"%char) by reflexivity.
  assert (Hf : exists F, (2 * List.length ("{"%char :: dquote :: chars) = 14 + F)%nat).
  { exists (2 * List.length chars - 10)%nat. cbn [List.length]. lia. }
  destruct Hf as (F & ->).
  change (S (14 + F)) with (S (S (13 + F))). cbn [scan_once].
  change (Ascii.eqb "{" dquote) with false. change (Ascii.eqb "{" "{") with true.
  cbv iota. rewrite (skip_ws_cons dquote) by reflexivity.
  change (Ascii.eqb dquote "}") with false. change (Ascii.eqb dquote dquote) with true.
  cbv iota. change (S (13 + F)) with (14 + F)%nat. rewrite H. reflexivity.
Qed.

(** The texts [json.dumps] writes for the dicts of the form. *)
Lemma dumps_every n :
  dumps (JObj [("every_x_days"%string, JInt n)])
  = string_of_list_ascii
      ("{"%char :: dquote
       :: list_ascii_of_string "every_x_days"
       ++ dquote :: ":"%char :: " "%char :: str_of_Z n ++ ["}"%char]).
Proof. reflexivity. Qed.

Lemma dumps_weekdays w :
  dumps (JObj [("weekdays"%string, w)])
  = string_of_list_ascii
      ("{"%char :: dquote
       :: list_ascii_of_string "weekdays"
       ++ dquote :: ":"%char :: " "%char :: dumps_chars w ++ ["}"%char]).
Proof. reflexivity. Qed.

Lemma dumps_both n w :
  dumps (JObj [("every_x_days"%string, JInt n); ("weekdays"%string, w)])
  = string_of_list_ascii
      ("{"%char :: dquote
       :: list_ascii_of_string "every_x_days"
       ++ dquote :: ":"%char :: " "%char :: str_of_Z n
       ++ ","%char :: " "%char :: dquote
       :: list_ascii_of_string "weekdays"
       ++ dquote :: ":"%char :: " "%char :: dumps_chars w ++ ["}"%char]).
Proof.
  unfold dumps. f_equal.
  change (dumps_chars (JObj [("every_x_days"%string, JInt n); ("weekdays"%string, w)]))
    with ("{"%char :: dquote
          :: list_ascii_of_string "every_x_days"
          ++ dquote :: ":"%char :: " "%char
          :: (str_of_Z n
              ++ ","%char :: " "%char :: dquote
              :: list_ascii_of_string "weekdays"
              ++ dquote :: ":"%char :: " "%char :: dumps_chars w)
          ++ ["}"%char]).
  rewrite <- List.app_assoc. reflexivity.
Qed.

Lemma int_of_digit_text_spec s n :
  Chars.int_of_digit_text s = Ok n ->
  0 <= n /\ (List.length (str_of_Z n) <= 4300)%nat.
Proof.
  unfold Chars.int_of_digit_text, Chars.isdigit.
  destruct (list_ascii_of_string s) as [|c cs] eqn:E; [discriminate|].
  destruct (forallb Chars.is_unicode_digit (c :: cs)); [|discriminate].
  destruct (all_digits (c :: cs)) eqn:A; [|discriminate].
  destruct (4300 <? List.length (c :: cs))%nat eqn:L; [discriminate|].
  intros E'. apply Nat.ltb_ge in L.
  assert (En : n = digits_value 0 (c :: cs)) by congruence. clear E'.
  destruct (NumberFacts.digits_value_bound (c :: cs) A 0) as [_ B].
  rewrite <- En in B. split; [lia|].
  pose proof (IsoFacts.str_of_Z_length n (List.length (c :: cs)) B
                ltac:(cbn [List.length]; lia)). lia.
Qed.

Lemma seven_flags (flags : list bool) :
  List.length flags = 7%nat ->
  exists b0 b1 b2 b3 b4 b5 b6, flags = [b0; b1; b2; b3; b4; b5; b6].
Proof.
  intros H.
  destruct flags as [|b0 [|b1 [|b2 [|b3 [|b4 [|b5 [|b6 [|x flags]]]]]]]];
    try discriminate H.
  eauto 8.
Qed.

Lemma checked_from_range flags : forall i,
  0 <= i ->
  Forall (fun w => i <= w < i + Z.of_nat (List.length flags)) (checked_from i flags)
  /\ numbers (List.map JInt (checked_from i flags)) = Some (checked_from i flags).
Proof.
  induction flags as [|b flags IH]; intros i Hi; cbn [checked_from List.length].
  - split; [constructor|reflexivity].
  - destruct (IH (i + 1) ltac:(lia)) as [R N].
    assert (R' : Forall (fun w => i <= w < i + Z.of_nat (S (List.length flags)))
                   (checked_from (i + 1) flags)).
    { eapply Forall_impl; [exact R|]. cbn beta. intros w Hw. lia. }
    destruct b; [|split; assumption]. split.
    + constructor; [lia|exact R'].
    + cbn [List.map numbers]. rewrite N. reflexivity.
Qed.

(** X29.  The dict [_add_task_from_ui] builds for a custom task, once
    [add_task] has written it with [json.dumps], is read back by the
    recurrence code with [json.loads] as the same dict, whatever the days
    entry and the seven weekday boxes hold.  Its weekday list is the list of
    the checked positions, integers from 0 to 6 in increasing order, and it
    is present exactly when a box is checked; with an empty days entry there
    is no [every_x_days]. *)
Theorem form_custom_extra_reads_back
    (days : string) (flags : list bool) (members : list (string * json)) :
  flags = [] \/ List.length flags = 7%nat ->
  custom_extra days flags = Ok members ->
  loads (extra_text (dumps (JObj members))) = Ok (JObj members)
  /\ dict_get "weekdays" members
     = (if existsb id flags then Some (JArr (List.map JInt (checked flags)))
        else None)
  /\ numbers (List.map JInt (checked flags)) = Some (checked flags)
  /\ Forall (fun w => 0 <= w <= 6) (checked flags)
  /\ (days = EmptyString -> dict_get "every_x_days" members = None).
Proof.
  intros Hflags Hc.
  assert (Hchk : numbers (List.map JInt (checked flags)) = Some (checked flags)
                 /\ Forall (fun w => 0 <= w <= 6) (checked flags)).
  { destruct (checked_from_range flags 0 ltac:(lia)) as [R N]. split; [exact N|].
    eapply Forall_impl; [exact R|]. cbn beta. intros w Hw.
    destruct Hflags as [-> | L]; [cbn in Hw; lia|]. rewrite L in Hw. lia. }
  destruct Hchk as [Hnum Hrange].
  assert (Hw : existsb id flags = true ->
               exists b0 b1 b2 b3 b4 b5 b6, flags = [b0; b1; b2; b3; b4; b5; b6]).
  { intros X. destruct Hflags as [-> | L]; [discriminate X|]. apply seven_flags, L. }
  unfold custom_extra in Hc.
  destruct (negb (String.eqb days "") && Chars.isdigit (Chars.strip days)) eqn:D.
  - destruct (Chars.int_of_digit_text (Chars.strip days)) as [n| |] eqn:I;
      try discriminate Hc.
    cbn [mbind outcome_bind obind dict_set] in Hc.
    destruct (int_of_digit_text_spec _ _ I) as [Hn Hl].
    destruct (existsb id flags) eqn:X; injection Hc as <-.
    + destruct (Hw eq_refl) as (b0 & b1 & b2 & b3 & b4 & b5 & b6 & ->).
      cbn [dict_set]. change (String.eqb "weekdays" "every_x_days") with false.
      cbv iota. cbn [dict_set].
      split; [|split; [reflexivity|split; [exact Hnum|split; [exact Hrange|]]]].
      * rewrite dumps_both. apply loads_of_members.
        -- intros F. change (14 + F)%nat with (S (S (12 + F))).
           rewrite scan_member_every; [|exact Hn|exact Hl|repeat split].
           rewrite (skip_ws_cons ","%char) by reflexivity.
           change (Ascii.eqb "," "}") with false. change (Ascii.eqb "," ",") with true.
           cbv iota.
           change (skip_ws (" "%char :: dquote :: ?x)) with (skip_ws (dquote :: x)).
           rewrite (skip_ws_cons dquote) by reflexivity.
           change (Ascii.eqb dquote dquote) with true. cbv iota.
           change (S (12 + F)) with (12 + S F)%nat.
           rewrite scan_member_weekdays by exact X. reflexivity.
        -- rewrite List.length_app. cbn. lia.
      * intros ->. discriminate D.
    + split; [|split; [reflexivity|split; [exact Hnum|split; [exact Hrange|]]]].
      * rewrite dumps_every. apply loads_of_members.
        -- intros F. change (14 + F)%nat with (S (S (12 + F))).
           rewrite scan_member_every; [|exact Hn|exact Hl|repeat split].
           reflexivity.
        -- rewrite List.length_app. cbn. lia.
      * intros ->. discriminate D.
  - cbn [mbind outcome_bind obind] in Hc.
    destruct (existsb id flags) eqn:X; injection Hc as <-.
    + destruct (Hw eq_refl) as (b0 & b1 & b2 & b3 & b4 & b5 & b6 & ->).
      cbn [dict_set].
      split; [|split; [reflexivity|split; [exact Hnum|split; [exact Hrange|]]]].
      * rewrite dumps_weekdays. apply loads_of_members.
        -- intros F. change (14 + F)%nat with (12 + S (S F))%nat.
           rewrite scan_member_weekdays by exact X. reflexivity.
        -- rewrite List.length_app. cbn. lia.
      * reflexivity.
    + split; [vm_compute; reflexivity|].
      split; [reflexivity|split; [exact Hnum|split; [exact Hrange|reflexivity]]].
Qed.

Lemma form_custom_extra_reads_back_witness :
  loads (extra_text
           (dumps (JObj [("every_x_days"%string, JInt 3);
                         ("weekdays"%string, JArr [JInt 1; JInt 4])])))
  = Ok (JObj [("every_x_days"%string, JInt 3);
              ("weekdays"%string, JArr [JInt 1; JInt 4])]).
Proof.
  exact (proj1 (form_custom_extra_reads_back "3"
                  [false; true; false; false; true; false; false]
                  [("every_x_days"%string, JInt 3);
                   ("weekdays"%string, JArr [JInt 1; JInt 4])]
                  (or_intror eq_refl) ltac:(vm_compute; reflexivity))).
Defined.

Lemma make_datetime_valid y mo d h m :
  valid_date y mo d -> 0 <= h < 24 -> 0 <= m < 60 ->
  make_datetime (y, mo, d) h m = Ok (mkdt y mo d h m 0 0)
  /\ valid (mkdt y mo d h m 0 0).
Proof.
  intros (Hy & Hmo & Hd) Hh Hm.
  pose proof (CalendarFacts.days_in_month_range y mo Hmo) as Hdim.
  assert (V : valid (mkdt y mo d h m 0 0)).
  { repeat split; cbn; lia. }
  split; [|exact V]. unfold make_datetime.
  assert (F : forallb fits_int [y; mo; d; h; m] = true).
  { unfold fits_int, MAXYEAR in *. cbn [forallb].
    repeat (apply andb_true_intro; split); try reflexivity;
      try apply Z.leb_le; lia. }
  rewrite F. apply DatetimeFacts.validb_spec in V. rewrite V. reflexivity.
Qed.

(** X30.  [_add_task_from_ui]: a blank title adds nothing; otherwise
    the form stores one row under the new id, owned by the current user,
    not done, not notified, with no XP, whose due text reads back as the
    chosen date at the chosen hour and minute, whose recurrence is the menu
    word in lower case and whose [recurrence_extra] is the JSON text of the
    dict built from the custom fields; rows under other ids are not
    touched. *)
Theorem form_task_is_stored_pending
    (e : env) (u : option string) (f : form) (st : storage) (h m : Z)
    (members : list (string * json)) :
  0 <= h < 24 -> 0 <= m < 60 ->
  hour_var f = string_of_list_ascii (zero_pad 2 h) ->
  min_var f = string_of_list_ascii (zero_pad 2 m) ->
  (let '(y, mo, d) := date_entry f in valid_date y mo d) ->
  (if String.eqb (Text.lower (recur_var f)) "custom"
   then custom_extra (cust_days f) (cust_weekdays f) else Ok []) = Ok members ->
  let title := Chars.strip (entry_title f) in
  let recur := Text.lower (recur_var f) in
  let due := (let '(y, mo, d) := date_entry f in mkdt y mo d h m 0 0) in
  let st' := snd (add_task_from_ui e u f st) in
  (title = EmptyString -> add_task_from_ui e u f st = (Ok (), st))
  /\ (title <> EmptyString ->
      fst (add_task_from_ui e u f st) = Ok ()
      /\ get_task (uuid e) st'
         = Some (mkrow (uuid e) u (Some title) (Some (category_var f))
                   (Some (isoformat due)) (isoformat (utcnow e)) 0
                   (if String.eqb recur "" then "none" else recur)
                   (dumps (JObj members)) 0 0)
      /\ App.parse_iso (Some (isoformat due)) = Ok (Some due)
      /\ (forall j, j <> uuid e -> get_task j st' = get_task j st)
      /\ users st' = users st).
Proof.
  intros Hh Hm Ehv Emv Hd Hx title recur due st'.
  split.
  - intros Ht. unfold add_task_from_ui. fold title. rewrite Ht. reflexivity.
  - intros Ht. destruct (date_entry f) as [[y mo] d] eqn:Ed.
    destruct (make_datetime_valid y mo d h m Hd Hh Hm) as [Emk V].
    assert (Et : form_time (hour_var f) (min_var f) = Ok (h, m)).
    { unfold form_time. rewrite Ehv, Emv, !SnoozeFacts.int_text_pad2 by lia.
      reflexivity. }
    assert (Erun : add_task_from_ui e u f st
                   = (Ok (), add_task (uuid e) (isoformat (utcnow e))
                               (form_task e u title (category_var f) recur due members)
                               st)).
    { unfold add_task_from_ui. fold title.
      apply String.eqb_neq in Ht. rewrite Ht, Et, Ed, Emk.
      fold recur. fold recur in Hx. rewrite Hx. reflexivity. }
    assert (Erow : row_of_task (uuid e) (isoformat (utcnow e))
                     (form_task e u title (category_var f) recur due members)
                   = mkrow (uuid e) u (Some title) (Some (category_var f))
                       (Some (isoformat due)) (isoformat (utcnow e)) 0
                       (if String.eqb recur "" then "none" else recur)
                       (dumps (JObj members)) 0 0).
    { unfold row_of_task, form_task, str_or.
      cbn [t_id t_user t_title t_category t_due t_created t_done t_recurrence
           t_recurrence_extra t_notified t_xp].
      destruct (String.eqb (uuid e) ""), (String.eqb (isoformat (utcnow e)) "");
        reflexivity. }
    subst st'. rewrite Erun. cbn [fst snd].
    split; [reflexivity|]. split; [|split; [|split; [|reflexivity]]].
    + pose proof (StoreFacts.get_task_add_task_same (uuid e) (isoformat (utcnow e))
                    (form_task e u title (category_var f) recur due members) st) as G.
      rewrite Erow in G. exact G.
    + apply IsoFacts.parse_iso_isoformat, V.
    + intros j Hj. apply StoreFacts.get_task_add_task_other.
      rewrite Erow. exact Hj.
Qed.

Lemma form_task_is_stored_pending_witness :
  get_task "G1"
    (snd (add_task_from_ui (Scenario.env_at 2 "G1") (Some "ann") Samples.gym_form
            Scenario.empty_store))
  = Some (mkrow "G1" (Some "ann") (Some "Gym") (Some "Fitness")
            (Some "2024-01-02T09:30:00") "2024-01-02T09:30:00" 0 "custom"
            (dumps (JObj [("every_x_days"%string, JInt 3);
                          ("weekdays"%string, JArr [JInt 1; JInt 4])])) 0 0).
Proof.
  destruct (form_task_is_stored_pending (Scenario.env_at 2 "G1") (Some "ann")
              Samples.gym_form Scenario.empty_store 9 30
              [("every_x_days"%string, JInt 3);
               ("weekdays"%string, JArr [JInt 1; JInt 4])])
    as [_ H].
  - lia.
  - lia.
  - reflexivity.
  - reflexivity.
  - vm_compute. repeat split; discriminate.
  - vm_compute. reflexivity.
  - destruct (H ltac:(vm_compute; discriminate)) as (_ & G & _).
    eapply eq_trans; [exact G | vm_compute; reflexivity].
Defined.

End FormFacts.
